(** * Console UI glue: protocol panel, Facebook authenticator form, field adapters

    A shallow embedding of the decision logic found in
    - [access-configuration.tsx]  (component [AccessConfiguration]),
    - [facebook-authenticator-form.tsx] (component [FacebookAuthenticatorForm]),
    - the form field adapters ([TextFieldAdapter], [PasswordFieldAdapter],
      [CopyFieldAdapter], [TextAreaAdapter], [SelectAdapter]).

    JavaScript objects used as dictionaries are finite maps ([gmap string _]),
    arrays are lists, [undefined] is [None], promise chains are interpreted
    over an explicit event trace.  Definitions come first, statements after. *)

From stdpp Require Import gmap strings list fin_maps.
From Stdlib Require Import Permutation Sorted.

Open Scope string_scope.
Open Scope list_scope.

(* ===================================================================== *)
(** * Part I.  Definitions                                                *)
(* ===================================================================== *)

(** ** JavaScript conventions shared by the three components *)

Module Js.

(** A string is falsy exactly when it is empty. *)
Definition truthy (s : string) : bool := negb (String.eqb s "").

(** [undefined] is falsy; a defined string follows [truthy]. *)
Definition truthyOpt (v : option string) : bool :=
  match v with
  | Some s => truthy s
  | None => false
  end.

(** [Array.prototype.includes] on an array of strings. *)
Definition includes (x : string) (l : list string) : bool :=
  existsb (String.eqb x) l.

(** The only exception the embedded code can raise by itself: a property read
    or a call on [undefined]. *)
Inductive JsError : Type := TypeError.

Inductive completion (A : Type) : Type :=
| Normal (a : A)
| Throw (e : JsError).
Arguments Normal {A} a.
Arguments Throw {A} e.

(** [Array.prototype.filter] with a callback that may throw: elements are
    visited left to right, the first exception aborts the traversal. *)
Fixpoint filterM {A : Type} (f : A -> completion bool) (l : list A)
  : completion (list A) :=
  match l with
  | [] => Normal []
  | x :: rest =>
      match f x with
      | Throw e => Throw e
      | Normal keep =>
          match filterM f rest with
          | Throw e => Throw e
          | Normal kept => Normal (if keep then x :: kept else kept)
          end
      end
  end.

End Js.

(** ** The protocol catalogue

    The enum [SupportedAuthProtocolTypes] is imported from [../../models] and
    its declaration is not part of the sources at hand, so its member values
    and the order of [Object.values] are taken as parameters. *)

Class SupportedAuthProtocolTypes : Type := {
  SAML : string;
  OIDC : string;
  WS_FEDERATION : string;
  WS_TRUST : string;
  CUSTOM : string;
  (** [Object.values(SupportedAuthProtocolTypes)], in declaration order. *)
  protocolTypeValues : list string
}.

(** The extension configuration read by the panel:
    [CustomApplicationTemplate.id] and
    [applicationConfig.customApplication.allowedProtocolTypes]. *)
Record ExtensionConfig : Type := {
  customApplicationTemplateId : string;
  allowedProtocolTypes : option (list string)
}.

(** Modelled from the spec: the enum declaration of the protocol tags lives in
    a models file outside the sources; section 3 of the specification names
    the tags OIDC, SAML, WS-Trust, WS-Federation and custom.  This instance is
    only used to run the definitions on concrete inputs. *)
Definition consoleProtocolTypes : SupportedAuthProtocolTypes := {|
  SAML := "saml";
  OIDC := "oidc";
  WS_FEDERATION := "passive-sts";
  WS_TRUST := "ws-trust";
  CUSTOM := "custom";
  protocolTypeValues := ["saml"; "oidc"; "passive-sts"; "ws-trust"; "custom"]
|}.

Module AccessConfiguration.

Import Js.

(** [ApplicationTemplateListItemInterface], restricted to the two fields the
    panel reads. *)
Record ApplicationTemplateListItemInterface : Type := {
  id : string;
  authenticationProtocol : option string
}.

(** The props of the component that take part in its decisions.  An optional
    callback is represented by its presence. *)
Record AccessConfigurationPropsInterface : Type := {
  appId : string;
  extendedAccessConfig : bool;
  inboundProtocols : list string;
  isLoading : bool;
  isInboundProtocolConfigRequestLoading : bool;
  template : option ApplicationTemplateListItemInterface;
  onAllowedOriginsUpdate : bool;
  onApplicationSecretRegenerate : bool
}.

Section SupportedProtocols.

Context {E : SupportedAuthProtocolTypes}.
Variable cfg : ExtensionConfig.
Variable props : AccessConfigurationPropsInterface.

(** [template?.authenticationProtocol ? [ ... ] : Object.values(...)] *)
Definition candidateProtocols : list string :=
  match template props with
  | Some tpl =>
      match authenticationProtocol tpl with
      | Some p => if truthy p then [p] else protocolTypeValues
      | None => protocolTypeValues
      end
  | None => protocolTypeValues
  end.

(** The guard of the custom-application branch of the filter callback. *)
Definition customApplicationBranch (tpl : ApplicationTemplateListItemInterface) : bool :=
  String.eqb (id tpl) (customApplicationTemplateId cfg)
  && match allowedProtocolTypes cfg with
     | Some allowed => Nat.ltb 0 (List.length allowed)
     | None => false
     end.

(** The list consulted by the custom-application branch. *)
Definition allowedList : list string :=
  match allowedProtocolTypes cfg with
  | Some allowed => allowed
  | None => []
  end.

(** The callback handed to [filter].  It reads [template.id] without optional
    chaining, hence throws when no template was passed.  The callback returns
    either [false] or the protocol string itself, which [filter] coerces. *)
Definition keepProtocol (filterProtocol : option string) (protocol : string)
  : completion bool :=
  match template props with
  | None => Throw TypeError
  | Some tpl =>
      if customApplicationBranch tpl then
        if includes protocol allowedList
        then Normal (truthy protocol)
        else Normal false
      else if String.eqb protocol WS_TRUST
              || String.eqb protocol CUSTOM
              || (extendedAccessConfig props && String.eqb protocol WS_FEDERATION)
              || match filterProtocol with
                 | Some fp => truthy fp && String.eqb protocol fp
                 | None => false
                 end
      then Normal false
      else Normal (truthy protocol)
  end.

Definition getSupportedProtocols (filterProtocol : option string)
  : completion (list string) :=
  filterM (keepProtocol filterProtocol) candidateProtocols.

End SupportedProtocols.

(** *** Ordering of the supported protocols *)

(** lodash [sortBy], for an iteratee that yields a number or [undefined]:
    a stable ascending sort in which [undefined] comes after every number
    (lodash [compareAscending]; ties are broken by the original index). *)
Definition keyLt (a b : option nat) : bool :=
  match a, b with
  | Some x, Some y => Nat.ltb x y
  | Some _, None => true
  | None, _ => false
  end.

Fixpoint insertByKey {A : Type} (iteratee : A -> option nat) (x : A) (sorted : list A)
  : list A :=
  match sorted with
  | [] => [x]
  | y :: rest =>
      if keyLt (iteratee y) (iteratee x)
      then y :: insertByKey iteratee x rest
      else x :: y :: rest
  end.

Definition sortBy {A : Type} (collection : list A) (iteratee : A -> option nat) : list A :=
  foldr (insertByKey iteratee) [] collection.

(** The component state held in [useState] hooks. *)
Record PanelState : Type := {
  selectedProtocol : option string;
  inboundProtocolList : list string;
  supportedProtocolList : option (list string);
  showWizard : bool;
  showDeleteConfirmationModal : bool;
  showProtocolSwitchModal : bool;
  protocolToDelete : option string;
  showLandingPage : bool;
  requestLoading : bool
}.

Definition initialState : PanelState := {|
  selectedProtocol := None;
  inboundProtocolList := [];
  supportedProtocolList := None;
  showWizard := false;
  showDeleteConfirmationModal := false;
  showProtocolSwitchModal := false;
  protocolToDelete := None;
  showLandingPage := true;
  requestLoading := false
|}.

Definition setSelectedProtocol (v : option string) (st : PanelState) : PanelState := {|
  selectedProtocol := v;
  inboundProtocolList := inboundProtocolList st;
  supportedProtocolList := supportedProtocolList st;
  showWizard := showWizard st;
  showDeleteConfirmationModal := showDeleteConfirmationModal st;
  showProtocolSwitchModal := showProtocolSwitchModal st;
  protocolToDelete := protocolToDelete st;
  showLandingPage := showLandingPage st;
  requestLoading := requestLoading st
|}.

Definition setSupportedProtocolList (v : list string) (st : PanelState) : PanelState := {|
  selectedProtocol := selectedProtocol st;
  inboundProtocolList := inboundProtocolList st;
  supportedProtocolList := Some v;
  showWizard := showWizard st;
  showDeleteConfirmationModal := showDeleteConfirmationModal st;
  showProtocolSwitchModal := showProtocolSwitchModal st;
  protocolToDelete := protocolToDelete st;
  showLandingPage := showLandingPage st;
  requestLoading := requestLoading st
|}.

Definition setShowWizard (v : bool) (st : PanelState) : PanelState := {|
  selectedProtocol := selectedProtocol st;
  inboundProtocolList := inboundProtocolList st;
  supportedProtocolList := supportedProtocolList st;
  showWizard := v;
  showDeleteConfirmationModal := showDeleteConfirmationModal st;
  showProtocolSwitchModal := showProtocolSwitchModal st;
  protocolToDelete := protocolToDelete st;
  showLandingPage := showLandingPage st;
  requestLoading := requestLoading st
|}.

Definition setShowDeleteConfirmationModal (v : bool) (st : PanelState) : PanelState := {|
  selectedProtocol := selectedProtocol st;
  inboundProtocolList := inboundProtocolList st;
  supportedProtocolList := supportedProtocolList st;
  showWizard := showWizard st;
  showDeleteConfirmationModal := v;
  showProtocolSwitchModal := showProtocolSwitchModal st;
  protocolToDelete := protocolToDelete st;
  showLandingPage := showLandingPage st;
  requestLoading := requestLoading st
|}.

Definition setShowProtocolSwitchModal (v : bool) (st : PanelState) : PanelState := {|
  selectedProtocol := selectedProtocol st;
  inboundProtocolList := inboundProtocolList st;
  supportedProtocolList := supportedProtocolList st;
  showWizard := showWizard st;
  showDeleteConfirmationModal := showDeleteConfirmationModal st;
  showProtocolSwitchModal := v;
  protocolToDelete := protocolToDelete st;
  showLandingPage := showLandingPage st;
  requestLoading := requestLoading st
|}.

Definition setRequestLoading (v : bool) (st : PanelState) : PanelState := {|
  selectedProtocol := selectedProtocol st;
  inboundProtocolList := inboundProtocolList st;
  supportedProtocolList := supportedProtocolList st;
  showWizard := showWizard st;
  showDeleteConfirmationModal := showDeleteConfirmationModal st;
  showProtocolSwitchModal := showProtocolSwitchModal st;
  protocolToDelete := protocolToDelete st;
  showLandingPage := showLandingPage st;
  requestLoading := v
|}.

Definition setInboundProtocolList (v : list string) (st : PanelState) : PanelState := {|
  selectedProtocol := selectedProtocol st;
  inboundProtocolList := v;
  supportedProtocolList := supportedProtocolList st;
  showWizard := showWizard st;
  showDeleteConfirmationModal := showDeleteConfirmationModal st;
  showProtocolSwitchModal := showProtocolSwitchModal st;
  protocolToDelete := protocolToDelete st;
  showLandingPage := showLandingPage st;
  requestLoading := requestLoading st
|}.

(** [inboundProtocolList.push(protocol)]: the array held in the state is
    mutated in place. *)
Definition pushInboundProtocol (protocol : string) (st : PanelState) : PanelState :=
  setInboundProtocolList (inboundProtocolList st ++ [protocol]) st.


Section ProtocolOrder.

Context {E : SupportedAuthProtocolTypes}.
Variable cfg : ExtensionConfig.
Variable props : AccessConfigurationPropsInterface.

(** The object literal [{ [OIDC]: 0, [SAML]: 1 }]. *)
Definition defaultOrder : gmap string nat := <[SAML := 1]> (<[OIDC := 0]> ∅).

(** The [forEach] over the configured protocols: every configured protocol
    that is a known protocol type overwrites its entry with its index. *)
Fixpoint recordConfigured (index : nat) (inbound : list string)
  (customOrder : gmap string nat) : gmap string nat :=
  match inbound with
  | [] => customOrder
  | protocol :: rest =>
      recordConfigured (S index) rest
        (if includes protocol protocolTypeValues
         then <[protocol := index]> customOrder
         else customOrder)
  end.

Definition customOrder (inbound : list string) : gmap string nat :=
  if Nat.ltb 0 (List.length inbound)
  then recordConfigured 0 inbound defaultOrder
  else defaultOrder.

(** The iteratee handed to [sortBy]: [customOrder[element]].  Protocol names
    are assumed not to collide with members of [Object.prototype]. *)
Definition protocolRank (inbound : list string) (element : string) : option nat :=
  customOrder inbound !! element.

(** The local [supportedProtocols] of [loadSupportedProtocols] after the sort. *)
Definition sortedSupportedProtocols : completion (list string) :=
  match getSupportedProtocols cfg props None with
  | Throw e => Throw e
  | Normal supportedProtocols =>
      Normal (sortBy supportedProtocols (protocolRank (inboundProtocols props)))
  end.

Definition loadSupportedProtocols (st : PanelState) : completion PanelState :=
  match sortedSupportedProtocols with
  | Throw e => Throw e
  | Normal supportedProtocols =>
      let st1 :=
        if truthyOpt (selectedProtocol st) then st
        else setSelectedProtocol (head supportedProtocols) st in
      let st2 :=
        match supportedProtocolList st1 with
        | None => setSupportedProtocolList supportedProtocols st1
        | Some _ => st1
        end in
      Normal st2
  end.

End ProtocolOrder.

(** *** Backend calls, notifications and promise chains *)

Inductive AlertLevels : Type := SUCCESS | ERROR.

(** The payload of [addAlert]. *)
Record AlertInterface : Type := {
  description : string;
  level : AlertLevels;
  message : string
}.

(** The shape probed by [error?.response?.data?.description]. *)
Record ErrorData : Type := { errorDescription : option string }.
Record ErrorResponse : Type := { data : option ErrorData }.
Record AxiosError : Type := { response : option ErrorResponse }.

(** What a [catch] callback may receive: the rejection of the backend call, or
    an exception raised by the preceding [then] callback. *)
Inductive Reason : Type :=
| BackendFailure (e : AxiosError)
| Raised (e : JsError).

Definition structuredDescription (error : Reason) : option string :=
  match error with
  | BackendFailure e =>
      match response e with
      | Some r =>
          match data r with
          | Some d => errorDescription d
          | None => None
          end
      | None => None
      end
  | Raised _ => None
  end.

Section Handlers.

(** [FormData] stands for the untyped form values, [Payload] for the body of a
    successful response. *)
Variables FormData Payload : Type.

(** The functions imported from [../../api]; each one starts a request. *)
Inductive ApiCall : Type :=
| deleteProtocol (appId : string) (protocol : option string)
| updateAuthProtocolConfig (appId : string) (values : FormData) (protocol : option string)
| updateApplicationDetails (appId : string) (general : FormData)
| regenerateClientSecret (appId : string)
| revokeClientSecret (appId : string)
| getAuthProtocolMetadata (protocol : string).

Inductive Settled : Type :=
| Fulfilled (payload : Payload)
| Rejected (error : AxiosError).

(** Everything observable that a handler does. *)
Inductive Event : Type :=
| Request (call : ApiCall)
| Settle (call : ApiCall) (outcome : Settled)
| DispatchAddAlert (alert : AlertInterface)
| DispatchSetAuthProtocolMeta (protocol : string) (payload : Payload)
| OnUpdate (appId : string)
| OnProtocolUpdate
| OnAllowedOriginsUpdate
| OnApplicationSecretRegenerate (payload : Payload)
| SetRequestLoading (v : bool)
| SetSelectedProtocol (v : option string)
| SetShowDeleteConfirmationModal (v : bool)
| SetShowProtocolSwitchModal (v : bool)
| SetShowWizard (v : bool)
| SetInboundProtocolList (v : list string)
| PushInboundProtocol (protocol : string).

(** The effects of running a block of statements: the events of the current
    turn, the events that follow once the requests started in that block have
    settled, and the exception that interrupted the block, if any. *)
Record Effects : Type := {
  now : list Event;
  later : list Event;
  raised : option JsError
}.

Definition skip : Effects := {| now := []; later := []; raised := None |}.
Definition emit (e : Event) : Effects := {| now := [e]; later := []; raised := None |}.
Definition throw (e : JsError) : Effects := {| now := []; later := []; raised := Some e |}.

Definition andThen (a b : Effects) : Effects :=
  match raised a with
  | Some _ => a
  | None => {| now := now a ++ now b; later := later a ++ later b; raised := raised b |}
  end.

Definition block (statements : list Effects) : Effects := foldr andThen skip statements.

(** Calling a callback prop that may be absent. *)
Definition callProp (present : bool) (e : Event) : Effects :=
  if present then emit e else throw TypeError.

(** A promise chain under construction. *)
Record Chain : Type := {
  emitted : list Event;
  deferred : list Event;
  rejection : option Reason
}.

Definition then_ (outcome : Settled) (onFulfilled : Payload -> Effects) : Chain :=
  match outcome with
  | Fulfilled payload =>
      let cb := onFulfilled payload in
      {| emitted := now cb; deferred := later cb; rejection := Raised <$> raised cb |}
  | Rejected error =>
      {| emitted := []; deferred := []; rejection := Some (BackendFailure error) |}
  end.

Definition catch_ (c : Chain) (onRejected : Reason -> Effects) : Chain :=
  match rejection c with
  | None => c
  | Some error =>
      let cb := onRejected error in
      {| emitted := emitted c ++ now cb;
         deferred := deferred c ++ later cb;
         rejection := Raised <$> raised cb |}
  end.

Definition finally_ (c : Chain) (onFinally : Effects) : Chain :=
  {| emitted := emitted c ++ now onFinally;
     deferred := deferred c ++ later onFinally;
     rejection := match raised onFinally with
                  | Some e => Some (Raised e)
                  | None => rejection c
                  end |}.

(** The translation function [t] of [useTranslation], with its interpolation
    options. *)
Variable t : string -> list (string * option string) -> string.
Variable props : AccessConfigurationPropsInterface.
(** How the backend answers each request. *)
Variable backend : ApiCall -> Settled.

(** Starting a request returns at once; its callbacks run in a later turn,
    after the statements that follow the call in the current turn. *)
Definition fireAndForget (call : ApiCall) (callbacks : Settled -> Chain) : Effects :=
  let chain := callbacks (backend call) in
  {| now := [Request call];
     later := Settle call (backend call) :: emitted chain ++ deferred chain;
     raised := None |}.

Definition notifications : string := "console:develop.features.applications.notifications.".

(** The body shared, up to its translation keys, by every [catch] callback of
    the component. *)
Definition alertOnError (errorMessage genericDescription genericMessage : string)
  (error : Reason) : Effects :=
  match structuredDescription error with
  | Some d =>
      if truthy d
      then emit (DispatchAddAlert {|
             description := d;
             level := ERROR;
             message := t (notifications +:+ errorMessage) [] |})
      else emit (DispatchAddAlert {|
             description := t (notifications +:+ genericDescription) [];
             level := ERROR;
             message := t (notifications +:+ genericMessage) [] |})
  | None =>
      emit (DispatchAddAlert {|
        description := t (notifications +:+ genericDescription) [];
        level := ERROR;
        message := t (notifications +:+ genericMessage) [] |})
  end.

Definition handleInboundConfigDelete (protocol : option string) : Effects :=
  fireAndForget (deleteProtocol (appId props) protocol) (fun outcome =>
    catch_
      (then_ outcome (fun _ => block [
         emit (DispatchAddAlert {|
           description := t (notifications +:+ "deleteProtocolConfig.success.description")
                            [("protocol", protocol)];
           level := SUCCESS;
           message := t (notifications +:+ "deleteProtocolConfig.success.message") [] |});
         emit (OnUpdate (appId props)) ]))
      (alertOnError "deleteProtocolConfig.error.message"
                    "deleteProtocolConfig.genericError.description"
                    "deleteProtocolConfig.genericError.message")).

Definition handleInboundConfigSwitch (protocol : option string) : Effects :=
  andThen (emit (SetRequestLoading true))
    (fireAndForget (deleteProtocol (appId props) protocol) (fun outcome =>
      finally_
        (catch_
          (then_ outcome (fun _ => emit (OnUpdate (appId props))))
          (alertOnError "deleteProtocolConfig.error.message"
                        "deleteProtocolConfig.genericError.description"
                        "deleteProtocolConfig.genericError.message"))
        (block [ emit (SetRequestLoading false); emit (SetSelectedProtocol None) ]))).

Definition handleInboundConfigFormSubmit (values : FormData) (protocol : option string)
  : Effects :=
  fireAndForget (updateAuthProtocolConfig (appId props) values protocol) (fun outcome =>
    finally_
      (catch_
        (then_ outcome (fun _ => block [
           emit (DispatchAddAlert {|
             description := t (notifications +:+ "updateInboundProtocolConfig.success.description") [];
             level := SUCCESS;
             message := t (notifications +:+ "updateInboundProtocolConfig.success.message") [] |});
           callProp (onAllowedOriginsUpdate props) OnAllowedOriginsUpdate ]))
        (alertOnError "updateInboundProtocolConfig.error.message"
                      "updateInboundProtocolConfig.genericError.description"
                      "updateInboundProtocolConfig.genericError.message"))
      (block [ emit (OnUpdate (appId props)); emit OnProtocolUpdate ])).

(** [values.general] and [values.inbound] are passed separately. *)
Definition handleSubmit (selectedProtocol : option string) (general inbound : FormData)
  : Effects :=
  andThen (emit (SetRequestLoading true))
    (fireAndForget (updateApplicationDetails (appId props) general) (fun outcome =>
      finally_
        (catch_
          (then_ outcome (fun _ => handleInboundConfigFormSubmit inbound selectedProtocol))
          (alertOnError "updateApplication.error.message"
                        "updateApplication.genericError.description"
                        "updateApplication.genericError.message"))
        (emit (SetRequestLoading false)))).

Definition handleApplicationRegenerate : Effects :=
  fireAndForget (regenerateClientSecret (appId props)) (fun outcome =>
    catch_
      (then_ outcome (fun payload => block [
         emit (DispatchAddAlert {|
           description := t (notifications +:+ "regenerateSecret.success.description") [];
           level := SUCCESS;
           message := t (notifications +:+ "regenerateSecret.success.message") [] |});
         callProp (onApplicationSecretRegenerate props) (OnApplicationSecretRegenerate payload);
         emit (OnUpdate (appId props)) ]))
      (alertOnError "regenerateSecret.error.message"
                    "regenerateSecret.genericError.description"
                    "regenerateSecret.genericError.message")).

Definition handleApplicationRevoke : Effects :=
  fireAndForget (revokeClientSecret (appId props)) (fun outcome =>
    catch_
      (then_ outcome (fun _ => block [
         emit (DispatchAddAlert {|
           description := t (notifications +:+ "revokeApplication.success.description") [];
           level := SUCCESS;
           message := t (notifications +:+ "revokeApplication.success.message") [] |});
         emit (OnUpdate (appId props)) ]))
      (alertOnError "revokeApplication.error.message"
                    "revokeApplication.success.description"
                    "revokeApplication.success.message")).

(** One iteration of the metadata effect, for a protocol whose metadata is not
    yet in the store. *)
Definition fetchAuthProtocolMetadata (selected : string) : Effects :=
  fireAndForget (getAuthProtocolMetadata selected) (fun outcome =>
    catch_
      (then_ outcome (fun payload => emit (DispatchSetAuthProtocolMeta selected payload)))
      (alertOnError "fetchProtocolMeta.error.message"
                    "fetchProtocolMeta.genericError.description"
                    "fetchProtocolMeta.genericError.message")).

(** The whole observable trace of a handler called from an event handler. *)
Definition trace (e : Effects) : list Event := now e ++ later e.

End Handlers.

Arguments deleteProtocol {FormData} appId protocol.
Arguments updateAuthProtocolConfig {FormData} appId values protocol.
Arguments updateApplicationDetails {FormData} appId general.
Arguments regenerateClientSecret {FormData} appId.
Arguments revokeClientSecret {FormData} appId.
Arguments getAuthProtocolMetadata {FormData} protocol.
Arguments Fulfilled {Payload} payload.
Arguments Rejected {Payload} error.
Arguments Request {FormData Payload} call.
Arguments Settle {FormData Payload} call outcome.
Arguments DispatchAddAlert {FormData Payload} alert.
Arguments DispatchSetAuthProtocolMeta {FormData Payload} protocol payload.
Arguments OnUpdate {FormData Payload} appId.
Arguments OnProtocolUpdate {FormData Payload}.
Arguments OnAllowedOriginsUpdate {FormData Payload}.
Arguments OnApplicationSecretRegenerate {FormData Payload} payload.
Arguments SetRequestLoading {FormData Payload} v.
Arguments SetSelectedProtocol {FormData Payload} v.
Arguments SetShowDeleteConfirmationModal {FormData Payload} v.
Arguments SetShowProtocolSwitchModal {FormData Payload} v.
Arguments SetShowWizard {FormData Payload} v.
Arguments SetInboundProtocolList {FormData Payload} v.
Arguments PushInboundProtocol {FormData Payload} protocol.
Arguments now {FormData Payload} e.
Arguments later {FormData Payload} e.
Arguments raised {FormData Payload} e.
Arguments skip {FormData Payload}.
Arguments emit {FormData Payload} e.
Arguments throw {FormData Payload} e.
Arguments andThen {FormData Payload} a b.
Arguments block {FormData Payload} statements.
Arguments callProp {FormData Payload} present e.
Arguments emitted {FormData Payload} c.
Arguments deferred {FormData Payload} c.
Arguments rejection {FormData Payload} c.
Arguments then_ {FormData Payload} outcome onFulfilled.
Arguments catch_ {FormData Payload} c onRejected.
Arguments finally_ {FormData Payload} c onFinally.
Arguments fireAndForget {FormData Payload} backend call callbacks.
Arguments alertOnError {FormData Payload} t errorMessage genericDescription genericMessage error.
Arguments handleInboundConfigDelete {FormData Payload} t props backend protocol.
Arguments handleInboundConfigSwitch {FormData Payload} t props backend protocol.
Arguments handleInboundConfigFormSubmit {FormData Payload} t props backend values protocol.
Arguments handleSubmit {FormData Payload} t props backend selectedProtocol general inbound.
Arguments handleApplicationRegenerate {FormData Payload} t props backend.
Arguments handleApplicationRevoke {FormData Payload} t props backend.
Arguments fetchAuthProtocolMetadata {FormData Payload} t backend selected.
Arguments trace {FormData Payload} e.

(** *** The panel as a reactive system *)

Section Panel.

Context {E : SupportedAuthProtocolTypes}.
Variables FormData Payload : Type.
Variable t : string -> list (string * option string) -> string.
Variable cfg : ExtensionConfig.
Variable props : AccessConfigurationPropsInterface.
Variable backend : ApiCall FormData -> Settled Payload.
(** [state.config.deployment.allowMultipleAppProtocols] *)
Variable allowMultipleProtocol : bool.
(** [state.application.meta.protocolMeta] and
    [Object.values(SupportedAuthProtocolMetaTypes)] (another enum of the
    models file). *)
Variable authProtocolMeta : gmap string Payload.
Variable protocolMetaTypeValues : list string.

Local Abbreviation Effects := (Effects FormData Payload).
Local Abbreviation Event := (Event FormData Payload).

(** The effect that fetches missing protocol metadata.  The requests are
    started in one turn; their answers are delivered in request order. *)
Definition fetchMetadataEffect : Effects :=
  block (map (fun selected =>
    if String.eqb selected WS_FEDERATION || String.eqb selected WS_TRUST
    then skip
    else match authProtocolMeta !! selected with
         | Some _ => skip
         | None => fetchAuthProtocolMetadata t backend selected
         end) protocolMetaTypeValues).

(** The effect that mirrors the configured protocols into the state. *)
Definition mirrorInboundProtocolsEffect : Effects :=
  if Nat.ltb 0 (List.length (inboundProtocols props))
  then emit (SetInboundProtocolList (inboundProtocols props))
  else skip.

(** What the component returns for the current state. *)
Inductive View : Type :=
| ContentLoader
| ProtocolLanding (availableProtocols : list string)
| Grid.

Definition render (st : PanelState) : completion View :=
  if negb (isLoading props) && negb (requestLoading st)
     && negb (isInboundProtocolConfigRequestLoading props)
  then
    if negb (truthyOpt (selectedProtocol st))
       && Nat.eqb (List.length (inboundProtocols props)) 0
       && negb allowMultipleProtocol
    then
      match getSupportedProtocols cfg props None with
      | Throw e => Throw e
      | Normal supported =>
          if negb (Nat.eqb (List.length supported) 1)
          then Normal (ProtocolLanding supported)
          else Normal Grid
      end
    else Normal Grid
  else Normal ContentLoader.

(** What can happen to a mounted panel. *)
Inductive Stimulus : Type :=
| EffectsRun
| LandingSelectProtocol (protocol : string)
| BannerSelectProtocol (protocol : string)
| SubmitForm (general inbound : FormData)
| RegenerateSecret
| RevokeSecret
| CloseWizard
| DeleteModalClose
| DeleteModalSecondary
| DeleteModalPrimary
| SwitchModalClose
| SwitchModalSecondary
| SwitchModalPrimary.

Definition selectInitialProtocol (protocol : string) : Effects :=
  block [ emit (SetSelectedProtocol (Some protocol));
              emit (PushInboundProtocol protocol) ].

(** The callbacks wired into the [Grid] branch, each guarded by the condition
    under which the control that owns it is rendered. *)
Definition gridCallback (st : PanelState) (s : Stimulus) : option Effects :=
  let formShown := truthyOpt (selectedProtocol st) in
  let known :=
    match selectedProtocol st with
    | Some p => includes p protocolTypeValues
    | None => false
    end in
  match s with
  | EffectsRun => None
  | LandingSelectProtocol _ => None
  | BannerSelectProtocol protocol =>
      match supportedProtocolList st with
      | Some listed =>
          if formShown && allowMultipleProtocol && includes protocol listed
          then Some (emit (SetSelectedProtocol (Some protocol)))
          else None
      | None => None
      end
  | SubmitForm general inbound =>
      if formShown
      then Some (handleSubmit t props backend (selectedProtocol st) general inbound)
      else None
  | RegenerateSecret =>
      if formShown && known
      then Some (handleApplicationRegenerate t props backend)
      else None
  | RevokeSecret =>
      if formShown && known
      then Some (handleApplicationRevoke t props backend)
      else None
  | CloseWizard =>
      if showWizard st then Some (emit (SetShowWizard false)) else None
  | DeleteModalClose | DeleteModalSecondary =>
      if showDeleteConfirmationModal st
      then Some (emit (SetShowDeleteConfirmationModal false))
      else None
  | DeleteModalPrimary =>
      if showDeleteConfirmationModal st
      then Some (block [
             handleInboundConfigDelete t props backend (protocolToDelete st);
             emit (SetShowDeleteConfirmationModal false) ])
      else None
  | SwitchModalClose =>
      if showProtocolSwitchModal st
      then Some (emit (SetShowDeleteConfirmationModal false))
      else None
  | SwitchModalSecondary =>
      if showProtocolSwitchModal st
      then Some (emit (SetShowProtocolSwitchModal false))
      else None
  | SwitchModalPrimary =>
      if showProtocolSwitchModal st
      then Some (block [
             handleInboundConfigSwitch t props backend (selectedProtocol st);
             emit (SetShowProtocolSwitchModal false) ])
      else None
  end.

(** The state setters behind the events. *)
Definition applyEvent (st : PanelState) (e : Event) : PanelState :=
  match e with
  | SetRequestLoading v => setRequestLoading v st
  | SetSelectedProtocol v => setSelectedProtocol v st
  | SetShowDeleteConfirmationModal v => setShowDeleteConfirmationModal v st
  | SetShowProtocolSwitchModal v => setShowProtocolSwitchModal v st
  | SetShowWizard v => setShowWizard v st
  | SetInboundProtocolList v => setInboundProtocolList v st
  | PushInboundProtocol protocol => pushInboundProtocol protocol st
  | _ => st
  end.

(** One reaction of the panel: the state the stimulus finds (after the render
    that exposed the control), the effects of the callback, the resulting
    state.  Requests started by the callback are taken to settle before the
    next stimulus.  [None]: the control is not on screen, or rendering threw. *)
Definition react (st : PanelState) (s : Stimulus) : option (PanelState * list Event) :=
  match s with
  | EffectsRun =>
      let tr := trace (block [ mirrorInboundProtocolsEffect; fetchMetadataEffect ]) in
      Some (foldl applyEvent st tr, tr)
  | _ =>
      match render st with
      | Throw _ => None
      | Normal ContentLoader => None
      | Normal (ProtocolLanding available) =>
          match s with
          | LandingSelectProtocol protocol =>
              if includes protocol available
              then let tr := trace (selectInitialProtocol protocol) in
                   Some (foldl applyEvent st tr, tr)
              else None
          | _ => None
          end
      | Normal Grid =>
          match loadSupportedProtocols cfg props st with
          | Throw _ => None
          | Normal st1 =>
              match gridCallback st1 s with
              | Some effects =>
                  let tr := trace effects in
                  Some (foldl applyEvent st1 tr, tr)
              | None => None
              end
          end
      end
  end.

Fixpoint run (st : PanelState) (stimuli : list Stimulus)
  : option (PanelState * list Event) :=
  match stimuli with
  | [] => Some (st, [])
  | s :: rest =>
      match react st s with
      | None => None
      | Some (st1, tr1) =>
          match run st1 rest with
          | None => None
          | Some (st2, tr2) => Some (st2, tr1 ++ tr2)
          end
      end
  end.

(** Is this event a [deleteProtocol] request? *)
Definition isDeleteRequest (e : Event) : bool :=
  match e with
  | Request (deleteProtocol _ _) => true
  | _ => false
  end.

Definition isPrimaryClick (s : Stimulus) : bool :=
  match s with
  | DeleteModalPrimary | SwitchModalPrimary => true
  | _ => false
  end.

End Panel.

Arguments fetchMetadataEffect {E FormData Payload} t backend authProtocolMeta protocolMetaTypeValues.
Arguments mirrorInboundProtocolsEffect {FormData Payload} props.
Arguments selectInitialProtocol {FormData Payload} protocol.
Arguments EffectsRun {FormData}.
Arguments LandingSelectProtocol {FormData} protocol.
Arguments BannerSelectProtocol {FormData} protocol.
Arguments SubmitForm {FormData} general inbound.
Arguments RegenerateSecret {FormData}.
Arguments RevokeSecret {FormData}.
Arguments CloseWizard {FormData}.
Arguments DeleteModalClose {FormData}.
Arguments DeleteModalSecondary {FormData}.
Arguments DeleteModalPrimary {FormData}.
Arguments SwitchModalClose {FormData}.
Arguments SwitchModalSecondary {FormData}.
Arguments SwitchModalPrimary {FormData}.
Arguments gridCallback {E FormData Payload} t props backend allowMultipleProtocol st s.
Arguments applyEvent {FormData Payload} st e.
Arguments react {E FormData Payload} t cfg props backend allowMultipleProtocol
  authProtocolMeta protocolMetaTypeValues st s.
Arguments run {E FormData Payload} t cfg props backend allowMultipleProtocol
  authProtocolMeta protocolMetaTypeValues st stimuli.
Arguments isDeleteRequest {FormData Payload} e.
Arguments isPrimaryClick {FormData} s.

End AccessConfiguration.

(** ** The Facebook authenticator form *)

Module FacebookAuthenticatorForm.

Import Js.

(** [CommonAuthenticatorFormPropertyInterface]: one entry of the flat
    property list. *)
Module Property.
Record t : Type := { key : string; value : string }.
End Property.

(** [CommonAuthenticatorFormFieldMetaInterface], with the attributes the form
    reads. *)
Module FieldMeta.
Record t : Type := {
  key : string;
  isMandatory : bool;
  readOnly : bool;
  maxLength : nat
}.
End FieldMeta.

(** [CommonAuthenticatorFormMetaInterface] *)
Record CommonAuthenticatorFormMetaInterface : Type := {
  metaProperties : list FieldMeta.t
}.

(** [CommonAuthenticatorFormFieldInterface]: an entry of the field-keyed map. *)
Module Field.
Record t : Type := { meta : option FieldMeta.t; value : string }.
End Field.

(** A scalar held by a field of the initial values other than [properties]. *)
Inductive Scalar : Type :=
| Str (s : string)
| Bool (b : bool)
| Num (n : nat).

(** [CommonAuthenticatorFormInitialValuesInterface]: the [properties] array,
    possibly absent, next to the remaining own fields of the object. *)
Record CommonAuthenticatorFormInitialValuesInterface : Type := {
  properties : option (list Property.t);
  others : gmap string Scalar
}.

(** The two [useState] cells of the component. *)
Record FormState : Type := {
  formFields : option (gmap string Field.t);
  initialValues : option (gmap string string)
}.

Definition unresolved : FormState := {| formFields := None; initialValues := None |}.

(** lodash [isEmpty] on an array that may be [undefined]. *)
Definition isEmpty {A : Type} (v : option (list A)) : bool :=
  match v with
  | Some (_ :: _) => false
  | _ => true
  end.

Section Form.

Variable metadata : option CommonAuthenticatorFormMetaInterface.
Variable originalInitialValues : option CommonAuthenticatorFormInitialValuesInterface.

(** [originalInitialValues?.properties] *)
Definition originalProperties : option (list Property.t) :=
  match originalInitialValues with
  | Some o => properties o
  | None => None
  end.

(** [metadata?.properties.find((meta) => meta.key === value.key)] *)
Definition findMeta (k : string) : option FieldMeta.t :=
  match metadata with
  | Some m => List.find (fun meta => String.eqb (FieldMeta.key meta) k) (metaProperties m)
  | None => None
  end.

(** One iteration of the [map] callback: both accumulators are spread and the
    computed key is set. *)
Definition resolveProperty (acc : gmap string Field.t * gmap string string)
  (value : Property.t) : gmap string Field.t * gmap string string :=
  (<[Property.key value := {| Field.meta := findMeta (Property.key value);
                              Field.value := Property.value value |}]> (fst acc),
   <[Property.key value := Property.value value]> (snd acc)).

(** The initialisation effect, as a transformer of the component state. *)
Definition initialisationEffect (st : FormState) : FormState :=
  if isEmpty originalProperties then st
  else
    match originalProperties with
    | Some supplied =>
        let resolved := foldl resolveProperty (∅, ∅) supplied in
        {| formFields := Some (fst resolved); initialValues := Some (snd resolved) |}
    | None => st
    end.

(** [values] is given by its [Object.entries], in enumeration order. *)
Definition getUpdatedConfigurations (values : list (string * string))
  : CommonAuthenticatorFormInitialValuesInterface :=
  let properties :=
    foldl (fun pushed entry =>
             pushed ++ [ {| Property.key := fst entry; Property.value := snd entry |} ])
          [] values in
  {| properties := Some properties;
     others := match originalInitialValues with
               | Some o => others o
               | None => ∅
               end |}.

(** The [onSubmit] wired into the [Form]. *)
Definition formOnSubmit {R : Type}
  (onSubmit : CommonAuthenticatorFormInitialValuesInterface -> R)
  (values : list (string * string)) : R :=
  onSubmit (getUpdatedConfigurations values).

End Form.

(** What the inputs read from the resolved map, e.g.
    [formFields?.ClientId?.meta?.isMandatory]. *)
Definition fieldEntry (st : FormState) (name : string) : option Field.t :=
  match formFields st with
  | Some fields => fields !! name
  | None => None
  end.

Definition fieldMeta (st : FormState) (name : string) : option FieldMeta.t :=
  match fieldEntry st name with
  | Some entry => Field.meta entry
  | None => None
  end.

Definition required (st : FormState) (name : string) : option bool :=
  FieldMeta.isMandatory <$> fieldMeta st name.

Definition readOnly (st : FormState) (name : string) : option bool :=
  FieldMeta.readOnly <$> fieldMeta st name.

Definition maxLength (st : FormState) (name : string) : option nat :=
  FieldMeta.maxLength <$> fieldMeta st name.

Definition value (st : FormState) (name : string) : option string :=
  Field.value <$> fieldEntry st name.

End FacebookAuthenticatorForm.

(** ** The field adapters *)

Module FieldAdapters.

Import Js.

Module ChildFieldProps.
Record t : Type := { name : string; value : option string; label : string }.
End ChildFieldProps.

Module Input.
Record t : Type := { value : option string }.
End Input.

Module Meta.
Record t : Type := { modified : bool; touched : bool; error : option string }.
End Meta.

Module ParentFormProps.
Record t : Type := { values : gmap string string }.
End ParentFormProps.

(** The props every adapter receives. *)
Record AdapterProps : Type := {
  childFieldProps : ChildFieldProps.t;
  input : Input.t;
  meta : Meta.t;
  parentFormProps : option ParentFormProps.t
}.

Inductive Control : Type :=
| FormInput
| PasswordInput
| CopyInputField
| FormTextArea
| FormSelect.

(** The attributes of the rendered widget that depend on the field state. *)
Record Widget : Type := {
  control : Control;
  value : option string;
  error : option string
}.

(** [parentFormProps?.values[ childFieldProps?.name ]] *)
Definition parentValue (props : AdapterProps) : option string :=
  match parentFormProps props with
  | Some parent => ParentFormProps.values parent !! ChildFieldProps.name (childFieldProps props)
  | None => None
  end.

(** [a ? a : ""] for the innermost alternative. *)
Definition orEmpty (v : option string) : option string :=
  if truthyOpt v then v else Some "".

(** [childFieldProps?.value ? childFieldProps?.value : (parent ? parent : "")] *)
Definition explicitOrParent (props : AdapterProps) : option string :=
  if truthyOpt (ChildFieldProps.value (childFieldProps props))
  then ChildFieldProps.value (childFieldProps props)
  else orEmpty (parentValue props).

(** [flag && meta?.error !== "" ? meta?.error : null] *)
Definition shownError (flag : bool) (props : AdapterProps) : option string :=
  if flag && negb (bool_decide (Meta.error (meta props) = Some ""))
  then Meta.error (meta props)
  else None.

Definition TextFieldAdapter (props : AdapterProps) : Widget := {|
  control := FormInput;
  value := if Meta.modified (meta props) then Input.value (input props)
           else explicitOrParent props;
  error := shownError (Meta.modified (meta props)) props
|}.

Definition PasswordFieldAdapter (props : AdapterProps) : Widget := {|
  control := PasswordInput;
  value := if Meta.modified (meta props) then Input.value (input props)
           else explicitOrParent props;
  error := shownError (Meta.touched (meta props)) props
|}.

Definition CopyFieldAdapter (props : AdapterProps) : Widget := {|
  control := CopyInputField;
  value := explicitOrParent props;
  error := None
|}.

Definition TextAreaAdapter (props : AdapterProps) : Widget := {|
  control := FormTextArea;
  value := if Meta.modified (meta props) then Input.value (input props)
           else explicitOrParent props;
  error := shownError (Meta.modified (meta props)) props
|}.

Definition SelectAdapter (props : AdapterProps) : Widget := {|
  control := FormSelect;
  value := if Meta.modified (meta props) then Input.value (input props)
           else if truthyOpt (ChildFieldProps.value (childFieldProps props))
                then ChildFieldProps.value (childFieldProps props)
                else Some "";
  error := shownError (Meta.modified (meta props)) props
|}.

(** The adapters the value rule is stated for. *)
Inductive AdapterKind : Type := TextField | PasswordField | CopyField | TextArea | SelectField.

Definition adapter (kind : AdapterKind) : AdapterProps -> Widget :=
  match kind with
  | TextField => TextFieldAdapter
  | PasswordField => PasswordFieldAdapter
  | CopyField => CopyFieldAdapter
  | TextArea => TextAreaAdapter
  | SelectField => SelectAdapter
  end.

End FieldAdapters.

(** ** The scopes section of the Facebook authenticator form *)

Module FacebookScopes.

Import Js FacebookAuthenticatorForm.

(** [String.prototype.split] with a separator of one character. *)
Fixpoint split (separator : Ascii.ascii) (s : string) : list string :=
  match s with
  | EmptyString => [""]
  | String c rest =>
      if Ascii.eqb c separator then "" :: split separator rest
      else match split separator rest with
           | token :: tokens => String c token :: tokens
           | [] => [String c ""]
           end
  end.

(** What [displayName] holds: a [Code] element or the bare scope. *)
Inductive DisplayName : Type :=
| CodeElement (text : string)
| PlainText (text : string).

(** [ScopeMetaInterface] *)
Record ScopeMetaInterface : Type := {
  description : string;
  displayName : DisplayName;
  icon : string
}.

(** One [div] of the list: its React key, its [data-testid] and what it shows. *)
Record ScopeRow : Type := {
  rowKey : nat;
  testId : string;
  shown : ScopeMetaInterface
}.

Section Scopes.

(** [IdentityProviderManagementConstants.FACEBOOK_SCOPE_DICTIONARY.EMAIL] and
    [.PUBLIC_PROFILE]; the constants file is not part of the sources. *)
Variables EMAIL PUBLIC_PROFILE : string.
Variable t : string -> string.

Definition scopeKeys : string :=
  "console:develop.features.authenticationProvider.forms"
  +:+ ".authenticatorSettings.facebook.scopes.list.".

Definition resolveScopeMetadata (scope : string) : ScopeMetaInterface :=
  if String.eqb scope EMAIL then
    {| description := t (scopeKeys +:+ "email.description");
       displayName := CodeElement EMAIL;
       icon := "envelope outline" |}
  else if String.eqb scope PUBLIC_PROFILE then
    {| description := t (scopeKeys +:+ "profile.description");
       displayName := CodeElement PUBLIC_PROFILE;
       icon := "user outline" |}
  else
    {| description := ""; displayName := PlainText scope; icon := "key" |}.

(** The conditional [FormSection]: [None] when the guard is falsy and nothing
    is rendered. *)
Definition scopesSection (st : FormState) : option (list ScopeRow) :=
  match value st "scope" with
  | Some v =>
      if truthy v && Nat.ltb 0 (List.length (split Ascii.Space v))
      then Some (imap (fun index scope =>
                         {| rowKey := index;
                            testId := scope;
                            shown := resolveScopeMetadata scope |})
                      (split Ascii.Space v))
      else None
  | None => None
  end.

End Scopes.

End FacebookScopes.

(** ** The attributes the field adapters hand to their widgets *)

Module FieldAdapterAttributes.

Import Js FieldAdapters.

(** The values an attribute can take.  Event handlers, components and
    elements are opaque. *)
Inductive JsValue : Type :=
| JUndefined
| JNull
| JBool (b : bool)
| JNumber (n : nat)
| JString (s : string)
| JOpaque (tag : string).

Definition truthyValue (v : JsValue) : bool :=
  match v with
  | JUndefined | JNull => false
  | JBool b => b
  | JNumber n => negb (Nat.eqb n 0)
  | JString s => truthy s
  | JOpaque _ => true
  end.

Definition ofOption (v : option string) : JsValue :=
  match v with
  | Some s => JString s
  | None => JUndefined
  end.

(** [o.k]: reading a property that is absent gives [undefined]. *)
Definition read (o : gmap string JsValue) (k : string) : JsValue :=
  default JUndefined (o !! k).

(** [v || false] *)
Definition orFalse (v : JsValue) : JsValue :=
  if truthyValue v then v else JBool false.

(** lodash [omit] with a list of keys. *)
Definition omit (o : gmap string JsValue) (keys : list string) : gmap string JsValue :=
  foldr delete o keys.

(** The attributes of a JSX element, in source order: a later attribute or
    spread overwrites an earlier one of the same name.  The [key] attribute is
    consumed by React and is not listed. *)
Inductive JsxAttribute : Type :=
| Attribute (name : string) (v : JsValue)
| SpreadAttributes (o : gmap string JsValue).

Definition jsx (attributes : list JsxAttribute) : gmap string JsValue :=
  foldl (fun acc a =>
           match a with
           | Attribute k v => <[k := v]> acc
           | SpreadAttributes o => o ∪ acc
           end) ∅ attributes.

Definition handler : JsValue := JOpaque "handler".

(** The object [childFieldProps]: the three fields the adapters compute with,
    next to its remaining own properties. *)
Definition childObject (c : ChildFieldProps.t) (rest : gmap string JsValue)
  : gmap string JsValue :=
  <["name" := JString (ChildFieldProps.name c)]>
    (<["label" := JString (ChildFieldProps.label c)]>
       (match ChildFieldProps.value c with
        | Some v => <["value" := JString v]> rest
        | None => delete "value" rest
        end)).

(** [childFieldProps.label !== "" ? childFieldProps.label : null] *)
Definition labelOrNull (c : ChildFieldProps.t) : JsValue :=
  if negb (String.eqb (ChildFieldProps.label c) "")
  then JString (ChildFieldProps.label c)
  else JNull.

(** [flag && meta?.error !== "" ? meta?.error : null] *)
Definition errorOrNull (flag : bool) (props : AdapterProps) : JsValue :=
  if flag && negb (bool_decide (Meta.error (meta props) = Some ""))
  then ofOption (Meta.error (meta props))
  else JNull.

Section Attributes.

Variable props : AdapterProps.
(** The other own properties of [childFieldProps] and of [input]. *)
Variables rest inputRest : gmap string JsValue.

Definition child : gmap string JsValue := childObject (childFieldProps props) rest.

Definition TextFieldAttributes : gmap string JsValue :=
  jsx [ Attribute "aria-label" (read child "ariaLabel");
        Attribute "required" (read child "required");
        Attribute "data-testid" (read child "testId");
        Attribute "label" (labelOrNull (childFieldProps props));
        Attribute "onKeyPress" handler;
        Attribute "onChange" handler;
        Attribute "onBlur" handler;
        Attribute "control" (JOpaque "Input");
        Attribute "autoFocus" (orFalse (read child "autoFocus"));
        Attribute "type" (JString "text");
        Attribute "value" (ofOption (value (TextFieldAdapter props)));
        SpreadAttributes (omit child ["value"; "listen"]);
        Attribute "error" (errorOrNull (Meta.modified (meta props)) props) ].

Definition PasswordFieldAttributes : gmap string JsValue :=
  jsx [ Attribute "data-testid" (read child "testId");
        Attribute "hidePassword" (JString "Hide password");
        Attribute "label" (labelOrNull (childFieldProps props));
        Attribute "name" (JString "newPassword");
        Attribute "required" (JBool true);
        Attribute "showPassword" (JString "Show password");
        Attribute "onKeyPress" handler;
        Attribute "onChange" handler;
        Attribute "onBlur" handler;
        Attribute "error" (errorOrNull (Meta.touched (meta props)) props);
        Attribute "autoFocus" (orFalse (read child "autoFocus"));
        SpreadAttributes child;
        Attribute "value" (ofOption (value (PasswordFieldAdapter props))) ].

(** The attributes of the [CopyInputField]; the label is taken out of the
    props beforehand and rendered beside the field. *)
Definition CopyFieldAttributes : gmap string JsValue :=
  let filteredChildFieldProps := delete "label" child in
  jsx [ Attribute "data-testid" (read filteredChildFieldProps "testId");
        Attribute "autoFocus" (orFalse (read filteredChildFieldProps "autoFocus"));
        SpreadAttributes filteredChildFieldProps;
        Attribute "value" (ofOption (value (CopyFieldAdapter props))) ].

Definition TextAreaAttributes : gmap string JsValue :=
  jsx [ Attribute "label" (labelOrNull (childFieldProps props));
        Attribute "width" (read inputRest "width");
        Attribute "placeholder" (read inputRest "placeholder");
        Attribute "name" (read inputRest "name");
        Attribute "onBlur" handler;
        Attribute "onChange" handler;
        Attribute "autoFocus" (orFalse (read child "autoFocus"));
        Attribute "readOnly" (read inputRest "readOnly");
        Attribute "disabled" (read inputRest "disabled");
        Attribute "required" (read inputRest "required");
        Attribute "onKeyPress" handler;
        Attribute "type" (JString "textarea");
        SpreadAttributes (omit child ["value"; "listen"]);
        Attribute "value" (ofOption (value (TextAreaAdapter props)));
        Attribute "error" (errorOrNull (Meta.modified (meta props)) props) ].

Definition SelectAttributes : gmap string JsValue :=
  jsx [ Attribute "label" (read child "label");
        Attribute "name" (read child "name");
        Attribute "options" (read child "children");
        Attribute "onChange" handler;
        Attribute "onBlur" handler;
        Attribute "autoFocus" (orFalse (read child "autoFocus"));
        Attribute "disabled" (read child "disabled");
        Attribute "required" (read child "required");
        Attribute "onKeyPress" handler;
        Attribute "control" (JOpaque "Select");
        SpreadAttributes (omit child ["value"; "children"]);
        Attribute "error" (errorOrNull (Meta.modified (meta props)) props);
        Attribute "value" (ofOption (value (SelectAdapter props))) ].

(** [ToggleAdapter] reads [childFieldProps.value.length], which throws when
    the value is undefined. *)
Definition ToggleAttributes : completion (gmap string JsValue) :=
  match ChildFieldProps.value (childFieldProps props) with
  | None => Throw TypeError
  | Some v =>
      Normal (jsx [ Attribute "label" (read child "label");
                    Attribute "name" (read child "name");
                    Attribute "children" (read child "children");
                    Attribute "onChange" handler;
                    Attribute "control" (JOpaque "Checkbox");
                    Attribute "readOnly" (read child "readOnly");
                    Attribute "disabled" (read child "disabled");
                    Attribute "defaultChecked" (JBool (negb (Nat.eqb (String.length v) 0)));
                    Attribute "autoFocus" (orFalse (read child "autoFocus"));
                    SpreadAttributes child ])
  end.

Definition attributesOf (kind : AdapterKind) : gmap string JsValue :=
  match kind with
  | TextField => TextFieldAttributes
  | PasswordField => PasswordFieldAttributes
  | CopyField => CopyFieldAttributes
  | TextArea => TextAreaAttributes
  | SelectField => SelectAttributes
  end.

End Attributes.

End FieldAdapterAttributes.

(** ** The button adapter *)

(** The enum [FieldButtonTypes] of the form models; its declaration is not
    part of the sources, so its values are parameters. *)
Class FieldButtonTypes : Type := {
  BUTTON_PRIMARY : string;
  BUTTON_CANCEL : string;
  BUTTON_LINK : string;
  BUTTON_DANGER : string
}.

Module ButtonAdapters.

Import Js FieldAdapterAttributes.

Inductive ButtonComponent : Type :=
| PrimaryButton
| LinkButton
| DangerButton
| Button.

(** The element returned: the component, its attributes and its child. *)
Record ButtonElement : Type := {
  component : ButtonComponent;
  attributes : gmap string JsValue;
  children : JsValue
}.

(** [childFieldProps.buttonType === constant] *)
Definition isType (v : JsValue) (constant : string) : bool :=
  match v with
  | JString s => String.eqb s constant
  | _ => false
  end.

Section Button.

Context {B : FieldButtonTypes}.
Variable childFieldProps : gmap string JsValue.

(** The attributes common to the five branches. *)
Definition commonAttributes : list JsxAttribute :=
  [ SpreadAttributes (omit childFieldProps ["label"]);
    Attribute "disabled" (read childFieldProps "disabled") ].

Definition ButtonAdapter : ButtonElement :=
  let buttonType := read childFieldProps "buttonType" in
  if isType buttonType BUTTON_PRIMARY then
    {| component := PrimaryButton;
       attributes := jsx (commonAttributes ++ [Attribute "type" (JString "submit")]);
       children := read childFieldProps "label" |}
  else if isType buttonType BUTTON_CANCEL then
    {| component := LinkButton;
       attributes := jsx commonAttributes;
       children := JString "Cancel" |}
  else if isType buttonType BUTTON_LINK then
    {| component := LinkButton;
       attributes := jsx commonAttributes;
       children := read childFieldProps "label" |}
  else if isType buttonType BUTTON_DANGER then
    {| component := DangerButton;
       attributes := jsx commonAttributes;
       children := read childFieldProps "label" |}
  else
    {| component := Button;
       attributes := jsx commonAttributes;
       children := read childFieldProps "label" |}.

End Button.

End ButtonAdapters.

(** ** Concrete inputs used to run the definitions *)

Module Examples.

Import Js AccessConfiguration.

(** A deployment whose custom-application template may use OIDC and WS-Trust. *)
Definition customCfg : ExtensionConfig := {|
  customApplicationTemplateId := "custom-application";
  allowedProtocolTypes := Some ["oidc"; "ws-trust"]
|}.

(** A deployment that does not restrict the custom-application template. *)
Definition plainCfg : ExtensionConfig := {|
  customApplicationTemplateId := "custom-application";
  allowedProtocolTypes := None
|}.

Definition customTemplate : ApplicationTemplateListItemInterface := {|
  id := "custom-application";
  authenticationProtocol := None
|}.

Definition spaTemplate : ApplicationTemplateListItemInterface := {|
  id := "single-page-application";
  authenticationProtocol := None
|}.

Definition propsFor (tpl : ApplicationTemplateListItemInterface)
  (extended : bool) (inbound : list string) : AccessConfigurationPropsInterface := {|
  appId := "app-1";
  extendedAccessConfig := extended;
  inboundProtocols := inbound;
  isLoading := false;
  isInboundProtocolConfigRequestLoading := false;
  template := Some tpl;
  onAllowedOriginsUpdate := true;
  onApplicationSecretRegenerate := true
|}.

(** Without a translation, [t] returns the key it was given. *)
Definition keyOnly (key : string) (options : list (string * option string)) : string := key.

Definition noDescription : AxiosError := {| response := None |}.

Definition described (d : string) : AxiosError :=
  {| response := Some {| data := Some {| errorDescription := Some d |} |} |}.

(** Backends over trivial form data and payloads. *)
Definition failing : ApiCall unit -> Settled unit := fun _ => Rejected noDescription.

Definition succeeding : ApiCall unit -> Settled unit := fun _ => Fulfilled tt.

Definition onlyDetailsSucceed : ApiCall unit -> Settled unit := fun call =>
  match call with
  | updateApplicationDetails _ _ => Fulfilled tt
  | _ => Rejected (described "boom")
  end.


(** Field metadata of an authenticator that declares a mandatory client id
    and a mandatory client secret. *)
Definition facebookMetadata : FacebookAuthenticatorForm.CommonAuthenticatorFormMetaInterface := {|
  FacebookAuthenticatorForm.metaProperties := [
    {| FacebookAuthenticatorForm.FieldMeta.key := "ClientId";
       FacebookAuthenticatorForm.FieldMeta.isMandatory := true;
       FacebookAuthenticatorForm.FieldMeta.readOnly := false;
       FacebookAuthenticatorForm.FieldMeta.maxLength := 100 |};
    {| FacebookAuthenticatorForm.FieldMeta.key := "ClientSecret";
       FacebookAuthenticatorForm.FieldMeta.isMandatory := true;
       FacebookAuthenticatorForm.FieldMeta.readOnly := false;
       FacebookAuthenticatorForm.FieldMeta.maxLength := 100 |} ]
|}.

(** Initial values that supply the client id only. *)
Definition onlyClientId : FacebookAuthenticatorForm.CommonAuthenticatorFormInitialValuesInterface := {|
  FacebookAuthenticatorForm.properties := Some [
    {| FacebookAuthenticatorForm.Property.key := "ClientId";
       FacebookAuthenticatorForm.Property.value := "abc" |} ];
  FacebookAuthenticatorForm.others :=
    {[ "authenticatorId" := FacebookAuthenticatorForm.Str "RmFjZWJvb2s" ]}
|}.

(** Initial values whose property list is empty. *)
Definition noProperties : FacebookAuthenticatorForm.CommonAuthenticatorFormInitialValuesInterface := {|
  FacebookAuthenticatorForm.properties := Some [];
  FacebookAuthenticatorForm.others :=
    {[ "authenticatorId" := FacebookAuthenticatorForm.Str "RmFjZWJvb2s" ]}
|}.



End Examples.

(* ===================================================================== *)
(** * Part II.  Statements                                                *)
(* ===================================================================== *)

Module JsFacts.

Import Js.

Lemma includes_elem_of (x : string) (l : list string) :
  includes x l = true <-> x ∈ l.
Proof.
  unfold includes. rewrite existsb_exists, list_elem_of_In. split.
  - intros (y & Hy & Heq). apply String.eqb_eq in Heq. now subst.
  - intros Hx. exists x. split; [assumption | apply String.eqb_refl].
Qed.

(** When the callback never throws, [filterM] is the ordinary filter. *)
Lemma filterM_total {A : Type} (f : A -> completion bool) (g : A -> bool) (l : list A) :
  (forall x, x ∈ l -> f x = Normal (g x)) ->
  filterM f l = Normal (List.filter g l).
Proof.
  induction l as [| x rest IH]; intros Hf; simpl.
  - reflexivity.
  - rewrite (Hf x) by apply list_elem_of_here.
    rewrite IH by (intros y Hy; apply Hf; now apply list_elem_of_further).
    reflexivity.
Qed.

End JsFacts.

Module SupportedProtocolsFacts.

Import Js JsFacts AccessConfiguration.

Section WithCatalogue.

Context {E : SupportedAuthProtocolTypes}.
Variable cfg : ExtensionConfig.
Variable props : AccessConfigurationPropsInterface.

(** The decision of the filter callback once a template is known. *)
Definition kept (tpl : ApplicationTemplateListItemInterface)
  (filterProtocol : option string) (protocol : string) : bool :=
  if customApplicationBranch cfg tpl then
    includes protocol (allowedList cfg) && truthy protocol
  else
    negb (String.eqb protocol WS_TRUST
          || String.eqb protocol CUSTOM
          || (extendedAccessConfig props && String.eqb protocol WS_FEDERATION)
          || match filterProtocol with
             | Some fp => truthy fp && String.eqb protocol fp
             | None => false
             end)
    && truthy protocol.

Lemma keepProtocol_kept tpl filterProtocol protocol :
  template props = Some tpl ->
  keepProtocol cfg props filterProtocol protocol = Normal (kept tpl filterProtocol protocol).
Proof.
  intros Htpl. unfold keepProtocol, kept. rewrite Htpl.
  destruct (customApplicationBranch cfg tpl).
  - destruct (includes protocol (allowedList cfg)); reflexivity.
  - match goal with |- context [if ?c then _ else _] => destruct c end; reflexivity.
Qed.

Lemma getSupportedProtocols_filter tpl filterProtocol :
  template props = Some tpl ->
  getSupportedProtocols cfg props filterProtocol
  = Normal (List.filter (kept tpl filterProtocol) (candidateProtocols props)).
Proof.
  intros Htpl. unfold getSupportedProtocols.
  apply filterM_total. intros x _. now apply keepProtocol_kept.
Qed.

Lemma kept_excludes tpl filterProtocol protocol l :
  customApplicationBranch cfg tpl = false ->
  protocol ∈ List.filter (kept tpl filterProtocol) l ->
  String.eqb protocol WS_TRUST = false
  /\ String.eqb protocol CUSTOM = false
  /\ (extendedAccessConfig props = true -> String.eqb protocol WS_FEDERATION = false).
Proof.
  intros Hbranch Hin. apply list_elem_of_In, filter_In in Hin as [_ Hk].
  unfold kept in Hk. rewrite Hbranch in Hk.
  apply andb_true_iff in Hk as [Hk _]. apply negb_true_iff in Hk.
  repeat (apply orb_false_iff in Hk as [Hk ?]).
  repeat split; try assumption.
  intros Hext. rewrite Hext in *. assumption.
Qed.

(** Without a template the callback throws on the first candidate. *)
Lemma getSupportedProtocols_without_template filterProtocol :
  template props = None ->
  candidateProtocols props <> [] ->
  getSupportedProtocols cfg props filterProtocol = Throw TypeError.
Proof.
  intros Hnone Hcandidates. unfold getSupportedProtocols.
  destruct (candidateProtocols props) as [| protocol rest]; [congruence |].
  cbn [filterM]. unfold keepProtocol. now rewrite Hnone.
Qed.

End WithCatalogue.

(** C1 (amended).  Whenever a template is passed, [getSupportedProtocols]
    returns a list.  Outside the custom-application branch (the template is
    not the custom-application template, or no allowed protocol types are
    configured) that list contains neither WS-Trust nor custom, and no
    WS-Federation when [extendedAccessConfig] is set.  Inside that branch the
    list is exactly the candidates that occur in [allowedProtocolTypes]. *)
Theorem getSupportedProtocols_exclusions {E : SupportedAuthProtocolTypes}
  (cfg : ExtensionConfig) (props : AccessConfigurationPropsInterface)
  (tpl : ApplicationTemplateListItemInterface) (filterProtocol : option string) :
  template props = Some tpl ->
  exists supported,
    getSupportedProtocols cfg props filterProtocol = Normal supported
    /\ (customApplicationBranch cfg tpl = false ->
        (WS_TRUST ∉ supported) /\ (CUSTOM ∉ supported)
        /\ (extendedAccessConfig props = true -> WS_FEDERATION ∉ supported))
    /\ (customApplicationBranch cfg tpl = true ->
        supported = List.filter (fun p => includes p (allowedList cfg) && truthy p)
                                (candidateProtocols props)).
Proof.
  intros Htpl.
  exists (List.filter (kept cfg props tpl filterProtocol) (candidateProtocols props)).
  split; [exact (getSupportedProtocols_filter cfg props tpl filterProtocol Htpl) |]. split.
  - intros Hbranch.
    assert (Hex := fun p => kept_excludes cfg props tpl filterProtocol p
                              (candidateProtocols props) Hbranch).
    repeat split.
    + intros Hin. destruct (Hex _ Hin) as (H & _ & _).
      now rewrite String.eqb_refl in H.
    + intros Hin. destruct (Hex _ Hin) as (_ & H & _).
      now rewrite String.eqb_refl in H.
    + intros Hext Hin. destruct (Hex _ Hin) as (_ & _ & H).
      specialize (H Hext). now rewrite String.eqb_refl in H.
  - intros Hbranch. apply filter_ext. intros p. unfold kept. now rewrite Hbranch.
Qed.

(** The statement above applied to a single-page-application template with
    the extended access configuration switched on. *)
Lemma getSupportedProtocols_exclusions_witness :
  exists supported,
    getSupportedProtocols (E := consoleProtocolTypes) Examples.plainCfg
      (Examples.propsFor Examples.spaTemplate true []) None = Normal supported
    /\ (customApplicationBranch Examples.plainCfg Examples.spaTemplate = false ->
        ("ws-trust" ∉ supported) /\ ("custom" ∉ supported)
        /\ (true = true -> "passive-sts" ∉ supported))
    /\ (customApplicationBranch Examples.plainCfg Examples.spaTemplate = true ->
        supported = List.filter (fun p => includes p (allowedList Examples.plainCfg) && truthy p)
                      (candidateProtocols (E := consoleProtocolTypes)
                         (Examples.propsFor Examples.spaTemplate true []))).
Proof.
  apply (getSupportedProtocols_exclusions (E := consoleProtocolTypes) Examples.plainCfg
           (Examples.propsFor Examples.spaTemplate true []) Examples.spaTemplate None).
  reflexivity.
Defined.

(** C1 as stated fails: for the custom-application template of a deployment
    whose [allowedProtocolTypes] lists WS-Trust, the supported protocols
    contain WS-Trust. *)
Lemma getSupportedProtocols_keeps_allowed_ws_trust :
  getSupportedProtocols (E := consoleProtocolTypes) Examples.customCfg
    (Examples.propsFor Examples.customTemplate false []) None
  = Normal ["oidc"; "ws-trust"]
  /\ @WS_TRUST consoleProtocolTypes ∈ ["oidc"; "ws-trust"].
Proof.
  split; [reflexivity |]. apply list_elem_of_In. simpl. auto.
Qed.

End SupportedProtocolsFacts.

Module SortFacts.

Import Js AccessConfiguration.

(** [keyLe a b]: [a] does not have to come after [b]. *)
Definition keyLe (a b : option nat) : Prop := keyLt b a = false.

Lemma keyLt_irrefl a : keyLt a a = false.
Proof. destruct a as [n |]; simpl; [apply Nat.ltb_irrefl | reflexivity]. Qed.

Lemma keyLt_true_le a b : keyLt a b = true -> keyLe a b.
Proof.
  unfold keyLe. destruct a as [x |], b as [y |]; simpl; try congruence.
  rewrite Nat.ltb_lt, Nat.ltb_ge. lia.
Qed.

Lemma keyLe_trans a b c : keyLe a b -> keyLe b c -> keyLe a c.
Proof.
  unfold keyLe. destruct a as [x |], b as [y |], c as [z |]; simpl; try congruence.
  rewrite !Nat.ltb_ge. lia.
Qed.

Section SortBy.

Context {A : Type}.
Variable iteratee : A -> option nat.

Definition inOrder (x y : A) : Prop := keyLe (iteratee x) (iteratee y).

Lemma inOrder_trans x y z : inOrder x y -> inOrder y z -> inOrder x z.
Proof. apply keyLe_trans. Qed.

Lemma insertByKey_Permutation x l : Permutation (insertByKey iteratee x l) (x :: l).
Proof.
  induction l as [| y rest IH]; simpl.
  - reflexivity.
  - destruct (keyLt (iteratee y) (iteratee x)).
    + rewrite IH. apply perm_swap.
    + reflexivity.
Qed.

Lemma sortBy_Permutation l : Permutation (sortBy l iteratee) l.
Proof.
  induction l as [| x rest IH]; simpl.
  - reflexivity.
  - rewrite insertByKey_Permutation. now constructor.
Qed.

Lemma insertByKey_Forall (P : A -> Prop) x l :
  P x -> Forall P l -> Forall P (insertByKey iteratee x l).
Proof.
  intros Hx Hl. induction Hl as [| y rest Hy Hrest IH]; simpl.
  - now repeat constructor.
  - destruct (keyLt (iteratee y) (iteratee x)); now repeat constructor.
Qed.

Lemma insertByKey_sorted x l :
  StronglySorted inOrder l -> StronglySorted inOrder (insertByKey iteratee x l).
Proof.
  induction 1 as [| y rest Hsorted IH Hall]; simpl.
  - repeat constructor.
  - destruct (keyLt (iteratee y) (iteratee x)) eqn:Hlt.
    + constructor; [exact IH |].
      apply insertByKey_Forall; [| exact Hall].
      now apply keyLt_true_le.
    + constructor; [now constructor |].
      constructor; [exact Hlt |].
      eapply Forall_impl; [exact Hall |].
      intros z Hz. eapply inOrder_trans; [exact Hlt | exact Hz].
Qed.

Lemma sortBy_sorted l : StronglySorted inOrder (sortBy l iteratee).
Proof.
  induction l as [| x rest IH]; simpl.
  - constructor.
  - now apply insertByKey_sorted.
Qed.

(** Elements of equal rank keep their relative order. *)
Lemma insertByKey_stable (k : option nat) x l :
  List.filter (fun y => bool_decide (iteratee y = k)) (insertByKey iteratee x l)
  = List.filter (fun y => bool_decide (iteratee y = k)) (x :: l).
Proof.
  induction l as [| y rest IH]; [reflexivity |].
  cbn [insertByKey]. destruct (keyLt (iteratee y) (iteratee x)) eqn:Hlt; [| reflexivity].
  cbn [List.filter] in *. rewrite IH.
  destruct (bool_decide (iteratee x = k)) eqn:Hx, (bool_decide (iteratee y = k)) eqn:Hy;
    try reflexivity.
  apply bool_decide_eq_true in Hx, Hy. rewrite Hx, Hy, keyLt_irrefl in Hlt. discriminate.
Qed.

Lemma sortBy_stable (k : option nat) l :
  List.filter (fun y => bool_decide (iteratee y = k)) (sortBy l iteratee)
  = List.filter (fun y => bool_decide (iteratee y = k)) l.
Proof.
  induction l as [| x rest IH]; [reflexivity |].
  cbn [sortBy foldr]. rewrite insertByKey_stable. cbn [List.filter].
  unfold sortBy in IH. now rewrite IH.
Qed.

Lemma sorted_lookup (l : list A) i j a b :
  StronglySorted inOrder l -> l !! i = Some a -> l !! j = Some b -> i < j -> inOrder a b.
Proof.
  intros Hs. revert i j. induction Hs as [| x rest Hs IH Hall]; intros i j Hi Hj Hij.
  - discriminate.
  - destruct j as [| j]; [lia |]. destruct i as [| i]; simpl in *.
    + injection Hi as <-. rewrite Forall_forall in Hall. apply Hall.
      eapply list_elem_of_lookup_2. exact Hj.
    + apply (IH i j); [assumption | assumption | lia].
Qed.

End SortBy.

End SortFacts.

Module ProtocolOrderFacts.

Import Js JsFacts AccessConfiguration SortFacts.

(** [Array.prototype.lastIndexOf], used to describe which index survives when
    a protocol is configured more than once. *)
Fixpoint lastIndexOf (p : string) (l : list string) : option nat :=
  match l with
  | [] => None
  | x :: rest =>
      match lastIndexOf p rest with
      | Some j => Some (S j)
      | None => if String.eqb x p then Some 0 else None
      end
  end.

(** Every occurrence of [x] comes before every occurrence of [y]. *)
Definition before (x y : string) (l : list string) : Prop :=
  forall i j, l !! i = Some x -> l !! j = Some y -> i < j.

Lemma lastIndexOf_None p l : p ∉ l -> lastIndexOf p l = None.
Proof.
  induction l as [| x rest IH]; intros Hnot; simpl; [reflexivity |].
  apply not_elem_of_cons in Hnot as [Hne Hrest].
  rewrite (IH Hrest).
  destruct (String.eqb_spec x p); [congruence | reflexivity].
Qed.

Section WithCatalogue.

Context {E : SupportedAuthProtocolTypes}.

(** The configured index of a protocol, when the loop records one. *)
Definition configuredIndex (inbound : list string) (p : string) : option nat :=
  if includes p protocolTypeValues then lastIndexOf p inbound else None.

Lemma recordConfigured_lookup (inbound : list string) :
  forall (index : nat) (order : gmap string nat) (p : string),
    recordConfigured index inbound order !! p
    = match configuredIndex inbound p with
      | Some j => Some (index + j)
      | None => order !! p
      end.
Proof.
  unfold configuredIndex.
  induction inbound as [| x rest IH]; intros index order p; cbn [recordConfigured lastIndexOf].
  - now destruct (includes p protocolTypeValues).
  - rewrite IH. destruct (includes p protocolTypeValues) eqn:Hp.
    + destruct (lastIndexOf p rest) as [j |].
      * f_equal. lia.
      * destruct (String.eqb_spec x p) as [-> | Hne].
        -- rewrite Hp, lookup_insert_eq. f_equal. lia.
        -- destruct (includes x protocolTypeValues); [now rewrite lookup_insert_ne |].
           reflexivity.
    + destruct (includes x protocolTypeValues) eqn:Hx; [| reflexivity].
      rewrite lookup_insert_ne; [reflexivity |]. intros ->. congruence.
Qed.

Lemma protocolRank_spec (inbound : list string) (p : string) :
  protocolRank inbound p
  = match configuredIndex inbound p with
    | Some j => Some j
    | None => defaultOrder !! p
    end.
Proof.
  unfold protocolRank, customOrder. destruct inbound as [| x rest].
  - unfold configuredIndex. cbn. now destruct (includes p protocolTypeValues).
  - cbn [List.length Nat.ltb Nat.leb]. now rewrite recordConfigured_lookup.
Qed.

Lemma protocolRank_OIDC (inbound : list string) :
  OIDC <> SAML -> OIDC ∉ inbound -> protocolRank inbound OIDC = Some 0.
Proof.
  intros Hne Hnot. rewrite protocolRank_spec. unfold configuredIndex.
  rewrite (lastIndexOf_None _ _ Hnot).
  assert (defaultOrder !! OIDC = Some 0) as ->.
  { unfold defaultOrder. rewrite lookup_insert_ne by congruence. apply lookup_insert_eq. }
  now destruct (includes OIDC protocolTypeValues).
Qed.

Lemma protocolRank_SAML (inbound : list string) :
  SAML ∉ inbound -> protocolRank inbound SAML = Some 1.
Proof.
  intros Hnot. rewrite protocolRank_spec. unfold configuredIndex.
  rewrite (lastIndexOf_None _ _ Hnot).
  assert (defaultOrder !! SAML = Some 1) as -> by apply lookup_insert_eq.
  now destruct (includes SAML protocolTypeValues).
Qed.

End WithCatalogue.

(** C5 (amended).  The list computed by [loadSupportedProtocols] is the list
    of supported protocols sorted stably and in ascending order of a rank:
    a configured protocol of a known type ranks by its (last) index in the
    configured list, otherwise OIDC ranks 0 and SAML ranks 1, and a protocol
    without rank comes after every ranked one.  In particular, when OIDC and
    SAML are both supported and neither is configured, every OIDC comes before
    every SAML.  The list is stored in the state when none was stored yet. *)
Theorem loadSupportedProtocols_order {E : SupportedAuthProtocolTypes}
  (cfg : ExtensionConfig) (props : AccessConfigurationPropsInterface)
  (supported : list string) :
  getSupportedProtocols cfg props None = Normal supported ->
  exists sorted,
    sortedSupportedProtocols cfg props = Normal sorted
    /\ Permutation sorted supported
    /\ (forall i j a b,
          sorted !! i = Some a -> sorted !! j = Some b -> i < j ->
          keyLt (protocolRank (inboundProtocols props) b)
                (protocolRank (inboundProtocols props) a) = false)
    /\ (forall k,
          List.filter (fun p => bool_decide (protocolRank (inboundProtocols props) p = k)) sorted
          = List.filter (fun p => bool_decide (protocolRank (inboundProtocols props) p = k))
              supported)
    /\ (forall p,
          protocolRank (inboundProtocols props) p
          = match configuredIndex (inboundProtocols props) p with
            | Some j => Some j
            | None => defaultOrder !! p
            end)
    /\ (OIDC <> SAML ->
        OIDC ∈ supported -> SAML ∈ supported ->
        OIDC ∉ inboundProtocols props -> SAML ∉ inboundProtocols props ->
        OIDC ∈ sorted /\ SAML ∈ sorted /\ before OIDC SAML sorted)
    /\ (forall st,
          supportedProtocolList st = None ->
          exists st', loadSupportedProtocols cfg props st = Normal st'
                      /\ supportedProtocolList st' = Some sorted).
Proof.
  intros Hsupported.
  set (rank := protocolRank (inboundProtocols props)).
  exists (sortBy supported rank).
  assert (Hsorted : sortedSupportedProtocols cfg props = Normal (sortBy supported rank)).
  { unfold sortedSupportedProtocols. now rewrite Hsupported. }
  split; [exact Hsorted |].
  split; [apply sortBy_Permutation |].
  split.
  { intros i j a b Hi Hj Hij.
    exact (sorted_lookup rank _ i j a b (sortBy_sorted rank supported) Hi Hj Hij). }
  split; [intros k; apply sortBy_stable |].
  split; [intros p; apply protocolRank_spec |].
  split.
  - intros Hne Ho Hs Hno Hns.
    assert (Hperm := sortBy_Permutation rank supported).
    split; [now rewrite Hperm |]. split; [now rewrite Hperm |].
    intros i j Hi Hj.
    destruct (Nat.lt_trichotomy i j) as [Hlt | [Heq | Hgt]]; [exact Hlt | |].
    + subst j. congruence.
    + pose proof (sorted_lookup rank _ j i SAML OIDC (sortBy_sorted rank supported) Hj Hi Hgt)
        as Hord.
      unfold inOrder, keyLe, rank in Hord.
      rewrite (protocolRank_OIDC _ Hne Hno), (protocolRank_SAML _ Hns) in Hord.
      discriminate.
  - intros st Hnone. unfold loadSupportedProtocols. rewrite Hsorted.
    eexists. split; [reflexivity |].
    destruct (truthyOpt (selectedProtocol st)); cbn; now rewrite Hnone.
Qed.

(** The statement applied to an application that has WS-Federation
    configured: OIDC and SAML are both offered and OIDC comes first. *)
Lemma loadSupportedProtocols_order_witness :
  exists sorted,
    sortedSupportedProtocols (E := consoleProtocolTypes) Examples.plainCfg
      (Examples.propsFor Examples.spaTemplate false ["passive-sts"]) = Normal sorted
    /\ before "oidc" "saml" sorted.
Proof.
  destruct (loadSupportedProtocols_order (E := consoleProtocolTypes) Examples.plainCfg
              (Examples.propsFor Examples.spaTemplate false ["passive-sts"])
              ["saml"; "oidc"; "passive-sts"] eq_refl)
    as (sorted & Hsorted & _ & _ & _ & _ & Hbefore & _).
  exists sorted. split; [exact Hsorted |].
  apply Hbefore.
  - discriminate.
  - apply (bool_decide_unpack _). vm_compute. exact I.
  - apply (bool_decide_unpack _). vm_compute. exact I.
  - apply (bool_decide_unpack _). vm_compute. exact I.
  - apply (bool_decide_unpack _). vm_compute. exact I.
Defined.

(** C5 as stated fails in its general part: when SAML and OIDC are configured
    in that order, SAML is listed first although OIDC is supported. *)
Lemma loadSupportedProtocols_configured_order_wins :
  sortedSupportedProtocols (E := consoleProtocolTypes) Examples.plainCfg
    (Examples.propsFor Examples.spaTemplate false ["saml"; "oidc"])
  = Normal ["saml"; "oidc"; "passive-sts"]
  /\ head ["saml"; "oidc"; "passive-sts"] <> Some (@OIDC consoleProtocolTypes).
Proof.
  split; [vm_compute; reflexivity | discriminate].
Qed.

End ProtocolOrderFacts.

Module HandlerFacts.

Import Js AccessConfiguration.

Section Observations.

Context {FormData Payload : Type}.

(** The notifications dispatched along a trace. *)
Definition alerts (tr : list (Event FormData Payload)) : list AlertInterface :=
  omap (fun e => match e with DispatchAddAlert a => Some a | _ => None end) tr.

Definition isOnUpdate (e : Event FormData Payload) : bool :=
  match e with OnUpdate _ => true | _ => false end.

Definition isOnProtocolUpdate (e : Event FormData Payload) : bool :=
  match e with OnProtocolUpdate => true | _ => false end.

(** Does the event call one of the refresh callbacks of the parent? *)
Definition isRefresh (e : Event FormData Payload) : bool :=
  isOnUpdate e || isOnProtocolUpdate e.

Definition isConfigUpdateRequest (e : Event FormData Payload) : bool :=
  match e with Request (updateAuthProtocolConfig _ _ _) => true | _ => false end.

Definition fulfilled (outcome : Settled Payload) : bool :=
  match outcome with Fulfilled _ => true | Rejected _ => false end.

Variable t : string -> list (string * option string) -> string.

(** The notification built by a [catch] callback. *)
Definition errorAlert (errorMessage genericDescription genericMessage : string)
  (error : Reason) : AlertInterface :=
  if truthyOpt (structuredDescription error)
  then {| description := default "" (structuredDescription error);
          level := ERROR;
          message := t (notifications +:+ errorMessage) [] |}
  else {| description := t (notifications +:+ genericDescription) [];
          level := ERROR;
          message := t (notifications +:+ genericMessage) [] |}.

Lemma alertOnError_emit errorMessage genericDescription genericMessage error :
  alertOnError (FormData := FormData) (Payload := Payload)
    t errorMessage genericDescription genericMessage error
  = emit (DispatchAddAlert (errorAlert errorMessage genericDescription genericMessage error)).
Proof.
  unfold alertOnError, errorAlert. destruct (structuredDescription error) as [d |]; cbn.
  - now destruct (truthy d).
  - reflexivity.
Qed.

Variable props : AccessConfigurationPropsInterface.
Variable backend : ApiCall FormData -> Settled Payload.

Definition deleteErrorAlert : Reason -> AlertInterface :=
  errorAlert "deleteProtocolConfig.error.message"
             "deleteProtocolConfig.genericError.description"
             "deleteProtocolConfig.genericError.message".

Definition updateConfigErrorAlert : Reason -> AlertInterface :=
  errorAlert "updateInboundProtocolConfig.error.message"
             "updateInboundProtocolConfig.genericError.description"
             "updateInboundProtocolConfig.genericError.message".

Definition updateConfigSuccessAlert : AlertInterface := {|
  description := t (notifications +:+ "updateInboundProtocolConfig.success.description") [];
  level := SUCCESS;
  message := t (notifications +:+ "updateInboundProtocolConfig.success.message") [] |}.

(** What follows the settlement of [updateAuthProtocolConfig]. *)
Definition afterConfigUpdate (outcome : Settled Payload) : list (Event FormData Payload) :=
  match outcome with
  | Fulfilled _ =>
      if onAllowedOriginsUpdate props
      then [DispatchAddAlert updateConfigSuccessAlert; OnAllowedOriginsUpdate]
      else [DispatchAddAlert updateConfigSuccessAlert;
            DispatchAddAlert (updateConfigErrorAlert (Raised TypeError))]
  | Rejected e => [DispatchAddAlert (updateConfigErrorAlert (BackendFailure e))]
  end ++ [OnUpdate (appId props); OnProtocolUpdate].

Lemma handleInboundConfigDelete_trace protocol :
  trace (handleInboundConfigDelete t props backend protocol)
  = Request (deleteProtocol (appId props) protocol)
    :: Settle (deleteProtocol (appId props) protocol)
              (backend (deleteProtocol (appId props) protocol))
    :: match backend (deleteProtocol (appId props) protocol) with
       | Fulfilled _ =>
           [DispatchAddAlert {|
              description := t (notifications +:+ "deleteProtocolConfig.success.description")
                               [("protocol", protocol)];
              level := SUCCESS;
              message := t (notifications +:+ "deleteProtocolConfig.success.message") [] |};
            OnUpdate (appId props)]
       | Rejected e => [DispatchAddAlert (deleteErrorAlert (BackendFailure e))]
       end.
Proof.
  unfold handleInboundConfigDelete, fireAndForget, trace. cbn [now later].
  destruct (backend (deleteProtocol (appId props) protocol)) as [payload | e]; cbn -[alertOnError].
  - reflexivity.
  - now rewrite alertOnError_emit.
Qed.

Lemma handleInboundConfigSwitch_trace protocol :
  trace (handleInboundConfigSwitch t props backend protocol)
  = SetRequestLoading true
    :: Request (deleteProtocol (appId props) protocol)
    :: Settle (deleteProtocol (appId props) protocol)
              (backend (deleteProtocol (appId props) protocol))
    :: match backend (deleteProtocol (appId props) protocol) with
       | Fulfilled _ => [OnUpdate (appId props)]
       | Rejected e => [DispatchAddAlert (deleteErrorAlert (BackendFailure e))]
       end ++ [SetRequestLoading false; SetSelectedProtocol None].
Proof.
  unfold handleInboundConfigSwitch, fireAndForget, trace, andThen. cbn -[alertOnError].
  destruct (backend (deleteProtocol (appId props) protocol)) as [payload | e]; cbn -[alertOnError].
  - reflexivity.
  - now rewrite alertOnError_emit.
Qed.

Lemma handleInboundConfigFormSubmit_now values protocol :
  now (handleInboundConfigFormSubmit t props backend values protocol)
  = [Request (updateAuthProtocolConfig (appId props) values protocol)].
Proof. reflexivity. Qed.

Lemma handleInboundConfigFormSubmit_raised values protocol :
  raised (handleInboundConfigFormSubmit t props backend values protocol) = None.
Proof. reflexivity. Qed.

Lemma handleInboundConfigFormSubmit_later values protocol :
  later (handleInboundConfigFormSubmit t props backend values protocol)
  = Settle (updateAuthProtocolConfig (appId props) values protocol)
           (backend (updateAuthProtocolConfig (appId props) values protocol))
    :: afterConfigUpdate (backend (updateAuthProtocolConfig (appId props) values protocol)).
Proof.
  unfold handleInboundConfigFormSubmit, fireAndForget, afterConfigUpdate. cbn [later].
  f_equal.
  destruct (backend (updateAuthProtocolConfig (appId props) values protocol)) as [payload | e];
    cbn -[alertOnError].
  - destruct (onAllowedOriginsUpdate props); cbn -[alertOnError]; [reflexivity |].
    now rewrite alertOnError_emit.
  - now rewrite alertOnError_emit.
Qed.

Lemma handleSubmit_trace selected general inbound :
  trace (handleSubmit t props backend selected general inbound)
  = SetRequestLoading true
    :: Request (updateApplicationDetails (appId props) general)
    :: Settle (updateApplicationDetails (appId props) general)
              (backend (updateApplicationDetails (appId props) general))
    :: match backend (updateApplicationDetails (appId props) general) with
       | Fulfilled _ =>
           Request (updateAuthProtocolConfig (appId props) inbound selected)
           :: SetRequestLoading false
           :: later (handleInboundConfigFormSubmit t props backend inbound selected)
       | Rejected e =>
           [DispatchAddAlert
              (errorAlert "updateApplication.error.message"
                          "updateApplication.genericError.description"
                          "updateApplication.genericError.message" (BackendFailure e));
            SetRequestLoading false]
       end.
Proof.
  unfold handleSubmit, trace, andThen. cbn [raised emit now later fireAndForget app].
  destruct (backend (updateApplicationDetails (appId props) general)) as [payload | e].
  - cbn [then_ catch_ finally_ emitted deferred rejection fmap option_fmap option_map
         emit now later raised app].
    rewrite handleInboundConfigFormSubmit_raised, handleInboundConfigFormSubmit_now.
    cbn. now rewrite app_nil_r.
  - cbn -[alertOnError]. now rewrite alertOnError_emit.
Qed.

Lemma handleApplicationRevoke_trace :
  trace (handleApplicationRevoke t props backend)
  = Request (revokeClientSecret (appId props))
    :: Settle (revokeClientSecret (appId props)) (backend (revokeClientSecret (appId props)))
    :: match backend (revokeClientSecret (appId props)) with
       | Fulfilled _ =>
           [DispatchAddAlert {|
              description := t (notifications +:+ "revokeApplication.success.description") [];
              level := SUCCESS;
              message := t (notifications +:+ "revokeApplication.success.message") [] |};
            OnUpdate (appId props)]
       | Rejected e =>
           [DispatchAddAlert
              (errorAlert "revokeApplication.error.message"
                          "revokeApplication.success.description"
                          "revokeApplication.success.message" (BackendFailure e))]
       end.
Proof.
  unfold handleApplicationRevoke, fireAndForget, trace. cbn [now later].
  destruct (backend (revokeClientSecret (appId props))) as [payload | e]; cbn -[alertOnError].
  - reflexivity.
  - now rewrite alertOnError_emit.
Qed.

Lemma handleApplicationRegenerate_trace :
  trace (handleApplicationRegenerate t props backend)
  = Request (regenerateClientSecret (appId props))
    :: Settle (regenerateClientSecret (appId props))
              (backend (regenerateClientSecret (appId props)))
    :: match backend (regenerateClientSecret (appId props)) with
       | Fulfilled payload =>
           DispatchAddAlert {|
             description := t (notifications +:+ "regenerateSecret.success.description") [];
             level := SUCCESS;
             message := t (notifications +:+ "regenerateSecret.success.message") [] |}
           :: (if onApplicationSecretRegenerate props
               then [OnApplicationSecretRegenerate payload; OnUpdate (appId props)]
               else [DispatchAddAlert
                       (errorAlert "regenerateSecret.error.message"
                                   "regenerateSecret.genericError.description"
                                   "regenerateSecret.genericError.message" (Raised TypeError))])
       | Rejected e =>
           [DispatchAddAlert
              (errorAlert "regenerateSecret.error.message"
                          "regenerateSecret.genericError.description"
                          "regenerateSecret.genericError.message" (BackendFailure e))]
       end.
Proof.
  unfold handleApplicationRegenerate, fireAndForget, trace. cbn [now later].
  destruct (backend (regenerateClientSecret (appId props))) as [payload | e]; cbn -[alertOnError].
  - destruct (onApplicationSecretRegenerate props); cbn -[alertOnError]; [reflexivity |].
    now rewrite alertOnError_emit.
  - now rewrite alertOnError_emit.
Qed.

Lemma fetchAuthProtocolMetadata_trace selected :
  trace (fetchAuthProtocolMetadata t backend selected)
  = Request (getAuthProtocolMetadata selected)
    :: Settle (getAuthProtocolMetadata selected) (backend (getAuthProtocolMetadata selected))
    :: match backend (getAuthProtocolMetadata selected) with
       | Fulfilled payload => [DispatchSetAuthProtocolMeta selected payload]
       | Rejected e =>
           [DispatchAddAlert
              (errorAlert "fetchProtocolMeta.error.message"
                          "fetchProtocolMeta.genericError.description"
                          "fetchProtocolMeta.genericError.message" (BackendFailure e))]
       end.
Proof.
  unfold fetchAuthProtocolMetadata, fireAndForget, trace. cbn [now later].
  destruct (backend (getAuthProtocolMetadata selected)) as [payload | e]; cbn -[alertOnError].
  - reflexivity.
  - now rewrite alertOnError_emit.
Qed.

(** On a rejected call every handler dispatches exactly one notification, the
    one its [catch] callback builds from its own translation keys. *)
Lemma rejected_call_alerts (e : AxiosError) :
  (forall protocol,
     backend (deleteProtocol (appId props) protocol) = Rejected e ->
     alerts (trace (handleInboundConfigDelete t props backend protocol))
     = [deleteErrorAlert (BackendFailure e)]
     /\ alerts (trace (handleInboundConfigSwitch t props backend protocol))
        = [deleteErrorAlert (BackendFailure e)])
  /\ (forall values protocol,
        backend (updateAuthProtocolConfig (appId props) values protocol) = Rejected e ->
        alerts (trace (handleInboundConfigFormSubmit t props backend values protocol))
        = [updateConfigErrorAlert (BackendFailure e)])
  /\ (forall selected general inbound,
        backend (updateApplicationDetails (appId props) general) = Rejected e ->
        alerts (trace (handleSubmit t props backend selected general inbound))
        = [errorAlert "updateApplication.error.message"
                      "updateApplication.genericError.description"
                      "updateApplication.genericError.message" (BackendFailure e)])
  /\ (backend (regenerateClientSecret (appId props)) = Rejected e ->
      alerts (trace (handleApplicationRegenerate t props backend))
      = [errorAlert "regenerateSecret.error.message"
                    "regenerateSecret.genericError.description"
                    "regenerateSecret.genericError.message" (BackendFailure e)])
  /\ (backend (revokeClientSecret (appId props)) = Rejected e ->
      alerts (trace (handleApplicationRevoke t props backend))
      = [errorAlert "revokeApplication.error.message"
                    "revokeApplication.success.description"
                    "revokeApplication.success.message" (BackendFailure e)])
  /\ (forall selected,
        backend (getAuthProtocolMetadata selected) = Rejected e ->
        alerts (trace (fetchAuthProtocolMetadata t backend selected))
        = [errorAlert "fetchProtocolMeta.error.message"
                      "fetchProtocolMeta.genericError.description"
                      "fetchProtocolMeta.genericError.message" (BackendFailure e)]).
Proof.
  split; [| split; [| split; [| split; [| split]]]].
  - intros protocol Hrej.
    rewrite handleInboundConfigDelete_trace, handleInboundConfigSwitch_trace, Hrej.
    split; reflexivity.
  - intros values protocol Hrej. unfold trace.
    rewrite handleInboundConfigFormSubmit_now, handleInboundConfigFormSubmit_later, Hrej.
    reflexivity.
  - intros selected general inbound Hrej. rewrite handleSubmit_trace, Hrej. reflexivity.
  - intros Hrej. rewrite handleApplicationRegenerate_trace, Hrej. reflexivity.
  - intros Hrej. rewrite handleApplicationRevoke_trace, Hrej. reflexivity.
  - intros selected Hrej. rewrite fetchAuthProtocolMetadata_trace, Hrej. reflexivity.
Qed.

(** A description that is present and not empty is shown as it is; otherwise
    the translation of the handler's fallback key is shown. *)
Lemma errorAlert_description errorMessage genericDescription genericMessage (e : AxiosError) :
  level (errorAlert errorMessage genericDescription genericMessage (BackendFailure e)) = ERROR
  /\ (forall d,
        structuredDescription (BackendFailure e) = Some d -> truthy d = true ->
        description (errorAlert errorMessage genericDescription genericMessage (BackendFailure e))
        = d)
  /\ (truthyOpt (structuredDescription (BackendFailure e)) = false ->
      description (errorAlert errorMessage genericDescription genericMessage (BackendFailure e))
      = t (notifications +:+ genericDescription) []).
Proof.
  unfold errorAlert. split; [| split].
  - now destruct (truthyOpt (structuredDescription (BackendFailure e))).
  - intros d Hd Htruthy. rewrite Hd. cbn [truthyOpt]. now rewrite Htruthy.
  - now intros ->.
Qed.

End Observations.

(** C4 (amended).  Only the protocol-configuration update calls the refresh
    callbacks in its cleanup phase: whatever the outcome, its trace ends with
    [onUpdate] followed by [onProtocolUpdate].  Deleting a protocol, switching
    the protocol and revoking the secret call [onUpdate] exactly when the
    backend call succeeds (the cleanup phase of the switch only resets the
    loading flag and the selection); regenerating the secret calls it when the
    call succeeds and the regenerate callback is present; fetching protocol
    metadata never calls it; the details update of [handleSubmit] has no
    refresh of its own, the callbacks are reached through the configuration
    update that follows its success. *)
Theorem refresh_callbacks {FormData Payload : Type}
  (t : string -> list (string * option string) -> string)
  (props : AccessConfigurationPropsInterface)
  (backend : ApiCall FormData -> Settled Payload) :
  (forall values protocol,
     exists earlier,
       trace (handleInboundConfigFormSubmit t props backend values protocol)
       = earlier ++ [OnUpdate (appId props); OnProtocolUpdate])
  /\ (forall protocol,
        existsb isRefresh (trace (handleInboundConfigDelete t props backend protocol))
        = fulfilled (backend (deleteProtocol (appId props) protocol)))
  /\ (forall protocol,
        existsb isRefresh (trace (handleInboundConfigSwitch t props backend protocol))
        = fulfilled (backend (deleteProtocol (appId props) protocol))
        /\ exists earlier,
             trace (handleInboundConfigSwitch t props backend protocol)
             = earlier ++ [SetRequestLoading false; SetSelectedProtocol None])
  /\ existsb isRefresh (trace (handleApplicationRevoke t props backend))
     = fulfilled (backend (revokeClientSecret (appId props)))
  /\ existsb isRefresh (trace (handleApplicationRegenerate t props backend))
     = fulfilled (backend (regenerateClientSecret (appId props)))
       && onApplicationSecretRegenerate props
  /\ (forall selected,
        existsb isRefresh (trace (fetchAuthProtocolMetadata t backend selected)) = false)
  /\ (forall selected general inbound,
        existsb isRefresh (trace (handleSubmit t props backend selected general inbound))
        = fulfilled (backend (updateApplicationDetails (appId props) general))).
Proof.
  split; [| split; [| split; [| split; [| split; [| split]]]]].
  - intros values protocol. unfold trace.
    rewrite handleInboundConfigFormSubmit_now, handleInboundConfigFormSubmit_later.
    unfold afterConfigUpdate.
    eexists. rewrite app_comm_cons, app_assoc. reflexivity.
  - intros protocol. rewrite handleInboundConfigDelete_trace.
    now destruct (backend (deleteProtocol (appId props) protocol)).
  - intros protocol. rewrite handleInboundConfigSwitch_trace. split.
    + now destruct (backend (deleteProtocol (appId props) protocol)).
    + eexists. rewrite !app_comm_cons. reflexivity.
  - rewrite handleApplicationRevoke_trace.
    now destruct (backend (revokeClientSecret (appId props))).
  - rewrite handleApplicationRegenerate_trace.
    destruct (backend (regenerateClientSecret (appId props))); [| reflexivity].
    now destruct (onApplicationSecretRegenerate props).
  - intros selected. rewrite fetchAuthProtocolMetadata_trace.
    now destruct (backend (getAuthProtocolMetadata selected)).
  - intros selected general inbound. rewrite handleSubmit_trace.
    destruct (backend (updateApplicationDetails (appId props) general)); [| reflexivity].
    rewrite handleInboundConfigFormSubmit_later. unfold afterConfigUpdate.
    cbn [existsb isRefresh isOnUpdate isOnProtocolUpdate orb fulfilled].
    rewrite existsb_app. cbn. apply orb_true_r.
Qed.

(** C4 as stated fails: when deleting the protocol is rejected, the trace of
    the delete handler holds the error notification and no refresh call. *)
Lemma handleInboundConfigDelete_failure_skips_refresh :
  trace (handleInboundConfigDelete Examples.keyOnly
           (Examples.propsFor Examples.spaTemplate false ["saml"])
           Examples.failing (Some "saml"))
  = [ Request (deleteProtocol "app-1" (Some "saml"));
      Settle (deleteProtocol "app-1" (Some "saml")) (Rejected Examples.noDescription);
      DispatchAddAlert {|
        description := "console:develop.features.applications.notifications."
                       +:+ "deleteProtocolConfig.genericError.description";
        level := ERROR;
        message := "console:develop.features.applications.notifications."
                   +:+ "deleteProtocolConfig.genericError.message" |} ]
  /\ existsb isRefresh
       (trace (handleInboundConfigDelete Examples.keyOnly
                 (Examples.propsFor Examples.spaTemplate false ["saml"])
                 Examples.failing (Some "saml"))) = false.
Proof. split; reflexivity. Qed.

(** C3, at the revoke handler.  When revoking the secret is rejected and the
    error carries no usable description, the one notification dispatched is an
    error whose description and message are the translations of the *success*
    keys of the revoke operation. *)
Theorem handleApplicationRevoke_fallback_alert {FormData Payload : Type}
  (t : string -> list (string * option string) -> string)
  (props : AccessConfigurationPropsInterface)
  (backend : ApiCall FormData -> Settled Payload) (e : AxiosError) :
  backend (revokeClientSecret (appId props)) = Rejected e ->
  truthyOpt (structuredDescription (BackendFailure e)) = false ->
  alerts (trace (handleApplicationRevoke t props backend))
  = [ {| description := t (notifications +:+ "revokeApplication.success.description") [];
         level := ERROR;
         message := t (notifications +:+ "revokeApplication.success.message") [] |} ].
Proof.
  intros Hrejected Hnone. rewrite handleApplicationRevoke_trace, Hrejected.
  cbn. unfold errorAlert. now rewrite Hnone.
Qed.

Lemma handleApplicationRevoke_fallback_alert_witness :
  alerts (trace (handleApplicationRevoke Examples.keyOnly
                   (Examples.propsFor Examples.spaTemplate false ["oidc"])
                   Examples.failing))
  = [ {| description := "console:develop.features.applications.notifications."
                        +:+ "revokeApplication.success.description";
         level := ERROR;
         message := "console:develop.features.applications.notifications."
                    +:+ "revokeApplication.success.message" |} ].
Proof.
  apply (handleApplicationRevoke_fallback_alert Examples.keyOnly
           (Examples.propsFor Examples.spaTemplate false ["oidc"])
           Examples.failing Examples.noDescription); reflexivity.
Defined.

(** C7.  In [handleSubmit] a request to update the protocol configuration is
    only found after the settlement of the details update, and that
    settlement is a success; when the details update is rejected the trace
    holds no such request; when it succeeds the request is issued. *)
Theorem handleSubmit_sequencing {FormData Payload : Type}
  (t : string -> list (string * option string) -> string)
  (props : AccessConfigurationPropsInterface)
  (backend : ApiCall FormData -> Settled Payload)
  (selected : option string) (general inbound : FormData) :
  (forall e,
     backend (updateApplicationDetails (appId props) general) = Rejected e ->
     existsb isConfigUpdateRequest
       (trace (handleSubmit t props backend selected general inbound)) = false)
  /\ (forall i id values protocol,
        trace (handleSubmit t props backend selected general inbound) !! i
        = Some (Request (updateAuthProtocolConfig id values protocol)) ->
        exists j payload,
          j < i
          /\ trace (handleSubmit t props backend selected general inbound) !! j
             = Some (Settle (updateApplicationDetails (appId props) general)
                            (Fulfilled payload)))
  /\ (forall payload,
        backend (updateApplicationDetails (appId props) general) = Fulfilled payload ->
        trace (handleSubmit t props backend selected general inbound) !! 3
        = Some (Request (updateAuthProtocolConfig (appId props) inbound selected))).
Proof.
  rewrite handleSubmit_trace. split; [| split].
  - intros e ->. reflexivity.
  - intros i id values protocol Hi.
    destruct (backend (updateApplicationDetails (appId props) general)) as [payload | e].
    + exists 2, payload. split; [| reflexivity].
      destruct i as [| [| [| i]]]; [discriminate Hi .. | lia].
    + destruct i as [| [| [| [| [| i]]]]]; discriminate Hi.
  - intros payload ->. reflexivity.
Qed.

(** The three parts of the statement on concrete backends: one that rejects
    every call, one that accepts the details update only. *)
Lemma handleSubmit_sequencing_witness :
  existsb isConfigUpdateRequest
    (trace (handleSubmit Examples.keyOnly
              (Examples.propsFor Examples.spaTemplate false ["oidc"])
              Examples.failing (Some "oidc") tt tt)) = false
  /\ (exists j payload,
        j < 3
        /\ trace (handleSubmit Examples.keyOnly
                    (Examples.propsFor Examples.spaTemplate false ["oidc"])
                    Examples.onlyDetailsSucceed (Some "oidc") tt tt) !! j
           = Some (Settle (updateApplicationDetails "app-1" tt) (Fulfilled payload))).
Proof.
  split.
  - apply (handleSubmit_sequencing Examples.keyOnly
             (Examples.propsFor Examples.spaTemplate false ["oidc"])
             Examples.failing (Some "oidc") tt tt) with (e := Examples.noDescription).
    reflexivity.
  - apply (handleSubmit_sequencing Examples.keyOnly
             (Examples.propsFor Examples.spaTemplate false ["oidc"])
             Examples.onlyDetailsSucceed (Some "oidc") tt tt)
      with (id := "app-1") (values := tt) (protocol := Some "oidc").
    reflexivity.
Defined.

End HandlerFacts.

Module PanelFacts.

Import Js AccessConfiguration HandlerFacts.

Section Reactions.

Context {E : SupportedAuthProtocolTypes} {FormData Payload : Type}.
Variable t : string -> list (string * option string) -> string.
Variable cfg : ExtensionConfig.
Variable props : AccessConfigurationPropsInterface.
Variable backend : ApiCall FormData -> Settled Payload.
Variable allowMultipleProtocol : bool.
Variable authProtocolMeta : gmap string Payload.
Variable protocolMetaTypeValues : list string.

Local Abbreviation Effects := (Effects FormData Payload).
Local Abbreviation Event := (Event FormData Payload).

(** The [deleteProtocol] requests of a trace, in order. *)
Definition deleteRequests (tr : list Event) : list Event := List.filter isDeleteRequest tr.

(** Effects that start no [deleteProtocol] request, now or later. *)
Definition quiet (e : Effects) : Prop :=
  deleteRequests (now e) = [] /\ deleteRequests (later e) = [].

Lemma quiet_trace e : quiet e -> deleteRequests (trace e) = [].
Proof.
  intros [Hnow Hlater]. unfold trace, deleteRequests in *.
  now rewrite List.filter_app, Hnow, Hlater.
Qed.

Lemma andThen_quiet a b : quiet a -> quiet b -> quiet (andThen a b).
Proof.
  intros Ha [Hbn Hbl]. unfold andThen. destruct (raised a); [exact Ha |].
  destruct Ha as [Han Hal]. unfold quiet, deleteRequests in *. cbn [now later].
  now rewrite !List.filter_app, Han, Hal, Hbn, Hbl.
Qed.

Lemma block_quiet (statements : list Effects) : Forall quiet statements -> quiet (block statements).
Proof.
  induction 1 as [| e rest He Hrest IH]; cbn.
  - now split.
  - now apply andThen_quiet.
Qed.

Lemma emit_quiet (e : Event) : isDeleteRequest e = false -> quiet (emit e).
Proof. intros He. unfold quiet, deleteRequests. cbn. now rewrite He. Qed.

Lemma fetchAuthProtocolMetadata_quiet selected :
  quiet (fetchAuthProtocolMetadata t backend selected).
Proof.
  split; [reflexivity |].
  change (later (fetchAuthProtocolMetadata t backend selected))
    with (List.tail (trace (fetchAuthProtocolMetadata t backend selected))).
  rewrite fetchAuthProtocolMetadata_trace. cbn [List.tail].
  now destruct (backend (getAuthProtocolMetadata selected)).
Qed.

Lemma effects_quiet :
  quiet (block [ mirrorInboundProtocolsEffect props;
                 fetchMetadataEffect t backend authProtocolMeta protocolMetaTypeValues ]).
Proof.
  apply block_quiet. constructor; [| constructor; [| constructor]].
  - unfold mirrorInboundProtocolsEffect.
    destruct (Nat.ltb 0 (List.length (inboundProtocols props))); now split.
  - unfold fetchMetadataEffect. apply block_quiet, Forall_map, Forall_forall.
    intros selected _.
    destruct (String.eqb selected WS_FEDERATION || String.eqb selected WS_TRUST);
      [now split |].
    destruct (authProtocolMeta !! selected); [now split |].
    apply fetchAuthProtocolMetadata_quiet.
Qed.

Lemma handleSubmit_quiet selected general inbound :
  deleteRequests (trace (handleSubmit t props backend selected general inbound)) = [].
Proof.
  rewrite handleSubmit_trace.
  destruct (backend (updateApplicationDetails (appId props) general)); [| reflexivity].
  rewrite handleInboundConfigFormSubmit_later. unfold afterConfigUpdate.
  destruct (backend (updateAuthProtocolConfig (appId props) inbound selected));
    [| reflexivity].
  now destruct (onAllowedOriginsUpdate props).
Qed.

Lemma handleApplicationRegenerate_quiet :
  deleteRequests (trace (handleApplicationRegenerate t props backend)) = [].
Proof.
  rewrite handleApplicationRegenerate_trace.
  destruct (backend (regenerateClientSecret (appId props))); [| reflexivity].
  now destruct (onApplicationSecretRegenerate props).
Qed.

Lemma handleApplicationRevoke_quiet :
  deleteRequests (trace (handleApplicationRevoke t props backend)) = [].
Proof.
  rewrite handleApplicationRevoke_trace.
  now destruct (backend (revokeClientSecret (appId props))).
Qed.

(** Rendering the grid leaves the modal flags and the protocol to delete as
    they are. *)
Lemma loadSupportedProtocols_modals st st1 :
  loadSupportedProtocols cfg props st = Normal st1 ->
  showDeleteConfirmationModal st1 = showDeleteConfirmationModal st
  /\ showProtocolSwitchModal st1 = showProtocolSwitchModal st
  /\ protocolToDelete st1 = protocolToDelete st.
Proof.
  unfold loadSupportedProtocols.
  destruct (sortedSupportedProtocols cfg props) as [sorted | e]; [| discriminate].
  intros [= <-].
  destruct (truthyOpt (selectedProtocol st)); cbn;
    destruct (supportedProtocolList st); cbn; auto.
Qed.

(** What a confirmed delete does. *)
Lemma confirmDelete_trace (protocol : option string) :
  trace (block [ handleInboundConfigDelete t props backend protocol;
                 emit (SetShowDeleteConfirmationModal false) ])
  = Request (deleteProtocol (appId props) protocol)
    :: SetShowDeleteConfirmationModal false
    :: List.tail (trace (handleInboundConfigDelete t props backend protocol)).
Proof. unfold trace. cbn. now rewrite app_nil_r. Qed.

Lemma confirmSwitch_trace (protocol : option string) :
  trace (block [ handleInboundConfigSwitch t props backend protocol;
                 emit (SetShowProtocolSwitchModal false) ])
  = SetRequestLoading true
    :: Request (deleteProtocol (appId props) protocol)
    :: SetShowProtocolSwitchModal false
    :: List.tail (List.tail (trace (handleInboundConfigSwitch t props backend protocol))).
Proof. unfold trace. cbn. now rewrite app_nil_r. Qed.

(** The callbacks of the grid, classified by the requests they start. *)
Lemma gridCallback_deleteRequests st s effects :
  gridCallback t props backend allowMultipleProtocol st s = Some effects ->
  (isPrimaryClick s = false /\ deleteRequests (trace effects) = [])
  \/ (s = DeleteModalPrimary
      /\ showDeleteConfirmationModal st = true
      /\ deleteRequests (trace effects)
         = [Request (deleteProtocol (appId props) (protocolToDelete st))]
      /\ showDeleteConfirmationModal (foldl applyEvent st (trace effects)) = false)
  \/ (s = SwitchModalPrimary
      /\ showProtocolSwitchModal st = true
      /\ deleteRequests (trace effects)
         = [Request (deleteProtocol (appId props) (selectedProtocol st))]
      /\ showProtocolSwitchModal (foldl applyEvent st (trace effects)) = false).
Proof.
  destruct s; cbn [gridCallback]; try discriminate.
  - destruct (supportedProtocolList st); [| discriminate].
    destruct (_ && _); [| discriminate]. intros [= <-]. now left.
  - destruct (truthyOpt (selectedProtocol st)); [| discriminate]. intros [= <-].
    left. split; [reflexivity | apply handleSubmit_quiet].
  - destruct (_ && _); [| discriminate]. intros [= <-].
    left. split; [reflexivity | apply handleApplicationRegenerate_quiet].
  - destruct (_ && _); [| discriminate]. intros [= <-].
    left. split; [reflexivity | apply handleApplicationRevoke_quiet].
  - destruct (showWizard st); [| discriminate]. intros [= <-]. now left.
  - destruct (showDeleteConfirmationModal st); [| discriminate]. intros [= <-]. now left.
  - destruct (showDeleteConfirmationModal st); [| discriminate]. intros [= <-]. now left.
  - destruct (showDeleteConfirmationModal st) eqn:Hshown; [| discriminate]. intros [= <-].
    right. left. split; [reflexivity |]. split; [reflexivity |].
    pose proof (confirmDelete_trace (protocolToDelete st)) as Htrace.
    cbn [block foldr] in Htrace. rewrite Htrace, handleInboundConfigDelete_trace.
    destruct (backend (deleteProtocol (appId props) (protocolToDelete st))); now split.
  - destruct (showProtocolSwitchModal st); [| discriminate]. intros [= <-]. now left.
  - destruct (showProtocolSwitchModal st); [| discriminate]. intros [= <-]. now left.
  - destruct (showProtocolSwitchModal st) eqn:Hshown; [| discriminate]. intros [= <-].
    right. right. split; [reflexivity |]. split; [reflexivity |].
    pose proof (confirmSwitch_trace (selectedProtocol st)) as Htrace.
    cbn [block foldr] in Htrace. rewrite Htrace, handleInboundConfigSwitch_trace.
    destruct (backend (deleteProtocol (appId props) (selectedProtocol st))); now split.
Qed.

Lemma react_deleteRequests st s st' tr :
  react t cfg props backend allowMultipleProtocol authProtocolMeta protocolMetaTypeValues st s
  = Some (st', tr) ->
  (isPrimaryClick s = false /\ deleteRequests tr = [])
  \/ (s = DeleteModalPrimary
      /\ showDeleteConfirmationModal st = true
      /\ deleteRequests tr = [Request (deleteProtocol (appId props) (protocolToDelete st))]
      /\ showDeleteConfirmationModal st' = false)
  \/ (s = SwitchModalPrimary
      /\ showProtocolSwitchModal st = true
      /\ (exists protocol, deleteRequests tr = [Request (deleteProtocol (appId props) protocol)])
      /\ showProtocolSwitchModal st' = false).
Proof.
  assert (Hgrid : forall s0,
    match loadSupportedProtocols cfg props st with
    | Throw _ => None
    | Normal st1 =>
        match gridCallback t props backend allowMultipleProtocol st1 s0 with
        | Some effects => Some (foldl applyEvent st1 (trace effects), trace effects)
        | None => None
        end
    end = Some (st', tr) ->
    (isPrimaryClick s0 = false /\ deleteRequests tr = [])
    \/ (s0 = DeleteModalPrimary
        /\ showDeleteConfirmationModal st = true
        /\ deleteRequests tr = [Request (deleteProtocol (appId props) (protocolToDelete st))]
        /\ showDeleteConfirmationModal st' = false)
    \/ (s0 = SwitchModalPrimary
        /\ showProtocolSwitchModal st = true
        /\ (exists protocol,
              deleteRequests tr = [Request (deleteProtocol (appId props) protocol)])
        /\ showProtocolSwitchModal st' = false)).
  { intros s0.
    destruct (loadSupportedProtocols cfg props st) as [st1 | e] eqn:Hload; [| discriminate].
    destruct (loadSupportedProtocols_modals st st1 Hload) as (Hdel & Hswitch & Hprotocol).
    destruct (gridCallback t props backend allowMultipleProtocol st1 s0) as [effects |] eqn:Hcb;
      [| discriminate].
    intros [= <- <-].
    destruct (gridCallback_deleteRequests st1 s0 effects Hcb)
      as [Hquiet | [(-> & Hshown & Hreq & Hclosed) | (-> & Hshown & Hreq & Hclosed)]].
    - now left.
    - right. left. rewrite <- Hdel, <- Hprotocol. auto.
    - right. right. rewrite <- Hswitch. eauto 6. }
  unfold react.
  destruct s;
    try (destruct (render cfg props allowMultipleProtocol st) as [[| available |] | e];
         [ discriminate | try discriminate | apply Hgrid | discriminate ]).
  - intros [= <- <-]. left. split; [reflexivity |]. apply quiet_trace, effects_quiet.
  - destruct (includes protocol available); [| discriminate].
    intros [= <- <-]. now left.
Qed.

(** In a run, the [deleteProtocol] requests are as many as the confirmations. *)
Lemma run_deleteRequests stimuli : forall st st' tr,
  run t cfg props backend allowMultipleProtocol authProtocolMeta protocolMetaTypeValues
      st stimuli = Some (st', tr) ->
  List.length (deleteRequests tr) = List.length (List.filter isPrimaryClick stimuli).
Proof.
  induction stimuli as [| s rest IH]; intros st st' tr; cbn [run].
  - now intros [= <- <-].
  - destruct (react t cfg props backend allowMultipleProtocol authProtocolMeta
                protocolMetaTypeValues st s) as [[st1 tr1] |] eqn:Hreact; [| discriminate].
    destruct (run t cfg props backend allowMultipleProtocol authProtocolMeta
                protocolMetaTypeValues st1 rest) as [[st2 tr2] |] eqn:Hrun; [| discriminate].
    intros [= <- <-]. unfold deleteRequests in *.
    rewrite List.filter_app, List.length_app, (IH _ _ _ Hrun). cbn [List.filter].
    destruct (react_deleteRequests st s st1 tr1 Hreact)
      as [[Hs Hreq] | [(-> & _ & Hreq & _) | (-> & _ & [protocol Hreq] & _)]];
      unfold deleteRequests in Hreq; rewrite Hreq; [now rewrite Hs | reflexivity ..].
Qed.

(** *** The delete confirmation is never opened by the panel itself *)

Definition opensDeleteModal (e : Event) : bool :=
  match e with
  | SetShowDeleteConfirmationModal true => true
  | _ => false
  end.

(** Effects none of whose events opens the delete confirmation. *)
Definition calm (e : Effects) : Prop :=
  Forall (fun ev => opensDeleteModal ev = false) (now e)
  /\ Forall (fun ev => opensDeleteModal ev = false) (later e).

Lemma calm_trace e : calm e -> Forall (fun ev => opensDeleteModal ev = false) (trace e).
Proof. intros [Hnow Hlater]. unfold trace. now apply Forall_app. Qed.

Lemma andThen_calm a b : calm a -> calm b -> calm (andThen a b).
Proof.
  intros Ha [Hbn Hbl]. unfold andThen. destruct (raised a); [exact Ha |].
  destruct Ha as [Han Hal]. split; cbn [now later]; now apply Forall_app.
Qed.

Lemma block_calm (statements : list Effects) : Forall calm statements -> calm (block statements).
Proof.
  induction 1 as [| e rest He Hrest IH]; cbn.
  - split; constructor.
  - now apply andThen_calm.
Qed.

Lemma trace_calm e :
  raised e = None -> Forall (fun ev => opensDeleteModal ev = false) (trace e) -> calm e.
Proof. intros _ Hall. unfold trace in Hall. now apply Forall_app in Hall. Qed.

Lemma applyEvents_closed (tr : list Event) : forall st,
  Forall (fun ev => opensDeleteModal ev = false) tr ->
  showDeleteConfirmationModal st = false ->
  showDeleteConfirmationModal (foldl applyEvent st tr) = false.
Proof.
  induction tr as [| e rest IH]; intros st Hall Hclosed; [exact Hclosed |].
  apply Forall_cons in Hall as [He Hrest]. cbn [foldl]. apply IH; [exact Hrest |].
  destruct e; cbn; try exact Hclosed. now destruct v.
Qed.

Lemma gridCallback_calm st s effects :
  gridCallback t props backend allowMultipleProtocol st s = Some effects ->
  Forall (fun ev => opensDeleteModal ev = false) (trace effects).
Proof.
  destruct s; cbn [gridCallback]; try discriminate.
  - destruct (supportedProtocolList st); [| discriminate].
    destruct (_ && _); [| discriminate]. intros [= <-]. repeat constructor.
  - destruct (truthyOpt (selectedProtocol st)); [| discriminate]. intros [= <-].
    rewrite handleSubmit_trace.
    destruct (backend (updateApplicationDetails (appId props) general));
      [| repeat constructor].
    rewrite handleInboundConfigFormSubmit_later. unfold afterConfigUpdate.
    destruct (backend (updateAuthProtocolConfig (appId props) inbound (selectedProtocol st)));
      [| repeat constructor].
    destruct (onAllowedOriginsUpdate props); repeat constructor.
  - destruct (_ && _); [| discriminate]. intros [= <-].
    rewrite handleApplicationRegenerate_trace.
    destruct (backend (regenerateClientSecret (appId props))); [| repeat constructor].
    destruct (onApplicationSecretRegenerate props); repeat constructor.
  - destruct (_ && _); [| discriminate]. intros [= <-].
    rewrite handleApplicationRevoke_trace.
    destruct (backend (revokeClientSecret (appId props))); repeat constructor.
  - destruct (showWizard st); [| discriminate]. intros [= <-]. repeat constructor.
  - destruct (showDeleteConfirmationModal st); [| discriminate]. intros [= <-].
    repeat constructor.
  - destruct (showDeleteConfirmationModal st); [| discriminate]. intros [= <-].
    repeat constructor.
  - destruct (showDeleteConfirmationModal st); [| discriminate]. intros [= <-].
    pose proof (confirmDelete_trace (protocolToDelete st)) as Htrace.
    cbn [block foldr] in Htrace. rewrite Htrace, handleInboundConfigDelete_trace.
    destruct (backend (deleteProtocol (appId props) (protocolToDelete st)));
      repeat constructor.
  - destruct (showProtocolSwitchModal st); [| discriminate]. intros [= <-].
    repeat constructor.
  - destruct (showProtocolSwitchModal st); [| discriminate]. intros [= <-].
    repeat constructor.
  - destruct (showProtocolSwitchModal st); [| discriminate]. intros [= <-].
    pose proof (confirmSwitch_trace (selectedProtocol st)) as Htrace.
    cbn [block foldr] in Htrace. rewrite Htrace, handleInboundConfigSwitch_trace.
    destruct (backend (deleteProtocol (appId props) (selectedProtocol st)));
      repeat constructor.
Qed.

Lemma effects_calm :
  calm (block [ mirrorInboundProtocolsEffect props;
                fetchMetadataEffect t backend authProtocolMeta protocolMetaTypeValues ]).
Proof.
  apply block_calm. constructor; [| constructor; [| constructor]].
  - unfold mirrorInboundProtocolsEffect.
    destruct (Nat.ltb 0 (List.length (inboundProtocols props))); split; repeat constructor.
  - unfold fetchMetadataEffect. apply block_calm, Forall_map, Forall_forall.
    intros selected _.
    destruct (String.eqb selected WS_FEDERATION || String.eqb selected WS_TRUST);
      [split; constructor |].
    destruct (authProtocolMeta !! selected); [split; constructor |].
    apply trace_calm; [reflexivity |].
    rewrite fetchAuthProtocolMetadata_trace.
    destruct (backend (getAuthProtocolMetadata selected)); repeat constructor.
Qed.

Lemma react_keeps_delete_modal_closed st s st' tr :
  react t cfg props backend allowMultipleProtocol authProtocolMeta protocolMetaTypeValues st s
  = Some (st', tr) ->
  showDeleteConfirmationModal st = false ->
  showDeleteConfirmationModal st' = false.
Proof.
  intros Hreact Hclosed.
  assert (Hgrid : forall s0,
    match loadSupportedProtocols cfg props st with
    | Throw _ => None
    | Normal st1 =>
        match gridCallback t props backend allowMultipleProtocol st1 s0 with
        | Some effects => Some (foldl applyEvent st1 (trace effects), trace effects)
        | None => None
        end
    end = Some (st', tr) ->
    showDeleteConfirmationModal st' = false).
  { intros s0.
    destruct (loadSupportedProtocols cfg props st) as [st1 | e] eqn:Hload; [| discriminate].
    destruct (loadSupportedProtocols_modals st st1 Hload) as (Hdel & _).
    destruct (gridCallback t props backend allowMultipleProtocol st1 s0) as [effects |] eqn:Hcb;
      [| discriminate].
    intros [= <- <-]. apply applyEvents_closed; [| congruence].
    now apply (gridCallback_calm st1 s0). }
  revert Hreact. unfold react.
  destruct s;
    try (destruct (render cfg props allowMultipleProtocol st) as [[| available |] | e];
         [ discriminate | try discriminate | apply Hgrid | discriminate ]).
  - intros [= <- <-]. apply applyEvents_closed; [| exact Hclosed].
    apply calm_trace, effects_calm.
  - destruct (includes protocol available); [| discriminate].
    intros [= <- <-]. exact Hclosed.
Qed.

(** Started from the initial state, the panel never reaches the delete
    confirmation, so no run confirms a delete. *)
Lemma run_never_confirms_delete stimuli : forall st st' tr,
  run t cfg props backend allowMultipleProtocol authProtocolMeta protocolMetaTypeValues
      st stimuli = Some (st', tr) ->
  showDeleteConfirmationModal st = false ->
  DeleteModalPrimary ∉ stimuli.
Proof.
  induction stimuli as [| s rest IH]; intros st st' tr; cbn [run].
  - intros _ _. apply not_elem_of_nil.
  - destruct (react t cfg props backend allowMultipleProtocol authProtocolMeta
                protocolMetaTypeValues st s) as [[st1 tr1] |] eqn:Hreact; [| discriminate].
    destruct (run t cfg props backend allowMultipleProtocol authProtocolMeta
                protocolMetaTypeValues st1 rest) as [[st2 tr2] |] eqn:Hrun; [| discriminate].
    intros _ Hclosed. apply not_elem_of_cons. split.
    + intros <-.
      destruct (react_deleteRequests st DeleteModalPrimary st1 tr1 Hreact)
        as [[Hs _] | [(_ & Hshown & _) | (Hs & _)]]; [discriminate | congruence | discriminate].
    + apply (IH st1 st2 tr2 Hrun).
      now apply (react_keeps_delete_modal_closed st s st1 tr1).
Qed.

End Reactions.



End PanelFacts.

Module FacebookAuthenticatorFormFacts.

Import Js FacebookAuthenticatorForm.

Section Resolution.

Variable metadata : option CommonAuthenticatorFormMetaInterface.

(** The supplied properties that carry a given key, in order. *)
Definition suppliedFor (k : string) (supplied : list Property.t) : list Property.t :=
  List.filter (fun p => String.eqb (Property.key p) k) supplied.

(** The entry built for a supplied property. *)
Definition entryOf (k : string) (p : Property.t) : Field.t :=
  {| Field.meta := findMeta metadata k; Field.value := Property.value p |}.

Lemma resolved_lookup (supplied : list Property.t) (k : string) :
  fst (foldl (resolveProperty metadata) (∅, ∅) supplied) !! k
  = entryOf k <$> last (suppliedFor k supplied)
  /\ snd (foldl (resolveProperty metadata) (∅, ∅) supplied) !! k
     = Property.value <$> last (suppliedFor k supplied).
Proof.
  unfold suppliedFor.
  induction supplied as [| p earlier IH] using rev_ind.
  - cbn. now rewrite !lookup_empty.
  - rewrite foldl_app, List.filter_app, last_app. cbn.
    destruct IH as [IHfields IHvalues].
    destruct (String.eqb_spec (Property.key p) k) as [<- | Hne]; cbn.
    + now rewrite !lookup_insert_eq.
    + rewrite !lookup_insert_ne by assumption. now split.
Qed.

Lemma suppliedFor_nonempty (supplied : list Property.t) (k : string) :
  is_Some (last (suppliedFor k supplied)) <-> k ∈ Property.key <$> supplied.
Proof.
  unfold suppliedFor. rewrite list_elem_of_fmap. split.
  - intros [p Hlast]. apply last_Some in Hlast as [l' Hl'].
    assert (Hin : In p (List.filter (fun p => String.eqb (Property.key p) k) supplied)).
    { rewrite Hl'. apply in_or_app. right. now left. }
    apply filter_In in Hin as [Hin Hkey]. apply String.eqb_eq in Hkey.
    exists p. split; [now symmetry | now apply list_elem_of_In].
  - intros (p & -> & Hin).
    assert (Hfiltered :
      In p (List.filter (fun q => String.eqb (Property.key q) (Property.key p)) supplied)).
    { apply filter_In. split; [now apply list_elem_of_In | apply String.eqb_refl]. }
    destruct (List.filter _ supplied) as [| q rest] eqn:Hf using rev_ind; [destruct Hfiltered |].
    rewrite last_snoc. eauto.
Qed.

End Resolution.

(** C2 (amended).  When the initial values supply a non-empty property list,
    the initialisation effect resolves a field map whose keys are exactly the
    keys of the supplied properties.  The entry of a key holds the value of the
    last supplied property with that key, and the first metadata declaration
    with that key, if any.  The resolved initial values map each such key to
    the same value. *)
Theorem initialisationEffect_fields
  (metadata : option CommonAuthenticatorFormMetaInterface)
  (originalInitialValues : option CommonAuthenticatorFormInitialValuesInterface)
  (supplied : list Property.t) (st : FormState) :
  originalProperties originalInitialValues = Some supplied ->
  supplied <> [] ->
  exists fields values,
    initialisationEffect metadata originalInitialValues st
    = {| formFields := Some fields; initialValues := Some values |}
    /\ (forall k, is_Some (fields !! k) <-> k ∈ Property.key <$> supplied)
    /\ (forall k, fields !! k = entryOf metadata k <$> last (suppliedFor k supplied))
    /\ (forall k, values !! k = Property.value <$> last (suppliedFor k supplied)).
Proof.
  intros Hsupplied Hnonempty.
  exists (fst (foldl (resolveProperty metadata) (∅, ∅) supplied)),
         (snd (foldl (resolveProperty metadata) (∅, ∅) supplied)).
  split.
  - unfold initialisationEffect. rewrite Hsupplied.
    destruct supplied; [congruence | reflexivity].
  - split; [| split]; intros k.
    + rewrite (proj1 (resolved_lookup metadata supplied k)), <- suppliedFor_nonempty.
      now rewrite fmap_is_Some.
    + apply resolved_lookup.
    + apply resolved_lookup.
Qed.

Lemma initialisationEffect_fields_witness :
  exists fields values,
    initialisationEffect (Some Examples.facebookMetadata) (Some Examples.onlyClientId) unresolved
    = {| formFields := Some fields; initialValues := Some values |}
    /\ (forall k, is_Some (fields !! k)
                  <-> k ∈ Property.key <$> [ {| Property.key := "ClientId";
                                                Property.value := "abc" |} ])
    /\ (forall k, fields !! k
                  = entryOf (Some Examples.facebookMetadata) k
                    <$> last (suppliedFor k [ {| Property.key := "ClientId";
                                                 Property.value := "abc" |} ]))
    /\ (forall k, values !! k
                  = Property.value
                    <$> last (suppliedFor k [ {| Property.key := "ClientId";
                                                 Property.value := "abc" |} ])).
Proof.
  apply (initialisationEffect_fields (Some Examples.facebookMetadata)
           (Some Examples.onlyClientId)
           [ {| Property.key := "ClientId"; Property.value := "abc" |} ] unresolved).
  - reflexivity.
  - discriminate.
Defined.

(** C2 as stated fails: the metadata declares a mandatory client secret, the
    initial values supply the client id only, and the resolved field map has
    no entry for the client secret. *)
Lemma initialisationEffect_drops_unsupplied_field :
  exists fields,
    formFields (initialisationEffect (Some Examples.facebookMetadata)
                  (Some Examples.onlyClientId) unresolved) = Some fields
    /\ (exists declared,
          findMeta (Some Examples.facebookMetadata) "ClientSecret" = Some declared
          /\ FieldMeta.isMandatory declared = true)
    /\ fields !! "ClientSecret" = None
    /\ value (initialisationEffect (Some Examples.facebookMetadata)
                (Some Examples.onlyClientId) unresolved) "ClientSecret" = None.
Proof.
  eexists. split; [reflexivity |]. split; [eexists; split; reflexivity |].
  split; vm_compute; reflexivity.
Qed.

(** C10.  With an absent or empty property list the initialisation effect
    leaves the state as it is; starting from the unresolved state, the field
    map and the initial values stay undefined and no attribute or value of any
    field is resolved, whatever the metadata declares. *)
Theorem initialisationEffect_empty
  (metadata : option CommonAuthenticatorFormMetaInterface)
  (originalInitialValues : option CommonAuthenticatorFormInitialValuesInterface) :
  isEmpty (originalProperties originalInitialValues) = true ->
  (forall st, initialisationEffect metadata originalInitialValues st = st)
  /\ formFields (initialisationEffect metadata originalInitialValues unresolved) = None
  /\ initialValues (initialisationEffect metadata originalInitialValues unresolved) = None
  /\ (forall name,
        required (initialisationEffect metadata originalInitialValues unresolved) name = None
        /\ readOnly (initialisationEffect metadata originalInitialValues unresolved) name = None
        /\ maxLength (initialisationEffect metadata originalInitialValues unresolved) name = None
        /\ value (initialisationEffect metadata originalInitialValues unresolved) name = None).
Proof.
  intros Hempty.
  assert (Hid : forall st, initialisationEffect metadata originalInitialValues st = st).
  { intros st. unfold initialisationEffect. now rewrite Hempty. }
  split; [exact Hid |]. rewrite Hid. repeat split.
Qed.

Lemma initialisationEffect_empty_witness :
  formFields (initialisationEffect (Some Examples.facebookMetadata)
                (Some Examples.noProperties) unresolved) = None
  /\ required (initialisationEffect (Some Examples.facebookMetadata)
                 (Some Examples.noProperties) unresolved) "ClientId" = None.
Proof.
  destruct (initialisationEffect_empty (Some Examples.facebookMetadata)
              (Some Examples.noProperties) eq_refl) as (_ & Hfields & _ & Hattributes).
  split; [exact Hfields | exact (proj1 (Hattributes "ClientId"))].
Defined.

(** The pushes of the submit loop build the entries in order. *)
Lemma pushed_properties (values : list (string * string)) (pushed : list Property.t) :
  foldl (fun pushed entry =>
           pushed ++ [ {| Property.key := fst entry; Property.value := snd entry |} ])
        pushed values
  = pushed ++ map (fun entry => {| Property.key := fst entry; Property.value := snd entry |})
                  values.
Proof.
  revert pushed. induction values as [| entry rest IH]; intros pushed; cbn.
  - now rewrite app_nil_r.
  - now rewrite IH, <- app_assoc.
Qed.

(** C9.  The object handed to the submit handler carries, as its property
    list, one key/value pair per entry of the submitted values, in order, and
    every other field of the original initial values unchanged. *)
Theorem getUpdatedConfigurations_frame
  (originalInitialValues : option CommonAuthenticatorFormInitialValuesInterface)
  (values : list (string * string)) :
  properties (getUpdatedConfigurations originalInitialValues values)
  = Some (map (fun entry => {| Property.key := fst entry; Property.value := snd entry |})
              values)
  /\ (forall original,
        originalInitialValues = Some original ->
        others (getUpdatedConfigurations originalInitialValues values) = others original
        /\ getUpdatedConfigurations originalInitialValues values
           = {| properties := properties (getUpdatedConfigurations originalInitialValues values);
                others := others original |})
  /\ (forall (R : Type) (onSubmit : CommonAuthenticatorFormInitialValuesInterface -> R),
        formOnSubmit originalInitialValues onSubmit values
        = onSubmit (getUpdatedConfigurations originalInitialValues values)).
Proof.
  split; [| split].
  - unfold getUpdatedConfigurations. cbn [properties]. now rewrite pushed_properties.
  - intros original ->. split; reflexivity.
  - reflexivity.
Qed.

Lemma getUpdatedConfigurations_frame_witness :
  others (getUpdatedConfigurations (Some Examples.onlyClientId)
            [("ClientId", "xyz"); ("ClientSecret", "s3cret")])
  = {[ "authenticatorId" := Str "RmFjZWJvb2s" ]}
  /\ properties (getUpdatedConfigurations (Some Examples.onlyClientId)
                   [("ClientId", "xyz"); ("ClientSecret", "s3cret")])
     = Some [ {| Property.key := "ClientId"; Property.value := "xyz" |};
              {| Property.key := "ClientSecret"; Property.value := "s3cret" |} ].
Proof.
  destruct (getUpdatedConfigurations_frame (Some Examples.onlyClientId)
              [("ClientId", "xyz"); ("ClientSecret", "s3cret")])
    as (Hproperties & Hframe & _).
  split.
  - exact (proj1 (Hframe Examples.onlyClientId eq_refl)).
  - exact Hproperties.
Defined.

End FacebookAuthenticatorFormFacts.

Module FieldAdapterFacts.

Import Js FieldAdapters.





End FieldAdapterFacts.

(* ===================================================================== *)
(** * Part III.  Further properties of the embedded code                  *)
(* ===================================================================== *)

Module SupportedProtocolsProperties.

Import Js JsFacts AccessConfiguration SupportedProtocolsFacts.

(** The props with another value of [extendedAccessConfig]. *)
Definition withExtendedAccessConfig (flag : bool) (props : AccessConfigurationPropsInterface)
  : AccessConfigurationPropsInterface := {|
  appId := appId props;
  extendedAccessConfig := flag;
  inboundProtocols := inboundProtocols props;
  isLoading := isLoading props;
  isInboundProtocolConfigRequestLoading := isInboundProtocolConfigRequestLoading props;
  template := template props;
  onAllowedOriginsUpdate := onAllowedOriginsUpdate props;
  onApplicationSecretRegenerate := onApplicationSecretRegenerate props
|}.

Lemma filter_sublist {A : Type} (f : A -> bool) (l : list A) : List.filter f l `sublist_of` l.
Proof.
  induction l as [| x rest IH]; cbn.
  - constructor.
  - destruct (f x); now constructor.
Qed.

Lemma filter_filter_and {A : Type} (f g : A -> bool) (l : list A) :
  List.filter f (List.filter g l) = List.filter (fun x => g x && f x) l.
Proof.
  induction l as [| x rest IH]; cbn; [reflexivity |].
  destruct (g x); cbn; [destruct (f x) |]; now rewrite IH.
Qed.

Section WithCatalogue.

Context {E : SupportedAuthProtocolTypes}.
Variable cfg : ExtensionConfig.

Lemma kept_truthy props tpl filterProtocol protocol :
  kept cfg props tpl filterProtocol protocol = true -> truthy protocol = true.
Proof.
  unfold kept. destruct (customApplicationBranch cfg tpl); intros H;
    now apply andb_true_iff in H as [_ H].
Qed.

End WithCatalogue.

(** X1.  The supported protocols are picked from the candidates without
    reordering or inventing any: the result is a sub-list of the candidate
    list, holds no empty name, and has no duplicate when the candidates have
    none. *)
Theorem getSupportedProtocols_sublist {E : SupportedAuthProtocolTypes}
  (cfg : ExtensionConfig) (props : AccessConfigurationPropsInterface)
  (tpl : ApplicationTemplateListItemInterface) (filterProtocol : option string) :
  template props = Some tpl ->
  exists supported,
    getSupportedProtocols cfg props filterProtocol = Normal supported
    /\ supported `sublist_of` candidateProtocols props
    /\ Forall (fun p => truthy p = true) supported
    /\ (NoDup (candidateProtocols props) -> NoDup supported).
Proof.
  intros Htpl. eexists. split; [exact (getSupportedProtocols_filter cfg props tpl _ Htpl) |].
  split; [apply filter_sublist |]. split.
  - apply Forall_forall. intros p Hp. apply list_elem_of_In, filter_In in Hp as [_ Hp].
    exact (kept_truthy cfg props tpl filterProtocol p Hp).
  - intros Hnodup. eapply sublist_NoDup; [exact Hnodup | apply filter_sublist].
Qed.

Lemma getSupportedProtocols_sublist_witness :
  exists supported,
    getSupportedProtocols (E := consoleProtocolTypes) Examples.plainCfg
      (Examples.propsFor Examples.spaTemplate false []) None = Normal supported
    /\ supported `sublist_of` ["saml"; "oidc"; "passive-sts"; "ws-trust"; "custom"]
    /\ Forall (fun p => truthy p = true) supported
    /\ NoDup supported.
Proof.
  destruct (getSupportedProtocols_sublist (E := consoleProtocolTypes) Examples.plainCfg
              (Examples.propsFor Examples.spaTemplate false []) Examples.spaTemplate None
              eq_refl) as (supported & Hrun & Hsub & Hall & Hnodup).
  exists supported. repeat (split; [assumption |]).
  apply Hnodup. apply (bool_decide_unpack _). vm_compute. exact I.
Defined.

(** X2.  A truthy [filterProtocol] removes exactly that protocol from the
    list computed without it; inside the custom-application branch the
    argument is ignored. *)
Theorem getSupportedProtocols_filterProtocol {E : SupportedAuthProtocolTypes}
  (cfg : ExtensionConfig) (props : AccessConfigurationPropsInterface)
  (tpl : ApplicationTemplateListItemInterface) (fp : string) :
  template props = Some tpl ->
  truthy fp = true ->
  exists unfiltered filtered,
    getSupportedProtocols cfg props None = Normal unfiltered
    /\ getSupportedProtocols cfg props (Some fp) = Normal filtered
    /\ (customApplicationBranch cfg tpl = false ->
        filtered = List.filter (fun p => negb (String.eqb p fp)) unfiltered
        /\ fp ∉ filtered)
    /\ (customApplicationBranch cfg tpl = true -> filtered = unfiltered).
Proof.
  intros Htpl Hfp. do 2 eexists.
  split; [exact (getSupportedProtocols_filter cfg props tpl _ Htpl) |].
  split; [exact (getSupportedProtocols_filter cfg props tpl _ Htpl) |].
  split; intros Hbranch.
  - assert (Heq : List.filter (kept cfg props tpl (Some fp)) (candidateProtocols props)
                  = List.filter (fun p => negb (String.eqb p fp))
                      (List.filter (kept cfg props tpl None) (candidateProtocols props))).
    { rewrite filter_filter_and. apply filter_ext. intros p. unfold kept.
      rewrite Hbranch, Hfp. cbn [andb].
      destruct (String.eqb p fp); rewrite ?orb_true_r, ?orb_false_r; cbn;
        [now rewrite andb_false_r | now rewrite andb_true_r]. }
    split; [exact Heq |]. rewrite Heq. intros Hin.
    apply list_elem_of_In, filter_In in Hin as [_ Hin].
    now rewrite String.eqb_refl in Hin.
  - apply filter_ext. intros p. unfold kept. now rewrite Hbranch.
Qed.

Lemma getSupportedProtocols_filterProtocol_witness :
  exists unfiltered filtered,
    getSupportedProtocols (E := consoleProtocolTypes) Examples.plainCfg
      (Examples.propsFor Examples.spaTemplate false []) None = Normal unfiltered
    /\ getSupportedProtocols (E := consoleProtocolTypes) Examples.plainCfg
         (Examples.propsFor Examples.spaTemplate false []) (Some "oidc") = Normal filtered
    /\ "oidc" ∉ filtered.
Proof.
  destruct (getSupportedProtocols_filterProtocol (E := consoleProtocolTypes) Examples.plainCfg
              (Examples.propsFor Examples.spaTemplate false []) Examples.spaTemplate "oidc"
              eq_refl eq_refl) as (unfiltered & filtered & Hu & Hf & Hplain & _).
  exists unfiltered, filtered. repeat (split; [assumption |]).
  exact (proj2 (Hplain eq_refl)).
Defined.

(** X3.  Switching [extendedAccessConfig] on removes WS-Federation from the
    list computed with the flag off and changes nothing else; inside the
    custom-application branch the flag has no effect. *)
Theorem getSupportedProtocols_extendedAccessConfig {E : SupportedAuthProtocolTypes}
  (cfg : ExtensionConfig) (props : AccessConfigurationPropsInterface)
  (tpl : ApplicationTemplateListItemInterface) (filterProtocol : option string) :
  template props = Some tpl ->
  exists plain extended,
    getSupportedProtocols cfg (withExtendedAccessConfig false props) filterProtocol
    = Normal plain
    /\ getSupportedProtocols cfg (withExtendedAccessConfig true props) filterProtocol
       = Normal extended
    /\ (customApplicationBranch cfg tpl = false ->
        extended = List.filter (fun p => negb (String.eqb p WS_FEDERATION)) plain)
    /\ (customApplicationBranch cfg tpl = true -> extended = plain).
Proof.
  intros Htpl. do 2 eexists.
  split; [exact (getSupportedProtocols_filter cfg (withExtendedAccessConfig false props)
                   tpl filterProtocol Htpl) |].
  split; [exact (getSupportedProtocols_filter cfg (withExtendedAccessConfig true props)
                   tpl filterProtocol Htpl) |].
  change (candidateProtocols (withExtendedAccessConfig true props))
    with (candidateProtocols (withExtendedAccessConfig false props)).
  split; intros Hbranch.
  - rewrite filter_filter_and. apply filter_ext. intros p. unfold kept.
    rewrite Hbranch. cbn [extendedAccessConfig withExtendedAccessConfig andb].
    destruct (String.eqb p WS_FEDERATION); rewrite ?orb_true_r, ?orb_false_r; cbn;
      [now rewrite andb_false_r | now rewrite andb_true_r].
  - apply filter_ext. intros p. unfold kept. now rewrite Hbranch.
Qed.

Lemma getSupportedProtocols_extendedAccessConfig_witness :
  exists plain extended,
    getSupportedProtocols (E := consoleProtocolTypes) Examples.plainCfg
      (withExtendedAccessConfig false (Examples.propsFor Examples.spaTemplate false []))
      None = Normal plain
    /\ getSupportedProtocols (E := consoleProtocolTypes) Examples.plainCfg
         (withExtendedAccessConfig true (Examples.propsFor Examples.spaTemplate false []))
         None = Normal extended
    /\ extended = List.filter (fun p => negb (String.eqb p "passive-sts")) plain.
Proof.
  destruct (getSupportedProtocols_extendedAccessConfig (E := consoleProtocolTypes)
              Examples.plainCfg (Examples.propsFor Examples.spaTemplate false [])
              Examples.spaTemplate None eq_refl)
    as (plain & extended & Hp & He & Hplain & _).
  exists plain, extended. repeat (split; [assumption |]).
  exact (Hplain eq_refl).
Defined.

End SupportedProtocolsProperties.

Module PreselectionProperties.

Import Js JsFacts AccessConfiguration SupportedProtocolsFacts SupportedProtocolsProperties.
Import SortFacts ProtocolOrderFacts.

Section WithCatalogue.

Context {E : SupportedAuthProtocolTypes}.
Variable cfg : ExtensionConfig.
Variable props : AccessConfigurationPropsInterface.

Lemma getSupportedProtocols_truthy filterProtocol supported p :
  getSupportedProtocols cfg props filterProtocol = Normal supported ->
  p ∈ supported -> truthy p = true.
Proof.
  intros Hrun Hin. destruct (template props) as [tpl |] eqn:Htpl.
  - rewrite (getSupportedProtocols_filter cfg props tpl filterProtocol Htpl) in Hrun.
    injection Hrun as <-. apply list_elem_of_In, filter_In in Hin as [_ Hin].
    exact (kept_truthy cfg props tpl filterProtocol p Hin).
  - unfold getSupportedProtocols in Hrun.
    destruct (candidateProtocols props) as [| q rest].
    + injection Hrun as <-. now apply elem_of_nil in Hin.
    + cbn [filterM] in Hrun. unfold keepProtocol in Hrun. rewrite Htpl in Hrun. discriminate.
Qed.

(** The first element of a sorted list is in order with every element. *)
Lemma head_sortBy_least (rank : string -> option nat) (l : list string) (h q : string) :
  head (sortBy l rank) = Some h -> q ∈ l -> keyLt (rank q) (rank h) = false.
Proof.
  intros Hhead Hq.
  assert (Hqs : q ∈ sortBy l rank) by now rewrite sortBy_Permutation.
  pose proof (sortBy_sorted rank l) as Hsorted.
  destruct (sortBy l rank) as [| x rest]; [discriminate |].
  injection Hhead as ->. apply elem_of_cons in Hqs as [-> | Hrest].
  - apply keyLt_irrefl.
  - apply StronglySorted_inv in Hsorted as [_ Hall].
    rewrite Forall_forall in Hall. exact (Hall q Hrest).
Qed.

Lemma head_sortBy_elem (rank : string -> option nat) (l : list string) (h : string) :
  head (sortBy l rank) = Some h -> h ∈ l.
Proof.
  intros Hhead. rewrite <- (sortBy_Permutation rank l).
  destruct (sortBy l rank); [discriminate |]. injection Hhead as ->. apply list_elem_of_here.
Qed.

Lemma head_sortBy_nonempty (rank : string -> option nat) (l : list string) :
  l <> [] -> exists h, head (sortBy l rank) = Some h.
Proof.
  intros Hne. pose proof (sortBy_Permutation rank l) as Hperm.
  destruct (sortBy l rank) as [| h rest]; [| eauto].
  apply Permutation_nil in Hperm. congruence.
Qed.

Lemma defaultOrder_zero (p : string) :
  OIDC <> SAML -> defaultOrder !! p = Some 0 -> p = OIDC.
Proof.
  intros Hne. unfold defaultOrder.
  destruct (decide (p = SAML)) as [-> | Hsaml]; [rewrite lookup_insert_eq; discriminate |].
  rewrite lookup_insert_ne by congruence.
  destruct (decide (p = OIDC)) as [-> | Hoidc]; [reflexivity |].
  rewrite lookup_insert_ne by congruence. now rewrite lookup_empty.
Qed.

Lemma defaultOrder_one (p : string) : defaultOrder !! p = Some 1 -> p = SAML.
Proof.
  unfold defaultOrder.
  destruct (decide (p = SAML)) as [-> | Hsaml]; [reflexivity |].
  rewrite lookup_insert_ne by congruence.
  destruct (decide (p = OIDC)) as [-> | Hoidc]; [rewrite lookup_insert_eq; discriminate |].
  rewrite lookup_insert_ne by congruence. now rewrite lookup_empty.
Qed.

End WithCatalogue.



(** X5.  Once at least one protocol is supported, rendering the grid leaves a
    non-empty protocol selected: the one already selected, or else a supported
    protocol that no other supported protocol outranks. *)
Theorem loadSupportedProtocols_selects {E : SupportedAuthProtocolTypes}
  (cfg : ExtensionConfig) (props : AccessConfigurationPropsInterface)
  (supported : list string) (st : PanelState) :
  getSupportedProtocols cfg props None = Normal supported ->
  supported <> [] ->
  exists st1 p,
    loadSupportedProtocols cfg props st = Normal st1
    /\ selectedProtocol st1 = Some p
    /\ truthy p = true
    /\ (selectedProtocol st = Some p
        \/ (truthyOpt (selectedProtocol st) = false
            /\ p ∈ supported
            /\ forall q, q ∈ supported ->
                 keyLt (protocolRank (inboundProtocols props) q)
                       (protocolRank (inboundProtocols props) p) = false)).
Proof.
  intros Hsupported Hne.
  unfold loadSupportedProtocols, sortedSupportedProtocols. rewrite Hsupported.
  destruct (truthyOpt (selectedProtocol st)) eqn:Hselected.
  - destruct (selectedProtocol st) as [p |] eqn:Hp; [| discriminate].
    eexists _, p. split; [reflexivity |].
    split; [destruct st as [? ? [?|] ? ? ? ? ? ?]; exact Hp |].
    split; [exact Hselected | now left].
  - destruct (head_sortBy_nonempty (protocolRank (inboundProtocols props)) supported Hne)
      as [h Hh].
    eexists _, h. split; [reflexivity |].
    split; [destruct st as [? ? [?|] ? ? ? ? ? ?]; exact Hh |].
    pose proof (head_sortBy_elem _ _ _ Hh) as Hin.
    split; [exact (getSupportedProtocols_truthy cfg props None supported h Hsupported Hin) |].
    right. split; [reflexivity |]. split; [exact Hin |].
    intros q Hq. exact (head_sortBy_least _ _ _ _ Hh Hq).
Qed.

Lemma loadSupportedProtocols_selects_witness :
  exists st1 p,
    loadSupportedProtocols (E := consoleProtocolTypes) Examples.plainCfg
      (Examples.propsFor Examples.spaTemplate false ["saml"]) initialState = Normal st1
    /\ selectedProtocol st1 = Some p
    /\ truthy p = true.
Proof.
  destruct (loadSupportedProtocols_selects (E := consoleProtocolTypes) Examples.plainCfg
              (Examples.propsFor Examples.spaTemplate false ["saml"])
              ["saml"; "oidc"; "passive-sts"] initialState eq_refl ltac:(discriminate))
    as (st1 & p & Hload & Hselected & Htruthy & _).
  now exists st1, p.
Defined.

(** X6.  For an application without configured protocols and without a
    selection, rendering the grid preselects OIDC when OIDC is supported, and
    SAML when SAML is supported and OIDC is not. *)
Theorem loadSupportedProtocols_preselects {E : SupportedAuthProtocolTypes}
  (cfg : ExtensionConfig) (props : AccessConfigurationPropsInterface)
  (supported : list string) (st : PanelState) :
  getSupportedProtocols cfg props None = Normal supported ->
  inboundProtocols props = [] ->
  OIDC <> SAML ->
  truthyOpt (selectedProtocol st) = false ->
  exists st1,
    loadSupportedProtocols cfg props st = Normal st1
    /\ (OIDC ∈ supported -> selectedProtocol st1 = Some OIDC)
    /\ (OIDC ∉ supported -> SAML ∈ supported -> selectedProtocol st1 = Some SAML).
Proof.
  intros Hsupported Hinbound Hne Hselected.
  unfold loadSupportedProtocols, sortedSupportedProtocols.
  rewrite Hsupported, Hselected, Hinbound.
  eexists. split; [reflexivity |].
  assert (Hrank : forall p, protocolRank [] p = defaultOrder !! p) by reflexivity.
  assert (Hstored : forall st0 : PanelState,
            selectedProtocol
              match supportedProtocolList (setSelectedProtocol (head (sortBy supported (protocolRank []))) st0) with
              | Some _ => setSelectedProtocol (head (sortBy supported (protocolRank []))) st0
              | None => setSupportedProtocolList (sortBy supported (protocolRank []))
                          (setSelectedProtocol (head (sortBy supported (protocolRank []))) st0)
              end = head (sortBy supported (protocolRank []))).
  { intros st0. now destruct st0 as [? ? [?|] ? ? ? ? ? ?]. }
  rewrite Hstored. split.
  - intros Ho.
    destruct (head_sortBy_nonempty (protocolRank []) supported) as [h Hh].
    { intros ->. now apply elem_of_nil in Ho. }
    rewrite Hh. f_equal. apply (defaultOrder_zero h Hne).
    pose proof (head_sortBy_least _ _ _ _ Hh Ho) as Hleast.
    rewrite !Hrank in Hleast.
    assert (Hzero : defaultOrder !! OIDC = Some 0).
    { unfold defaultOrder. rewrite lookup_insert_ne by congruence. apply lookup_insert_eq. }
    rewrite Hzero in Hleast.
    destruct (defaultOrder !! h) as [n |]; cbn in Hleast; [| discriminate].
    destruct n; [reflexivity | discriminate].
  - intros Hno Hs.
    destruct (head_sortBy_nonempty (protocolRank []) supported) as [h Hh].
    { intros ->. now apply elem_of_nil in Hs. }
    rewrite Hh. f_equal.
    pose proof (head_sortBy_least _ _ _ _ Hh Hs) as Hleast.
    pose proof (head_sortBy_elem _ _ _ Hh) as Hin.
    rewrite !Hrank in Hleast.
    assert (Hone : defaultOrder !! SAML = Some 1) by apply lookup_insert_eq.
    rewrite Hone in Hleast.
    destruct (defaultOrder !! h) as [n |] eqn:Hn; cbn in Hleast; [| discriminate].
    destruct n as [| [| n]]; [| now apply defaultOrder_one | discriminate].
    apply (defaultOrder_zero h Hne) in Hn. subst h. contradiction.
Qed.

Lemma loadSupportedProtocols_preselects_witness :
  exists st1,
    loadSupportedProtocols (E := consoleProtocolTypes) Examples.plainCfg
      (Examples.propsFor Examples.spaTemplate false []) initialState = Normal st1
    /\ selectedProtocol st1 = Some "oidc".
Proof.
  destruct (loadSupportedProtocols_preselects (E := consoleProtocolTypes) Examples.plainCfg
              (Examples.propsFor Examples.spaTemplate false [])
              ["saml"; "oidc"; "passive-sts"] initialState eq_refl eq_refl
              ltac:(discriminate) eq_refl)
    as (st1 & Hload & Hoidc & _).
  exists st1. split; [exact Hload |].
  apply Hoidc. apply (bool_decide_unpack _). vm_compute. exact I.
Defined.

End PreselectionProperties.

Module PanelProperties.

Import Js JsFacts AccessConfiguration SupportedProtocolsFacts SupportedProtocolsProperties.
Import HandlerFacts PanelFacts PreselectionProperties.

Section Reactions.

Context {E : SupportedAuthProtocolTypes} {FormData Payload : Type}.
Variable t : string -> list (string * option string) -> string.
Variable cfg : ExtensionConfig.
Variable props : AccessConfigurationPropsInterface.
Variable backend : ApiCall FormData -> Settled Payload.
Variable allowMultipleProtocol : bool.
Variable authProtocolMeta : gmap string Payload.
Variable protocolMetaTypeValues : list string.

Local Abbreviation Effects := (Effects FormData Payload).
Local Abbreviation Event := (Event FormData Payload).

(** Does the event open the wizard or one of the confirmation modals? *)
Definition opensOverlay (e : Event) : bool :=
  match e with
  | SetShowDeleteConfirmationModal true => true
  | SetShowProtocolSwitchModal true => true
  | SetShowWizard true => true
  | _ => false
  end.

(** Neither the wizard nor a confirmation modal is on screen. *)
Definition overlaysClosed (st : PanelState) : Prop :=
  showWizard st = false
  /\ showDeleteConfirmationModal st = false
  /\ showProtocolSwitchModal st = false.

Lemma andThen_all (P : Event -> Prop) (a b : Effects) :
  Forall P (now a) /\ Forall P (later a) ->
  Forall P (now b) /\ Forall P (later b) ->
  Forall P (now (andThen a b)) /\ Forall P (later (andThen a b)).
Proof.
  intros Ha [Hbn Hbl]. unfold andThen. destruct (raised a); [exact Ha |].
  destruct Ha as [Han Hal]. split; cbn [now later]; now apply Forall_app.
Qed.

Lemma block_all (P : Event -> Prop) (statements : list Effects) :
  Forall (fun e => Forall P (now e) /\ Forall P (later e)) statements ->
  Forall P (now (block statements)) /\ Forall P (later (block statements)).
Proof.
  induction 1 as [| e rest He Hrest IH]; cbn.
  - split; constructor.
  - now apply andThen_all.
Qed.

Lemma applyEvents_overlays (tr : list Event) : forall st,
  Forall (fun ev => opensOverlay ev = false) tr ->
  overlaysClosed st ->
  overlaysClosed (foldl applyEvent st tr).
Proof.
  induction tr as [| e rest IH]; intros st Hall Hclosed; [exact Hclosed |].
  apply Forall_cons in Hall as [He Hrest]. cbn [foldl]. apply IH; [exact Hrest |].
  destruct Hclosed as (Hw & Hd & Hs).
  destruct e; cbn; try (repeat split; assumption);
    destruct v; try discriminate He; repeat split; assumption.
Qed.

Lemma gridCallback_overlays st s effects :
  gridCallback t props backend allowMultipleProtocol st s = Some effects ->
  Forall (fun ev => opensOverlay ev = false) (trace effects).
Proof.
  destruct s; cbn [gridCallback]; try discriminate.
  - destruct (supportedProtocolList st); [| discriminate].
    destruct (_ && _); [| discriminate]. intros [= <-]. repeat constructor.
  - destruct (truthyOpt (selectedProtocol st)); [| discriminate]. intros [= <-].
    rewrite handleSubmit_trace.
    destruct (backend (updateApplicationDetails (appId props) general));
      [| repeat constructor].
    rewrite handleInboundConfigFormSubmit_later. unfold afterConfigUpdate.
    destruct (backend (updateAuthProtocolConfig (appId props) inbound (selectedProtocol st)));
      [| repeat constructor].
    destruct (onAllowedOriginsUpdate props); repeat constructor.
  - destruct (_ && _); [| discriminate]. intros [= <-].
    rewrite handleApplicationRegenerate_trace.
    destruct (backend (regenerateClientSecret (appId props))); [| repeat constructor].
    destruct (onApplicationSecretRegenerate props); repeat constructor.
  - destruct (_ && _); [| discriminate]. intros [= <-].
    rewrite handleApplicationRevoke_trace.
    destruct (backend (revokeClientSecret (appId props))); repeat constructor.
  - destruct (showWizard st); [| discriminate]. intros [= <-]. repeat constructor.
  - destruct (showDeleteConfirmationModal st); [| discriminate]. intros [= <-].
    repeat constructor.
  - destruct (showDeleteConfirmationModal st); [| discriminate]. intros [= <-].
    repeat constructor.
  - destruct (showDeleteConfirmationModal st); [| discriminate]. intros [= <-].
    pose proof (confirmDelete_trace t props backend (protocolToDelete st)) as Htrace.
    cbn [block foldr] in Htrace. rewrite Htrace, handleInboundConfigDelete_trace.
    destruct (backend (deleteProtocol (appId props) (protocolToDelete st)));
      repeat constructor.
  - destruct (showProtocolSwitchModal st); [| discriminate]. intros [= <-].
    repeat constructor.
  - destruct (showProtocolSwitchModal st); [| discriminate]. intros [= <-].
    repeat constructor.
  - destruct (showProtocolSwitchModal st); [| discriminate]. intros [= <-].
    pose proof (confirmSwitch_trace t props backend (selectedProtocol st)) as Htrace.
    cbn [block foldr] in Htrace. rewrite Htrace, handleInboundConfigSwitch_trace.
    destruct (backend (deleteProtocol (appId props) (selectedProtocol st)));
      repeat constructor.
Qed.

Lemma effects_overlays :
  Forall (fun ev => opensOverlay ev = false)
    (trace (block [ mirrorInboundProtocolsEffect props;
                    fetchMetadataEffect t backend authProtocolMeta protocolMetaTypeValues ])).
Proof.
  unfold trace. apply Forall_app, block_all.
  constructor; [| constructor; [| constructor]].
  - unfold mirrorInboundProtocolsEffect.
    destruct (Nat.ltb 0 (List.length (inboundProtocols props))); split; repeat constructor.
  - unfold fetchMetadataEffect. apply block_all, Forall_map, Forall_forall.
    intros selected _.
    destruct (String.eqb selected WS_FEDERATION || String.eqb selected WS_TRUST);
      [split; constructor |].
    destruct (authProtocolMeta !! selected); [split; constructor |].
    apply Forall_app. fold (trace (fetchAuthProtocolMetadata t backend selected)).
    rewrite fetchAuthProtocolMetadata_trace.
    destruct (backend (getAuthProtocolMetadata selected)); repeat constructor.
Qed.

Lemma loadSupportedProtocols_overlays st st1 :
  loadSupportedProtocols cfg props st = Normal st1 ->
  overlaysClosed st -> overlaysClosed st1.
Proof.
  unfold loadSupportedProtocols, overlaysClosed.
  destruct (sortedSupportedProtocols cfg props) as [sorted | e]; [| discriminate].
  intros [= <-].
  destruct st as [selected mirrored [listed |] wizard deleteModal switchModal toDelete landing
                  loading];
    cbn; destruct (truthyOpt selected); cbn; auto.
Qed.

Lemma react_overlays st s st' tr :
  react t cfg props backend allowMultipleProtocol authProtocolMeta protocolMetaTypeValues st s
  = Some (st', tr) ->
  overlaysClosed st -> overlaysClosed st'.
Proof.
  intros Hreact Hclosed.
  assert (Hgrid : forall s0,
    match loadSupportedProtocols cfg props st with
    | Throw _ => None
    | Normal st1 =>
        match gridCallback t props backend allowMultipleProtocol st1 s0 with
        | Some effects => Some (foldl applyEvent st1 (trace effects), trace effects)
        | None => None
        end
    end = Some (st', tr) ->
    overlaysClosed st').
  { intros s0.
    destruct (loadSupportedProtocols cfg props st) as [st1 | e] eqn:Hload; [| discriminate].
    destruct (gridCallback t props backend allowMultipleProtocol st1 s0) as [effects |] eqn:Hcb;
      [| discriminate].
    intros [= <- <-]. apply applyEvents_overlays.
    - now apply (gridCallback_overlays st1 s0).
    - now apply (loadSupportedProtocols_overlays st). }
  revert Hreact. unfold react.
  destruct s;
    try (destruct (render cfg props allowMultipleProtocol st) as [[| available |] | e];
         [ discriminate | try discriminate | apply Hgrid | discriminate ]).
  - intros [= <- <-]. apply applyEvents_overlays; [apply effects_overlays | exact Hclosed].
  - destruct (includes protocol available); [| discriminate].
    intros [= <- <-]. exact Hclosed.
Qed.

Lemma run_overlays stimuli : forall st st' tr,
  run t cfg props backend allowMultipleProtocol authProtocolMeta protocolMetaTypeValues
      st stimuli = Some (st', tr) ->
  overlaysClosed st ->
  overlaysClosed st' /\ List.filter isDeleteRequest tr = [].
Proof.
  induction stimuli as [| s rest IH]; intros st st' tr; cbn [run].
  - intros [= <- <-] Hclosed. now split.
  - destruct (react t cfg props backend allowMultipleProtocol authProtocolMeta
                protocolMetaTypeValues st s) as [[st1 tr1] |] eqn:Hreact; [| discriminate].
    destruct (run t cfg props backend allowMultipleProtocol authProtocolMeta
                protocolMetaTypeValues st1 rest) as [[st2 tr2] |] eqn:Hrun; [| discriminate].
    intros [= <- <-] Hclosed.
    pose proof (react_overlays st s st1 tr1 Hreact Hclosed) as Hclosed1.
    destruct (IH st1 st2 tr2 Hrun Hclosed1) as [Hclosed2 Hquiet2].
    split; [exact Hclosed2 |].
    rewrite List.filter_app, Hquiet2, app_nil_r.
    destruct Hclosed as (_ & Hdelete & Hswitch).
    destruct (react_deleteRequests t cfg props backend allowMultipleProtocol authProtocolMeta
                protocolMetaTypeValues st s st1 tr1 Hreact)
      as [[_ Hquiet] | [(_ & Hshown & _) | (_ & Hshown & _)]];
      [exact Hquiet | congruence | congruence].
Qed.

End Reactions.

(** X7.  A panel whose wizard and confirmation modals are closed, as in its
    initial state, keeps them closed whatever happens to it, and never sends a
    [deleteProtocol] request: nothing in the component opens the modals whose
    confirmation would start the deletion. *)
Theorem panel_never_deletes {E : SupportedAuthProtocolTypes} {FormData Payload : Type}
  (t : string -> list (string * option string) -> string)
  (cfg : ExtensionConfig) (props : AccessConfigurationPropsInterface)
  (backend : ApiCall FormData -> Settled Payload)
  (allowMultipleProtocol : bool) (authProtocolMeta : gmap string Payload)
  (protocolMetaTypeValues : list string)
  (stimuli : list (Stimulus FormData)) (st st' : PanelState)
  (tr : list (Event FormData Payload)) :
  run t cfg props backend allowMultipleProtocol authProtocolMeta protocolMetaTypeValues
      st stimuli = Some (st', tr) ->
  showWizard st = false ->
  showDeleteConfirmationModal st = false ->
  showProtocolSwitchModal st = false ->
  List.filter isDeleteRequest tr = []
  /\ showWizard st' = false
  /\ showDeleteConfirmationModal st' = false
  /\ showProtocolSwitchModal st' = false.
Proof.
  intros Hrun Hw Hd Hs.
  destruct (run_overlays t cfg props backend allowMultipleProtocol authProtocolMeta
              protocolMetaTypeValues stimuli st st' tr Hrun (conj Hw (conj Hd Hs)))
    as [Hclosed Hquiet].
  split; [exact Hquiet | exact Hclosed].
Qed.

Lemma panel_never_deletes_witness :
  exists st' tr,
    run (E := consoleProtocolTypes) Examples.keyOnly Examples.plainCfg
      (Examples.propsFor Examples.spaTemplate false ["oidc"])
      Examples.succeeding false ∅ ["oidc"; "saml"] initialState
      [EffectsRun; SubmitForm tt tt; RevokeSecret] = Some (st', tr)
    /\ List.filter isDeleteRequest tr = []
    /\ showDeleteConfirmationModal st' = false.
Proof.
  destruct (run (E := consoleProtocolTypes) Examples.keyOnly Examples.plainCfg
              (Examples.propsFor Examples.spaTemplate false ["oidc"])
              Examples.succeeding false ∅ ["oidc"; "saml"] initialState
              [EffectsRun; SubmitForm tt tt; RevokeSecret]) as [[st' tr] |] eqn:Hrun.
  - exists st', tr. split; [reflexivity |].
    destruct (panel_never_deletes (E := consoleProtocolTypes) Examples.keyOnly
                Examples.plainCfg (Examples.propsFor Examples.spaTemplate false ["oidc"])
                Examples.succeeding false ∅ ["oidc"; "saml"]
                [EffectsRun; SubmitForm tt tt; RevokeSecret] initialState st' tr
                Hrun eq_refl eq_refl eq_refl)
      as (Hquiet & _ & Hdelete & _).
    split; [exact Hquiet | exact Hdelete].
  - vm_compute in Hrun. discriminate Hrun.
Defined.

End PanelProperties.

Module RenderingProperties.

Import Js JsFacts AccessConfiguration SupportedProtocolsFacts SupportedProtocolsProperties.
Import HandlerFacts PanelFacts PreselectionProperties.

Section WithCatalogue.

Context {E : SupportedAuthProtocolTypes}.
Variable cfg : ExtensionConfig.
Variable props : AccessConfigurationPropsInterface.

(** Does the plain branch of the filter callback reject the protocol? *)
Definition legacy (protocol : string) : bool :=
  String.eqb protocol WS_TRUST
  || String.eqb protocol CUSTOM
  || (extendedAccessConfig props && String.eqb protocol WS_FEDERATION).

(** What is supported when the template fixes the protocol. *)
Lemma fixed_protocol_supported tpl p :
  template props = Some tpl ->
  authenticationProtocol tpl = Some p ->
  truthy p = true ->
  customApplicationBranch cfg tpl = false ->
  getSupportedProtocols cfg props None = Normal (if legacy p then [] else [p]).
Proof.
  intros Htpl Hfixed Htruthy Hbranch.
  rewrite (getSupportedProtocols_filter cfg props tpl None Htpl).
  unfold candidateProtocols. rewrite Htpl, Hfixed, Htruthy. cbn [List.filter].
  unfold kept, legacy. rewrite Hbranch, Htruthy, orb_false_r, andb_true_r.
  now destruct (_ || _).
Qed.

End WithCatalogue.

(** X8.  When the template fixes a protocol that the filter lets through, the
    landing page is never shown: an idle panel renders the grid, and a panel
    without selection selects the fixed protocol while rendering it. *)
Theorem fixed_protocol_skips_landing {E : SupportedAuthProtocolTypes}
  (cfg : ExtensionConfig) (props : AccessConfigurationPropsInterface)
  (allowMultipleProtocol : bool)
  (tpl : ApplicationTemplateListItemInterface) (p : string) (st : PanelState) :
  template props = Some tpl ->
  authenticationProtocol tpl = Some p ->
  truthy p = true ->
  customApplicationBranch cfg tpl = false ->
  p <> WS_TRUST -> p <> CUSTOM ->
  (extendedAccessConfig props = true -> p <> WS_FEDERATION) ->
  isLoading props = false ->
  isInboundProtocolConfigRequestLoading props = false ->
  requestLoading st = false ->
  render cfg props allowMultipleProtocol st = Normal Grid
  /\ exists st1,
       loadSupportedProtocols cfg props st = Normal st1
       /\ supportedProtocolList st1
          = Some (default [p] (supportedProtocolList st))
       /\ (truthyOpt (selectedProtocol st) = false -> selectedProtocol st1 = Some p).
Proof.
  intros Htpl Hfixed Htruthy Hbranch Htrust Hcustom Hfed Hload Hconfig Hrequest.
  assert (Hsupported : getSupportedProtocols cfg props None = Normal [p]).
  { rewrite (fixed_protocol_supported cfg props tpl p Htpl Hfixed Htruthy Hbranch).
    unfold legacy.
    destruct (String.eqb_spec p WS_TRUST); [contradiction |].
    destruct (String.eqb_spec p CUSTOM); [contradiction |].
    destruct (extendedAccessConfig props); [| reflexivity].
    destruct (String.eqb_spec p WS_FEDERATION); [| reflexivity].
    now destruct (Hfed eq_refl). }
  split.
  - unfold render. rewrite Hload, Hconfig, Hrequest, Hsupported. cbn.
    now destruct (_ && _).
  - unfold loadSupportedProtocols, sortedSupportedProtocols. rewrite Hsupported.
    cbn [sortBy foldr insertByKey head].
    destruct st as [selected mirrored [listed |] wizard deleteModal switchModal toDelete
                    landing loading];
      cbn; destruct (truthyOpt selected); cbn; eexists; repeat split; congruence.
Qed.

Lemma fixed_protocol_skips_landing_witness :
  render (E := consoleProtocolTypes) Examples.plainCfg
    (Examples.propsFor {| id := "oidc-web-application"; authenticationProtocol := Some "oidc" |}
       false []) false initialState = Normal Grid.
Proof.
  apply (fixed_protocol_skips_landing (E := consoleProtocolTypes) Examples.plainCfg
           (Examples.propsFor
              {| id := "oidc-web-application"; authenticationProtocol := Some "oidc" |}
              false []) false
           {| id := "oidc-web-application"; authenticationProtocol := Some "oidc" |}
           "oidc" initialState);
    try reflexivity; discriminate.
Defined.

(** X9.  When the template fixes a protocol that the filter rejects (WS-Trust,
    custom, or WS-Federation under the extended access configuration), no
    protocol is supported.  An idle single-protocol panel without selection
    and without configured protocols then shows the landing page and hands it
    an empty list of protocols to choose from. *)
Theorem fixed_legacy_protocol_dead_end {E : SupportedAuthProtocolTypes}
  (cfg : ExtensionConfig) (props : AccessConfigurationPropsInterface)
  (tpl : ApplicationTemplateListItemInterface) (p : string) (st : PanelState) :
  template props = Some tpl ->
  authenticationProtocol tpl = Some p ->
  truthy p = true ->
  customApplicationBranch cfg tpl = false ->
  legacy props p = true ->
  isLoading props = false ->
  isInboundProtocolConfigRequestLoading props = false ->
  requestLoading st = false ->
  truthyOpt (selectedProtocol st) = false ->
  inboundProtocols props = [] ->
  getSupportedProtocols cfg props None = Normal []
  /\ render cfg props false st = Normal (ProtocolLanding []).
Proof.
  intros Htpl Hfixed Htruthy Hbranch Hlegacy Hload Hconfig Hrequest Hselected Hinbound.
  assert (Hsupported : getSupportedProtocols cfg props None = Normal []).
  { rewrite (fixed_protocol_supported cfg props tpl p Htpl Hfixed Htruthy Hbranch).
    now rewrite Hlegacy. }
  split; [exact Hsupported |].
  unfold render. now rewrite Hload, Hconfig, Hrequest, Hselected, Hinbound, Hsupported.
Qed.

Lemma fixed_legacy_protocol_dead_end_witness :
  render (E := consoleProtocolTypes) Examples.plainCfg
    (Examples.propsFor {| id := "windows-service"; authenticationProtocol := Some "ws-trust" |}
       false []) false initialState = Normal (ProtocolLanding []).
Proof.
  apply (fixed_legacy_protocol_dead_end (E := consoleProtocolTypes) Examples.plainCfg
           (Examples.propsFor
              {| id := "windows-service"; authenticationProtocol := Some "ws-trust" |}
              false [])
           {| id := "windows-service"; authenticationProtocol := Some "ws-trust" |}
           "ws-trust" initialState); reflexivity.
Defined.

(** X10.  Choosing one of the protocols offered on the landing page sends
    nothing to the backend: [selectInitialProtocol] only selects the protocol
    and appends it to the mirrored list of configured protocols.  The next
    render is the grid, and rendering it keeps that protocol selected. *)
Theorem landing_selection {E : SupportedAuthProtocolTypes} {FormData Payload : Type}
  (cfg : ExtensionConfig) (props : AccessConfigurationPropsInterface)
  (allowMultipleProtocol : bool) (available : list string) (p : string) (st : PanelState) :
  render cfg props allowMultipleProtocol st = Normal (ProtocolLanding available) ->
  p ∈ available ->
  trace (selectInitialProtocol (FormData := FormData) (Payload := Payload) p)
  = [SetSelectedProtocol (Some p); PushInboundProtocol p]
  /\ selectedProtocol
       (foldl applyEvent st
          (trace (selectInitialProtocol (FormData := FormData) (Payload := Payload) p)))
     = Some p
  /\ inboundProtocolList
       (foldl applyEvent st
          (trace (selectInitialProtocol (FormData := FormData) (Payload := Payload) p)))
     = inboundProtocolList st ++ [p]
  /\ render cfg props allowMultipleProtocol
       (foldl applyEvent st
          (trace (selectInitialProtocol (FormData := FormData) (Payload := Payload) p)))
     = Normal Grid
  /\ exists st1,
       loadSupportedProtocols cfg props
         (foldl applyEvent st
            (trace (selectInitialProtocol (FormData := FormData) (Payload := Payload) p)))
       = Normal st1
       /\ selectedProtocol st1 = Some p.
Proof.
  intros Hrender Hoffered.
  unfold render in Hrender.
  destruct (negb (isLoading props) && negb (requestLoading st)
            && negb (isInboundProtocolConfigRequestLoading props)) eqn:Hidle;
    [| discriminate].
  destruct (negb (truthyOpt (selectedProtocol st))
            && Nat.eqb (List.length (inboundProtocols props)) 0
            && negb allowMultipleProtocol); [| discriminate].
  destruct (getSupportedProtocols cfg props None) as [supported | e] eqn:Hsupported;
    [| discriminate].
  destruct (negb (Nat.eqb (List.length supported) 1)); [| discriminate].
  injection Hrender as <-.
  pose proof (getSupportedProtocols_truthy cfg props None supported p Hsupported Hoffered)
    as Htruthy.
  change (foldl applyEvent st
            (trace (selectInitialProtocol (FormData := FormData) (Payload := Payload) p)))
    with (pushInboundProtocol p (setSelectedProtocol (Some p) st)).
  split; [reflexivity |]. split; [reflexivity |]. split; [reflexivity |].
  split.
  - unfold render.
    change (requestLoading (pushInboundProtocol p (setSelectedProtocol (Some p) st)))
      with (requestLoading st).
    rewrite Hidle.
    change (selectedProtocol (pushInboundProtocol p (setSelectedProtocol (Some p) st)))
      with (Some p).
    cbn [truthyOpt]. now rewrite Htruthy.
  - unfold loadSupportedProtocols, sortedSupportedProtocols. rewrite Hsupported.
    change (selectedProtocol (pushInboundProtocol p (setSelectedProtocol (Some p) st)))
      with (Some p).
    cbn [truthyOpt]. rewrite Htruthy.
    eexists. split; [reflexivity |].
    destruct st as [selected mirrored [listed |] wizard deleteModal switchModal toDelete
                    landing loading]; reflexivity.
Qed.

Lemma landing_selection_witness :
  render (E := consoleProtocolTypes) Examples.plainCfg
    (Examples.propsFor Examples.spaTemplate false []) false
    (foldl applyEvent initialState
       (trace (selectInitialProtocol (FormData := unit) (Payload := unit) "saml")))
  = Normal Grid.
Proof.
  apply (landing_selection (E := consoleProtocolTypes) (FormData := unit) (Payload := unit)
           Examples.plainCfg (Examples.propsFor Examples.spaTemplate false []) false
           ["saml"; "oidc"; "passive-sts"] "saml" initialState).
  - vm_compute. reflexivity.
  - apply (bool_decide_unpack _). vm_compute. exact I.
Defined.

End RenderingProperties.

Module HandlerProperties.

Import Js JsFacts AccessConfiguration HandlerFacts.

Section Observations.

Context {E : SupportedAuthProtocolTypes} {FormData Payload : Type}.
Variable t : string -> list (string * option string) -> string.
Variable props : AccessConfigurationPropsInterface.
Variable backend : ApiCall FormData -> Settled Payload.

Local Abbreviation Effects := (Effects FormData Payload).
Local Abbreviation Event := (Event FormData Payload).

Definition isSuccessAlert (e : Event) : bool :=
  match e with
  | DispatchAddAlert a => match level a with SUCCESS => true | ERROR => false end
  | _ => false
  end.

Definition isErrorAlert (e : Event) : bool :=
  match e with
  | DispatchAddAlert a => match level a with ERROR => true | SUCCESS => false end
  | _ => false
  end.

Lemma errorAlert_level errorMessage genericDescription genericMessage error :
  level (errorAlert t errorMessage genericDescription genericMessage error) = ERROR.
Proof. unfold errorAlert. now destruct (truthyOpt (structuredDescription error)). Qed.

Lemma errorAlert_event errorMessage genericDescription genericMessage error :
  isSuccessAlert
    (DispatchAddAlert (errorAlert t errorMessage genericDescription genericMessage error))
  = false
  /\ isErrorAlert
       (DispatchAddAlert (errorAlert t errorMessage genericDescription genericMessage error))
     = true.
Proof. cbn. now rewrite errorAlert_level. Qed.

(** The request events of a trace and the metadata it stores. *)
Definition requestOf (e : Event) : option (ApiCall FormData) :=
  match e with Request call => Some call | _ => None end.

Definition storedOf (e : Event) : option (string * Payload) :=
  match e with DispatchSetAuthProtocolMeta protocol payload => Some (protocol, payload)
          | _ => None end.

Variable authProtocolMeta : gmap string Payload.

(** The guard of the metadata effect. *)
Definition needsMetadata (selected : string) : bool :=
  negb (String.eqb selected WS_FEDERATION || String.eqb selected WS_TRUST)
  && match authProtocolMeta !! selected with
     | Some _ => false
     | None => true
     end.

(** What follows the request for the metadata of one protocol. *)
Definition afterMetadataRequest (selected : string) : list Event :=
  [ Settle (getAuthProtocolMetadata selected) (backend (getAuthProtocolMetadata selected));
    match backend (getAuthProtocolMetadata selected) with
    | Fulfilled payload => DispatchSetAuthProtocolMeta selected payload
    | Rejected e =>
        DispatchAddAlert
          (errorAlert t "fetchProtocolMeta.error.message"
                      "fetchProtocolMeta.genericError.description"
                      "fetchProtocolMeta.genericError.message" (BackendFailure e))
    end ].

Lemma fetchAuthProtocolMetadata_later selected :
  later (fetchAuthProtocolMetadata t backend selected) = afterMetadataRequest selected.
Proof.
  change (later (fetchAuthProtocolMetadata t backend selected))
    with (List.tail (trace (fetchAuthProtocolMetadata t backend selected))).
  rewrite fetchAuthProtocolMetadata_trace. unfold afterMetadataRequest. cbn [List.tail].
  now destruct (backend (getAuthProtocolMetadata selected)).
Qed.

Lemma andThen_parts (a b : Effects) :
  raised a = None ->
  now (andThen a b) = now a ++ now b
  /\ later (andThen a b) = later a ++ later b
  /\ raised (andThen a b) = raised b.
Proof. intros Hraised. unfold andThen. now rewrite Hraised. Qed.

Lemma fetchMetadataEffect_shape (protocolMetaTypeValues : list string) :
  now (fetchMetadataEffect t backend authProtocolMeta protocolMetaTypeValues)
  = map (fun p => Request (getAuthProtocolMetadata p))
        (List.filter needsMetadata protocolMetaTypeValues)
  /\ later (fetchMetadataEffect t backend authProtocolMeta protocolMetaTypeValues)
     = flat_map afterMetadataRequest (List.filter needsMetadata protocolMetaTypeValues)
  /\ raised (fetchMetadataEffect t backend authProtocolMeta protocolMetaTypeValues) = None.
Proof.
  unfold fetchMetadataEffect.
  set (f := fun selected : string =>
              if String.eqb selected WS_FEDERATION || String.eqb selected WS_TRUST
              then skip
              else match authProtocolMeta !! selected with
                   | Some _ => skip
                   | None => fetchAuthProtocolMetadata t backend selected
                   end).
  induction protocolMetaTypeValues as [| selected rest (IHnow & IHlater & IHraised)];
    [now cbn |].
  cbn [map List.filter].
  change (block (f selected :: map f rest)) with (andThen (f selected) (block (map f rest))).
  assert (Hf : raised (f selected) = None
               /\ now (f selected)
                  = (if needsMetadata selected
                     then [Request (getAuthProtocolMetadata selected)] else [])
               /\ later (f selected)
                  = (if needsMetadata selected then afterMetadataRequest selected else [])).
  { unfold f, needsMetadata.
    destruct (String.eqb selected WS_FEDERATION || String.eqb selected WS_TRUST);
      [now cbn |].
    destruct (authProtocolMeta !! selected); [now cbn |].
    cbn [negb andb]. split; [reflexivity |]. split; [reflexivity |].
    apply fetchAuthProtocolMetadata_later. }
  destruct Hf as (Hraised & Hnow & Hlater).
  destruct (andThen_parts (f selected) (block (map f rest)) Hraised) as (-> & -> & ->).
  rewrite Hnow, Hlater, IHnow, IHlater.
  destruct (needsMetadata selected); cbn [map flat_map app]; auto.
Qed.

Lemma omap_requests (l : list string) :
  omap requestOf (map (fun p => Request (getAuthProtocolMetadata p)) l : list Event)
  = map getAuthProtocolMetadata l
  /\ omap storedOf (map (fun p => Request (getAuthProtocolMetadata p)) l : list Event) = [].
Proof. induction l as [| p rest [IHr IHs]]; cbn; [now split |]. now rewrite IHr, IHs. Qed.

Lemma omap_afterMetadataRequest (l : list string) :
  omap requestOf (flat_map afterMetadataRequest l) = []
  /\ omap storedOf (flat_map afterMetadataRequest l)
     = omap (fun p => match backend (getAuthProtocolMetadata p) with
                      | Fulfilled payload => Some (p, payload)
                      | Rejected _ => None
                      end) l.
Proof.
  induction l as [| p rest [IHr IHs]]; [now split |].
  cbn [flat_map]. rewrite !omap_app, IHr, IHs. unfold afterMetadataRequest. cbn.
  now destruct (backend (getAuthProtocolMetadata p)).
Qed.

End Observations.

(** X11.  The loading flag raised by [handleSubmit] and by the protocol switch
    is always lowered again: after the whole trace of either handler the flag
    is off, whatever the backend answered.  The switch also leaves no protocol
    selected, on failure as on success. *)
Theorem loading_flag_released {FormData Payload : Type}
  (t : string -> list (string * option string) -> string)
  (props : AccessConfigurationPropsInterface)
  (backend : ApiCall FormData -> Settled Payload) (st : PanelState) :
  (forall selected general inbound,
     head (trace (handleSubmit t props backend selected general inbound))
     = Some (SetRequestLoading true)
     /\ requestLoading
          (foldl applyEvent st (trace (handleSubmit t props backend selected general inbound)))
        = false)
  /\ (forall protocol,
        head (trace (handleInboundConfigSwitch t props backend protocol))
        = Some (SetRequestLoading true)
        /\ requestLoading
             (foldl applyEvent st (trace (handleInboundConfigSwitch t props backend protocol)))
           = false
        /\ selectedProtocol
             (foldl applyEvent st (trace (handleInboundConfigSwitch t props backend protocol)))
           = None).
Proof.
  split.
  - intros selected general inbound. rewrite handleSubmit_trace. split; [reflexivity |].
    destruct (backend (updateApplicationDetails (appId props) general)); [| reflexivity].
    rewrite handleInboundConfigFormSubmit_later. unfold afterConfigUpdate.
    destruct (backend (updateAuthProtocolConfig (appId props) inbound selected));
      [| reflexivity].
    now destruct (onAllowedOriginsUpdate props).
  - intros protocol. rewrite handleInboundConfigSwitch_trace. split; [reflexivity |].
    now destruct (backend (deleteProtocol (appId props) protocol)).
Qed.

(** X12.  In [handleSubmit] the loading flag does not cover the second
    request: when the details update succeeds, the request that updates the
    protocol configuration is sent, the flag is lowered, and only then does
    that request settle. *)
Theorem handleSubmit_lowers_flag_before_settlement {FormData Payload : Type}
  (t : string -> list (string * option string) -> string)
  (props : AccessConfigurationPropsInterface)
  (backend : ApiCall FormData -> Settled Payload)
  (selected : option string) (general inbound : FormData) (payload : Payload)
  (st : PanelState) :
  backend (updateApplicationDetails (appId props) general) = Fulfilled payload ->
  trace (handleSubmit t props backend selected general inbound) !! 3
  = Some (Request (updateAuthProtocolConfig (appId props) inbound selected))
  /\ trace (handleSubmit t props backend selected general inbound) !! 4
     = Some (SetRequestLoading false)
  /\ trace (handleSubmit t props backend selected general inbound) !! 5
     = Some (Settle (updateAuthProtocolConfig (appId props) inbound selected)
                    (backend (updateAuthProtocolConfig (appId props) inbound selected)))
  /\ requestLoading
       (foldl applyEvent st
          (take 5 (trace (handleSubmit t props backend selected general inbound))))
     = false.
Proof.
  intros Hdetails. rewrite handleSubmit_trace, Hdetails, handleInboundConfigFormSubmit_later.
  repeat split.
Qed.

Lemma handleSubmit_lowers_flag_before_settlement_witness :
  trace (handleSubmit Examples.keyOnly (Examples.propsFor Examples.spaTemplate false ["oidc"])
           Examples.onlyDetailsSucceed (Some "oidc") tt tt) !! 4
  = Some (SetRequestLoading false).
Proof.
  apply (handleSubmit_lowers_flag_before_settlement Examples.keyOnly
           (Examples.propsFor Examples.spaTemplate false ["oidc"])
           Examples.onlyDetailsSucceed (Some "oidc") tt tt tt initialState eq_refl).
Defined.


(** X14.  The metadata effect asks the backend for the metadata of exactly the
    listed protocol types that are neither WS-Federation nor WS-Trust and are
    not yet in the store, once per occurrence and in order; it stores what the
    backend returned for those of them whose request succeeded. *)
Theorem fetchMetadataEffect_requests {E : SupportedAuthProtocolTypes}
  {FormData Payload : Type}
  (t : string -> list (string * option string) -> string)
  (backend : ApiCall FormData -> Settled Payload)
  (authProtocolMeta : gmap string Payload) (protocolMetaTypeValues : list string) :
  omap requestOf
    (trace (fetchMetadataEffect t backend authProtocolMeta protocolMetaTypeValues))
  = map getAuthProtocolMetadata
        (List.filter (needsMetadata authProtocolMeta) protocolMetaTypeValues)
  /\ omap storedOf
       (trace (fetchMetadataEffect t backend authProtocolMeta protocolMetaTypeValues))
     = omap (fun p => match backend (getAuthProtocolMetadata p) with
                      | Fulfilled payload => Some (p, payload)
                      | Rejected _ => None
                      end)
            (List.filter (needsMetadata authProtocolMeta) protocolMetaTypeValues).
Proof.
  unfold trace.
  destruct (fetchMetadataEffect_shape t backend authProtocolMeta protocolMetaTypeValues)
    as (-> & -> & _).
  rewrite !omap_app.
  destruct (omap_requests (FormData := FormData) (Payload := Payload)
              (List.filter (needsMetadata authProtocolMeta) protocolMetaTypeValues))
    as [-> ->].
  destruct (omap_afterMetadataRequest t backend
              (List.filter (needsMetadata authProtocolMeta) protocolMetaTypeValues))
    as [-> ->].
  now rewrite app_nil_r.
Qed.

End HandlerProperties.

Module FacebookFormProperties.

Import Js FacebookAuthenticatorForm FacebookAuthenticatorFormFacts FacebookScopes.

(** [Array.prototype.join] *)
Fixpoint join (separator : string) (l : list string) : string :=
  match l with
  | [] => ""
  | x :: rest =>
      match rest with
      | [] => x
      | _ :: _ => x +:+ separator +:+ join separator rest
      end
  end.

(** How often a character occurs in a string. *)
Fixpoint occurrences (c : Ascii.ascii) (s : string) : nat :=
  match s with
  | EmptyString => 0
  | String d rest => (if Ascii.eqb d c then 1 else 0) + occurrences c rest
  end.

Definition textOf (d : DisplayName) : string :=
  match d with
  | CodeElement text => text
  | PlainText text => text
  end.

Lemma split_cons (separator : Ascii.ascii) (s : string) :
  exists token tokens, split separator s = token :: tokens.
Proof.
  destruct s as [| c rest]; cbn; [eauto |].
  destruct (Ascii.eqb c separator); [eauto |].
  destruct (split separator rest); eauto.
Qed.

Lemma join_split (separator : Ascii.ascii) (s : string) :
  join (String separator "") (split separator s) = s.
Proof.
  induction s as [| c rest IH]; [reflexivity |].
  cbn [split]. destruct (split_cons separator rest) as (token & tokens & Hsplit).
  rewrite Hsplit in *.
  destruct (Ascii.eqb_spec c separator) as [-> | Hne].
  - cbn [join]. cbn. now rewrite <- IH.
  - rewrite <- IH. cbn [join]. now destruct tokens.
Qed.

Lemma length_split (separator : Ascii.ascii) (s : string) :
  List.length (split separator s) = S (occurrences separator s).
Proof.
  induction s as [| c rest IH]; [reflexivity |].
  cbn [split occurrences]. destruct (split_cons separator rest) as (token & tokens & Hsplit).
  rewrite Hsplit in *.
  destruct (Ascii.eqb c separator); cbn in *; lia.
Qed.

Lemma split_tokens (separator : Ascii.ascii) (s : string) :
  Forall (fun token => occurrences separator token = 0) (split separator s).
Proof.
  induction s as [| c rest IH]; [now repeat constructor |].
  cbn [split]. destruct (split_cons separator rest) as (token & tokens & Hsplit).
  rewrite Hsplit in *. apply Forall_cons in IH as [Htoken Htokens].
  destruct (Ascii.eqb c separator) eqn:Hc.
  - now repeat constructor.
  - constructor; [| exact Htokens]. cbn. now rewrite Hc.
Qed.

Lemma testIds_imap (shownFor : string -> ScopeMetaInterface) (l : list string) :
  forall index : nat -> nat,
    map testId (imap (fun i scope => {| rowKey := index i;
                                        testId := scope;
                                        shown := shownFor scope |}) l) = l.
Proof.
  induction l as [| scope rest IH]; intros index; [reflexivity |].
  cbn. f_equal. exact (IH (index ∘ S)).
Qed.

(** Splitting a string at a character and joining the pieces with that
    character gives the string back; there is one piece more than there are
    separators, and no piece holds the separator. *)
Theorem split_join_round_trip (separator : Ascii.ascii) (s : string) :
  join (String separator "") (split separator s) = s
  /\ List.length (split separator s) = S (occurrences separator s)
  /\ Forall (fun token => occurrences separator token = 0) (split separator s).
Proof.
  split; [apply join_split |]. split; [apply length_split | apply split_tokens].
Qed.

(** X15.  The scopes section is rendered exactly when the resolved scope value
    is a non-empty string (the test on the number of pieces never fails).  It
    then has one row per space-separated piece of the value, in order and
    keyed by position; the test ids of the rows joined by spaces give the
    value back, and every row displays its own piece. *)
Theorem scopesSection_rows (EMAIL PUBLIC_PROFILE : string) (t : string -> string)
  (st : FormState) :
  (scopesSection EMAIL PUBLIC_PROFILE t st = None
   <-> truthyOpt (value st "scope") = false)
  /\ forall v,
       value st "scope" = Some v ->
       truthy v = true ->
       exists rows,
         scopesSection EMAIL PUBLIC_PROFILE t st = Some rows
         /\ List.length rows = S (occurrences Ascii.Space v)
         /\ join " " (map testId rows) = v
         /\ forall i row,
              rows !! i = Some row ->
              rowKey row = i
              /\ shown row = resolveScopeMetadata EMAIL PUBLIC_PROFILE t (testId row)
              /\ textOf (displayName (shown row)) = testId row.
Proof.
  unfold scopesSection. split.
  - destruct (value st "scope") as [v |]; [| now split].
    cbn [truthyOpt]. rewrite length_split. cbn [Nat.ltb Nat.leb]. rewrite andb_true_r.
    destruct (truthy v); split; congruence.
  - intros v -> Htruthy. rewrite Htruthy, length_split. cbn [Nat.ltb Nat.leb andb].
    eexists. split; [reflexivity |].
    split; [now rewrite length_imap, length_split |].
    split.
    + rewrite (testIds_imap (resolveScopeMetadata EMAIL PUBLIC_PROFILE t)
                 (split Ascii.Space v) (fun i => i)).
      apply (join_split Ascii.Space).
    + intros i row Hrow. rewrite list_lookup_imap in Hrow.
      destruct (split Ascii.Space v !! i) as [scope |]; [| discriminate].
      injection Hrow as <-. cbn. split; [reflexivity |]. split; [reflexivity |].
      unfold resolveScopeMetadata.
      destruct (String.eqb_spec scope EMAIL) as [-> | _]; [reflexivity |].
      destruct (String.eqb_spec scope PUBLIC_PROFILE) as [-> | _]; reflexivity.
Qed.

(** The property list built by the submit loop. *)
Lemma getUpdatedConfigurations_submitted
  (originalInitialValues : option CommonAuthenticatorFormInitialValuesInterface)
  (values : list (string * string)) :
  properties (getUpdatedConfigurations originalInitialValues values)
  = Some (map (fun entry => {| Property.key := fst entry; Property.value := snd entry |})
              values)
  /\ others (getUpdatedConfigurations originalInitialValues values)
     = match originalInitialValues with
       | Some o => others o
       | None => ∅
       end.
Proof.
  split; [| reflexivity].
  unfold getUpdatedConfigurations. cbn [properties]. now rewrite pushed_properties.
Qed.

Lemma scopesSection_rows_witness :
  exists rows,
    scopesSection "email" "public_profile" (fun key => key)
      {| formFields := Some {[ "scope" := {| Field.meta := None;
                                             Field.value := "email  user_friends" |} ]};
         initialValues := None |} = Some rows
    /\ List.length rows = 3
    /\ join " " (map testId rows) = "email  user_friends".
Proof.
  assert (Hvalue : value {| formFields :=
                              Some {[ "scope" := {| Field.meta := None;
                                                    Field.value := "email  user_friends" |} ]};
                            initialValues := None |} "scope"
                   = Some "email  user_friends") by (vm_compute; reflexivity).
  destruct (proj2 (scopesSection_rows "email" "public_profile" (fun key => key) _)
                  "email  user_friends" Hvalue eq_refl)
    as (rows & Hrows & Hlength & Hjoin & _).
  exists rows. split; [exact Hrows |]. split; [exact Hlength | exact Hjoin].
Defined.

(** With distinct keys the last entry of a key is the one a map built from
    the entries holds. *)
Lemma list_to_map_last (entries : list (string * string)) (k : string) :
  NoDup entries.*1 ->
  (list_to_map entries : gmap string string) !! k
  = snd <$> last (List.filter (fun entry => String.eqb (fst entry) k) entries).
Proof.
  induction entries as [| [k0 v0] rest IH]; intros Hnodup;
    [cbn [list_to_map foldr List.filter]; now rewrite lookup_empty |].
  cbn [fmap list_fmap fst] in Hnodup. apply NoDup_cons in Hnodup as [Hfresh Hnodup].
  cbn [list_to_map foldr List.filter fst snd].
  destruct (String.eqb_spec k0 k) as [-> | Hne].
  - rewrite lookup_insert_eq.
    assert (Hnone : List.filter (fun entry => String.eqb (fst entry) k) rest = []).
    { destruct (List.filter _ rest) as [| entry more] eqn:Hfilter; [reflexivity |].
      exfalso. apply Hfresh.
      assert (Hin : In entry (List.filter (fun entry => String.eqb (fst entry) k) rest))
        by (rewrite Hfilter; now left).
      apply filter_In in Hin as [Hin Hkey]. apply String.eqb_eq in Hkey. subst k.
      apply list_elem_of_fmap. exists entry. split; [reflexivity | now apply list_elem_of_In]. }
    now rewrite Hnone.
  - rewrite lookup_insert_ne by assumption. now apply IH.
Qed.

Lemma suppliedFor_submitted (values : list (string * string)) (k : string) :
  Property.value
  <$> last (suppliedFor k
              (map (fun entry => {| Property.key := fst entry; Property.value := snd entry |})
                   values))
  = snd <$> last (List.filter (fun entry => String.eqb (fst entry) k) values).
Proof.
  unfold suppliedFor.
  induction values as [| entry rest IH] using rev_ind; [reflexivity |].
  rewrite map_app, !List.filter_app, !last_app. cbn.
  destruct (String.eqb (fst entry) k); cbn; [reflexivity | exact IH].
Qed.

(** X16.  Submitting and initialising are inverse to each other on the values:
    when the form is initialised with the configuration that
    [getUpdatedConfigurations] built from a non-empty set of submitted values,
    the initial values it resolves are exactly the submitted values, and every
    field value read from the resolved map is the submitted one. *)
Theorem submit_then_initialise
  (metadata : option CommonAuthenticatorFormMetaInterface)
  (originalInitialValues : option CommonAuthenticatorFormInitialValuesInterface)
  (values : list (string * string)) (st : FormState) :
  values <> [] ->
  NoDup values.*1 ->
  initialValues
    (initialisationEffect metadata
       (Some (getUpdatedConfigurations originalInitialValues values)) st)
  = Some (list_to_map values)
  /\ forall k,
       value (initialisationEffect metadata
                (Some (getUpdatedConfigurations originalInitialValues values)) st) k
       = (list_to_map values : gmap string string) !! k.
Proof.
  intros Hne Hnodup.
  pose proof (proj1 (getUpdatedConfigurations_submitted originalInitialValues values))
    as Hproperties.
  unfold initialisationEffect, originalProperties. rewrite Hproperties.
  destruct values as [| entry rest] eqn:Hvalues; [congruence |]. rewrite <- Hvalues in *.
  assert (Hshape : isEmpty (Some (map (fun entry => {| Property.key := fst entry;
                                                       Property.value := snd entry |})
                                      values)) = false) by now rewrite Hvalues.
  rewrite Hshape. cbn [initialValues]. split.
  - f_equal. apply map_eq. intros k.
    rewrite (proj2 (resolved_lookup metadata _ k)), suppliedFor_submitted.
    symmetry. now apply list_to_map_last.
  - intros k. unfold value, fieldEntry. cbn [formFields].
    rewrite (proj1 (resolved_lookup metadata _ k)).
    rewrite list_to_map_last by assumption. rewrite <- suppliedFor_submitted.
    now destruct (last (suppliedFor k _)).
Qed.

Lemma submit_then_initialise_witness :
  initialValues
    (initialisationEffect (Some Examples.facebookMetadata)
       (Some (getUpdatedConfigurations (Some Examples.onlyClientId)
                [("ClientId", "xyz"); ("ClientSecret", "s3cret")])) unresolved)
  = Some (list_to_map [("ClientId", "xyz"); ("ClientSecret", "s3cret")]).
Proof.
  apply (submit_then_initialise (Some Examples.facebookMetadata) (Some Examples.onlyClientId)
           [("ClientId", "xyz"); ("ClientSecret", "s3cret")] unresolved).
  - discriminate.
  - apply (bool_decide_unpack _). vm_compute. exact I.
Defined.

(** X17.  After the initialisation effect ran on a non-empty property list,
    the attributes of an input are governed by what was supplied: for a
    supplied key the mandatory flag, the read-only flag and the maximum length
    are those of the first metadata declaration of that key; for a key that
    was not supplied all of them and the value are undefined, also when the
    metadata declares the key as mandatory. *)
Theorem resolved_field_attributes
  (metadata : option CommonAuthenticatorFormMetaInterface)
  (originalInitialValues : option CommonAuthenticatorFormInitialValuesInterface)
  (supplied : list Property.t) (st : FormState) (name : string) :
  originalProperties originalInitialValues = Some supplied ->
  supplied <> [] ->
  (name ∈ Property.key <$> supplied ->
   required (initialisationEffect metadata originalInitialValues st) name
   = FieldMeta.isMandatory <$> findMeta metadata name
   /\ readOnly (initialisationEffect metadata originalInitialValues st) name
      = FieldMeta.readOnly <$> findMeta metadata name
   /\ maxLength (initialisationEffect metadata originalInitialValues st) name
      = FieldMeta.maxLength <$> findMeta metadata name
   /\ is_Some (value (initialisationEffect metadata originalInitialValues st) name))
  /\ (name ∉ Property.key <$> supplied ->
      required (initialisationEffect metadata originalInitialValues st) name = None
      /\ readOnly (initialisationEffect metadata originalInitialValues st) name = None
      /\ maxLength (initialisationEffect metadata originalInitialValues st) name = None
      /\ value (initialisationEffect metadata originalInitialValues st) name = None).
Proof.
  intros Hsupplied Hne.
  assert (Heffect : initialisationEffect metadata originalInitialValues st
                    = {| formFields := Some (fst (foldl (resolveProperty metadata) (∅, ∅) supplied));
                         initialValues := Some (snd (foldl (resolveProperty metadata) (∅, ∅) supplied)) |}).
  { unfold initialisationEffect. rewrite Hsupplied. destruct supplied; [congruence | reflexivity]. }
  rewrite Heffect. unfold required, readOnly, maxLength, value, fieldMeta, fieldEntry.
  cbn [formFields]. rewrite (proj1 (resolved_lookup metadata supplied name)).
  split; intros Hname.
  - apply suppliedFor_nonempty in Hname as [p Hp]. rewrite Hp. cbn. eauto.
  - destruct (last (suppliedFor name supplied)) as [p |] eqn:Hp; [| now cbn].
    exfalso. apply Hname, suppliedFor_nonempty. eauto.
Qed.

Lemma resolved_field_attributes_witness :
  required (initialisationEffect (Some Examples.facebookMetadata)
              (Some Examples.onlyClientId) unresolved) "ClientId" = Some true
  /\ required (initialisationEffect (Some Examples.facebookMetadata)
                 (Some Examples.onlyClientId) unresolved) "ClientSecret" = None.
Proof.
  destruct (resolved_field_attributes (Some Examples.facebookMetadata)
              (Some Examples.onlyClientId)
              [ {| Property.key := "ClientId"; Property.value := "abc" |} ] unresolved
              "ClientId" eq_refl ltac:(discriminate)) as [Hsupplied _].
  destruct (resolved_field_attributes (Some Examples.facebookMetadata)
              (Some Examples.onlyClientId)
              [ {| Property.key := "ClientId"; Property.value := "abc" |} ] unresolved
              "ClientSecret" eq_refl ltac:(discriminate)) as [_ Hmissing].
  split.
  - apply Hsupplied. apply (bool_decide_unpack _). vm_compute. exact I.
  - apply Hmissing. apply (bool_decide_unpack _). vm_compute. exact I.
Defined.

End FacebookFormProperties.

Module FieldAdapterAttributeProperties.

Import Js JsFacts FieldAdapters FieldAdapterAttributes.

Lemma lookup_spread (o acc : gmap string JsValue) (k : string) :
  (o ∪ acc) !! k = match o !! k with
                   | Some v => Some v
                   | None => acc !! k
                   end.
Proof. rewrite lookup_union. destruct (o !! k), (acc !! k); reflexivity. Qed.

Lemma lookup_omit (o : gmap string JsValue) (keys : list string) (k : string) :
  omit o keys !! k = if includes k keys then None else o !! k.
Proof.
  unfold omit. induction keys as [| key rest IH]; cbn [foldr includes existsb]; [reflexivity |].
  destruct (String.eqb_spec k key) as [-> | Hne]; cbn [orb].
  - apply lookup_delete_eq.
  - rewrite lookup_delete_ne by congruence. exact IH.
Qed.

Lemma lookup_childObject_label (c : ChildFieldProps.t) (rest : gmap string JsValue) :
  childObject c rest !! "label" = Some (JString (ChildFieldProps.label c)).
Proof.
  unfold childObject. rewrite lookup_insert_ne by discriminate. apply lookup_insert_eq.
Qed.

(** The keys of [childFieldProps] that an adapter leaves out of its spread or
    overwrites afterwards. *)
Definition shadowed (kind : AdapterKind) : list string :=
  match kind with
  | TextField => ["value"; "listen"; "error"]
  | PasswordField => ["value"]
  | CopyField => ["label"; "value"]
  | TextArea => ["value"; "listen"; "error"]
  | SelectField => ["value"; "children"; "error"]
  end.

Ltac distinct_from_shadowed H :=
  repeat (apply not_elem_of_cons in H as [? H]).

Ltac look :=
  repeat first
    [ rewrite lookup_insert_eq
    | rewrite lookup_insert_ne by (discriminate || congruence)
    | rewrite lookup_delete_ne by (discriminate || congruence)
    | rewrite lookup_spread
    | rewrite lookup_omit ].

(** X18.  Whatever [childFieldProps] carries, the [value] attribute of the
    widget is the one the adapter computes: the text adapter leaves [value]
    out of its spread, and the other adapters set it after their spread. *)
Theorem value_attribute_is_computed (kind : AdapterKind) (props : AdapterProps)
  (rest inputRest : gmap string JsValue) :
  attributesOf props rest inputRest kind !! "value"
  = Some (ofOption (value (adapter kind props))).
Proof.
  destruct kind;
    cbn [attributesOf adapter TextFieldAttributes PasswordFieldAttributes CopyFieldAttributes
           TextAreaAttributes SelectAttributes];
    unfold TextFieldAttributes, PasswordFieldAttributes, CopyFieldAttributes,
      TextAreaAttributes, SelectAttributes, jsx; cbn [foldl]; look; reflexivity.
Qed.

(** X19.  Every other property of [childFieldProps] reaches the widget
    unchanged and wins over the attribute the adapter wrote before its spread.
    In particular the label written as [null] for an empty label never reaches
    the text, password and text-area widgets: they receive the label of
    [childFieldProps] as it is. *)
Theorem child_properties_pass_through (kind : AdapterKind) (props : AdapterProps)
  (rest inputRest : gmap string JsValue) :
  (forall k v,
     child props rest !! k = Some v ->
     k ∉ shadowed kind ->
     attributesOf props rest inputRest kind !! k = Some v)
  /\ (kind <> CopyField ->
      attributesOf props rest inputRest kind !! "label"
      = Some (JString (ChildFieldProps.label (childFieldProps props)))).
Proof.
  assert (Hpass : forall k v,
            child props rest !! k = Some v ->
            k ∉ shadowed kind ->
            attributesOf props rest inputRest kind !! k = Some v).
  { intros k v Hchild Hk.
    destruct kind; cbn [shadowed] in Hk; distinct_from_shadowed Hk;
      cbn [attributesOf];
      unfold TextFieldAttributes, PasswordFieldAttributes, CopyFieldAttributes,
        TextAreaAttributes, SelectAttributes, jsx; cbn [foldl]; look;
      cbn [includes existsb];
      repeat match goal with
             | Hne : ?k0 <> ?key |- context [String.eqb ?k0 ?key] =>
                 rewrite (proj2 (String.eqb_neq k0 key) Hne)
             end;
      cbn [orb]; now rewrite Hchild. }
  split; [exact Hpass |].
  intros Hkind. apply Hpass; [apply lookup_childObject_label |].
  destruct kind; cbn [shadowed]; try contradiction;
    repeat (apply not_elem_of_cons; split; [discriminate |]); apply not_elem_of_nil.
Qed.

Lemma child_properties_pass_through_witness :
  attributesOf
    {| childFieldProps := {| ChildFieldProps.name := "ClientId";
                             ChildFieldProps.value := None;
                             ChildFieldProps.label := "" |};
       input := {| Input.value := None |};
       meta := {| Meta.modified := false; Meta.touched := false; Meta.error := None |};
       parentFormProps := None |}
    ∅ ∅ TextField !! "label" = Some (JString "").
Proof.
  apply (child_properties_pass_through TextField
           {| childFieldProps := {| ChildFieldProps.name := "ClientId";
                                    ChildFieldProps.value := None;
                                    ChildFieldProps.label := "" |};
              input := {| Input.value := None |};
              meta := {| Meta.modified := false; Meta.touched := false;
                         Meta.error := None |};
              parentFormProps := None |} ∅ ∅).
  discriminate.
Defined.

(** X20.  Who decides the [error] attribute.  The text, text-area and select
    adapters write their computed error after the spread, so it always wins.
    The password adapter writes it before the spread: an [error] property of
    [childFieldProps] replaces the computed one.  The copy adapter computes no
    error and passes on what [childFieldProps] holds. *)
Theorem error_attribute (kind : AdapterKind) (props : AdapterProps)
  (rest inputRest : gmap string JsValue) :
  attributesOf props rest inputRest kind !! "error"
  = match kind with
    | TextField | TextArea | SelectField =>
        Some (errorOrNull (Meta.modified (meta props)) props)
    | PasswordField =>
        Some (default (errorOrNull (Meta.touched (meta props)) props)
                      (child props rest !! "error"))
    | CopyField => child props rest !! "error"
    end.
Proof.
  destruct kind; cbn [attributesOf];
    unfold TextFieldAttributes, PasswordFieldAttributes, CopyFieldAttributes,
      TextAreaAttributes, SelectAttributes, jsx; cbn [foldl]; look;
    try reflexivity.
  - now destruct (child props rest !! "error").
  - now destruct (child props rest !! "error").
Qed.

(** X21.  The toggle adapter throws exactly when [childFieldProps] has no
    value.  Otherwise every property of [childFieldProps] reaches the
    checkbox, and the checkbox starts checked exactly when the value is not
    empty, unless [childFieldProps] sets [defaultChecked] itself. *)
Theorem toggle_attributes (props : AdapterProps) (rest : gmap string JsValue) :
  (ToggleAttributes props rest = Throw TypeError
   <-> ChildFieldProps.value (childFieldProps props) = None)
  /\ forall v,
       ChildFieldProps.value (childFieldProps props) = Some v ->
       exists attributes,
         ToggleAttributes props rest = Normal attributes
         /\ attributes !! "defaultChecked"
            = Some (default (JBool (negb (String.eqb v "")))
                            (child props rest !! "defaultChecked"))
         /\ forall k w, child props rest !! k = Some w -> attributes !! k = Some w.
Proof.
  unfold ToggleAttributes. split.
  - destruct (ChildFieldProps.value (childFieldProps props)); split; congruence.
  - intros v ->. eexists. split; [reflexivity |]. unfold jsx. cbn [foldl]. split.
    + look. destruct (child props rest !! "defaultChecked"); [reflexivity |].
      cbn. now destruct v.
    + intros k w Hk. look. now rewrite Hk.
Qed.

Lemma toggle_attributes_witness :
  exists attributes,
    ToggleAttributes
      {| childFieldProps := {| ChildFieldProps.name := "isEnabled";
                               ChildFieldProps.value := Some "";
                               ChildFieldProps.label := "Enabled" |};
         input := {| Input.value := None |};
         meta := {| Meta.modified := false; Meta.touched := false; Meta.error := None |};
         parentFormProps := None |} ∅ = Normal attributes
    /\ attributes !! "label" = Some (JString "Enabled").
Proof.
  destruct (proj2 (toggle_attributes
                     {| childFieldProps := {| ChildFieldProps.name := "isEnabled";
                                              ChildFieldProps.value := Some "";
                                              ChildFieldProps.label := "Enabled" |};
                        input := {| Input.value := None |};
                        meta := {| Meta.modified := false; Meta.touched := false;
                                   Meta.error := None |};
                        parentFormProps := None |} ∅) "" eq_refl)
    as (attributes & Hrun & _ & Hpass).
  exists attributes. split; [exact Hrun |].
  apply Hpass. apply lookup_childObject_label.
Defined.

End FieldAdapterAttributeProperties.

Module ButtonAdapterProperties.

Import Js JsFacts FieldAdapterAttributes FieldAdapterAttributeProperties ButtonAdapters.

(** X22.  The button adapter never passes [label] as an attribute, passes every
    other property of [childFieldProps] on unchanged except that it gives the
    primary button the type [submit] whatever [childFieldProps] says, and
    shows the label as the child of every button but the cancel button, whose
    text is fixed. *)
Theorem button_attributes {B : FieldButtonTypes} (childFieldProps : gmap string JsValue) :
  attributes (ButtonAdapter childFieldProps) !! "label" = None
  /\ (forall k v,
        childFieldProps !! k = Some v -> k <> "label" -> k <> "type" ->
        attributes (ButtonAdapter childFieldProps) !! k = Some v)
  /\ attributes (ButtonAdapter childFieldProps) !! "type"
     = (if isType (read childFieldProps "buttonType") BUTTON_PRIMARY
        then Some (JString "submit")
        else childFieldProps !! "type")
  /\ children (ButtonAdapter childFieldProps)
     = (if negb (isType (read childFieldProps "buttonType") BUTTON_PRIMARY)
           && isType (read childFieldProps "buttonType") BUTTON_CANCEL
        then JString "Cancel"
        else read childFieldProps "label").
Proof.
  assert (Hcommon : forall k,
            jsx (commonAttributes childFieldProps) !! k
            = if String.eqb k "disabled" then Some (read childFieldProps "disabled")
              else if String.eqb k "label" then None
              else childFieldProps !! k).
  { intros k. unfold commonAttributes, jsx. cbn [foldl].
    destruct (String.eqb_spec k "disabled") as [-> | Hd]; [apply lookup_insert_eq |].
    rewrite lookup_insert_ne by congruence.
    rewrite lookup_spread, lookup_omit, lookup_empty. cbn [includes existsb orb].
    destruct (String.eqb k "label"); [reflexivity |]. now destruct (childFieldProps !! k). }
  assert (Hprimary : forall k,
            jsx (commonAttributes childFieldProps ++ [Attribute "type" (JString "submit")]) !! k
            = if String.eqb k "type" then Some (JString "submit")
              else jsx (commonAttributes childFieldProps) !! k).
  { intros k. unfold jsx. rewrite foldl_app. cbn [foldl].
    destruct (String.eqb_spec k "type") as [-> | Ht]; [apply lookup_insert_eq |].
    now rewrite lookup_insert_ne by congruence. }
  assert (Hdisabled : forall v, childFieldProps !! "disabled" = Some v ->
                                read childFieldProps "disabled" = v).
  { intros v Hv. unfold read. now rewrite Hv. }
  unfold ButtonAdapter.
  destruct (isType (read childFieldProps "buttonType") BUTTON_PRIMARY);
    [| destruct (isType (read childFieldProps "buttonType") BUTTON_CANCEL);
       [| destruct (isType (read childFieldProps "buttonType") BUTTON_LINK);
          [| destruct (isType (read childFieldProps "buttonType") BUTTON_DANGER)]]];
    cbn [attributes children negb andb];
    (split; [rewrite ?Hprimary, Hcommon; reflexivity |]);
    (split; [| split; [rewrite ?Hprimary, ?Hcommon; reflexivity | reflexivity]]);
    intros k v Hk Hlabel Htype; rewrite ?Hprimary, Hcommon;
    rewrite ?(proj2 (String.eqb_neq k "type") Htype), (proj2 (String.eqb_neq k "label") Hlabel);
    (destruct (String.eqb_spec k "disabled") as [-> | _];
       [f_equal; now apply Hdisabled | exact Hk]).
Qed.

Lemma button_attributes_witness :
  attributes
    (ButtonAdapter
       (B := {| BUTTON_PRIMARY := "primary_btn"; BUTTON_CANCEL := "cancel_btn";
                BUTTON_LINK := "link_btn"; BUTTON_DANGER := "danger_btn" |})
       {[ "buttonType" := JString "primary_btn"; "size" := JString "small" ]}) !! "size"
  = Some (JString "small").
Proof.
  apply (button_attributes
           (B := {| BUTTON_PRIMARY := "primary_btn"; BUTTON_CANCEL := "cancel_btn";
                    BUTTON_LINK := "link_btn"; BUTTON_DANGER := "danger_btn" |})
           {[ "buttonType" := JString "primary_btn"; "size" := JString "small" ]}).
  - vm_compute. reflexivity.
  - discriminate.
  - discriminate.
Defined.

End ButtonAdapterProperties.
